(** * thought-logger: the message triage engine

    A shallow embedding of the three Supabase edge functions of the
    repository (the Telegram webhook, [ai-classify] and
    [ai-summarize-range]) together with the properties of the triage engine
    that the specification states about them.

    Conventions of the embedding.
    - A JavaScript number is a rational or one of [NaN], [Infinity],
      [-Infinity]; arithmetic on finite numbers is exact (rounding of
      doubles and the sign of zero are not modelled).  The review score, which
      goes through [Math.exp], is a real number.
    - An instant (a [Date], a [timestamptz] column, an ISO-8601 string made
      by [toISOString]) is its time value: an integer count of milliseconds
      since the epoch.
    - A string is a sequence of 8-bit code units.
    - Handlers are functions in a state-and-exception monad over the
      database and the log of outbound calls; [Date.now()] is an argument.
    - The store answers every request: it refuses a row only by a unique key
      that is modelled, and the search procedure fails as the environment
      says.  A message that the bot sends is one call, whatever its length;
      the cutting of a long text into chunks is a function of its own. *)

From Stdlib Require Import ZArith QArith Qround Qreals Reals Lra Lia.
From Stdlib Require Import List Sorted String Ascii Bool DecimalString.
From stdpp Require Import gmap strings.
Import ListNotations.

Set Warnings "-register-all".

(** * The JavaScript runtime *)

Module JS.

(** ** Numbers *)

Inductive number : Type :=
| Fin (q : Q)
| NaN
| PosInfinity
| NegInfinity.

Definition of_Z (z : Z) : number := Fin (inject_Z z).

Definition isFinite (n : number) : bool :=
  match n with Fin _ => true | _ => false end.

Definition Qsgn (q : Q) : comparison := (Qnum q ?= 0)%Z.

Definition neg (a : number) : number :=
  match a with
  | Fin x => Fin (- x)
  | NaN => NaN
  | PosInfinity => NegInfinity
  | NegInfinity => PosInfinity
  end.

Definition add (a b : number) : number :=
  match a, b with
  | NaN, _ | _, NaN => NaN
  | Fin x, Fin y => Fin (x + y)
  | PosInfinity, NegInfinity | NegInfinity, PosInfinity => NaN
  | PosInfinity, _ | _, PosInfinity => PosInfinity
  | NegInfinity, _ | _, NegInfinity => NegInfinity
  end.

Definition sub (a b : number) : number := add a (neg b).

Definition scale_inf (pos : bool) (x : Q) : number :=
  match Qsgn x with
  | Eq => NaN
  | Gt => if pos then PosInfinity else NegInfinity
  | Lt => if pos then NegInfinity else PosInfinity
  end.

Definition mul (a b : number) : number :=
  match a, b with
  | NaN, _ | _, NaN => NaN
  | Fin x, Fin y => Fin (x * y)
  | Fin x, PosInfinity | PosInfinity, Fin x => scale_inf true x
  | Fin x, NegInfinity | NegInfinity, Fin x => scale_inf false x
  | PosInfinity, PosInfinity | NegInfinity, NegInfinity => PosInfinity
  | PosInfinity, NegInfinity | NegInfinity, PosInfinity => NegInfinity
  end.

(** [a < b] on numbers; any comparison with [NaN] is false. *)
Definition ltb (a b : number) : bool :=
  match a, b with
  | NaN, _ | _, NaN => false
  | Fin x, Fin y => negb (Qle_bool y x)
  | NegInfinity, NegInfinity => false
  | NegInfinity, _ => true
  | _, PosInfinity => match a with PosInfinity => false | _ => true end
  | _, _ => false
  end.

Definition Math_max (a b : number) : number :=
  match a, b with
  | NaN, _ | _, NaN => NaN
  | _, _ => if ltb a b then b else a
  end.

Definition Math_min (a b : number) : number :=
  match a, b with
  | NaN, _ | _, NaN => NaN
  | _, _ => if ltb b a then b else a
  end.

(** Truncation towards zero (the finite case of [ToIntegerOrInfinity]). *)
Definition Qtrunc (q : Q) : Z :=
  if Qle_bool 0 q then Qfloor q else Qceiling q.

(** [!!n] for a number. *)
Definition truthy_number (n : number) : bool :=
  match n with
  | Fin q => negb (Qeq_bool q 0)
  | NaN => false
  | _ => true
  end.

(** ** Completion records: a value or a thrown exception *)

Inductive js_error : Type :=
| TypeError (what : string)
| RangeError (what : string)
| Error (what : string)
| PostgrestError (code : string).

Inductive result (A : Type) : Type :=
| Ok (a : A)
| Throw (e : js_error).
Arguments Ok {A} a.
Arguments Throw {A} e.

(** ** Dates *)

(** The time value of a [Date]: [None] is the invalid date. *)
Definition Date : Type := option Z.
Definition instant : Type := Z.

Definition maxTime : Z := 8640000000000000.
Definition msPerDay : Z := 86400000.

Definition TimeClip (t : number) : Date :=
  match t with
  | Fin q => let z := Qtrunc q in
             if (Z.abs z <=? maxTime)%Z then Some z else None
  | _ => None
  end.

(** [new Date(value)] for a numeric [value]. *)
Definition new_Date (t : number) : Date := TimeClip t.

(** [d.toISOString()]: the instant, or a [RangeError] on the invalid date. *)
Definition toISOString (d : Date) : result instant :=
  match d with
  | Some t => Ok t
  | None => Throw (RangeError "Invalid time value")
  end.

(** Day number and time within the day. *)
Definition Day (t : Z) : Z := (t / msPerDay)%Z.
Definition TimeWithinDay (t : Z) : Z := (t mod msPerDay)%Z.

Definition DayFromYear (y : Z) : Z :=
  (365 * (y - 1970) + (y - 1969) / 4 - (y - 1901) / 100 + (y - 1601) / 400)%Z.

Definition isLeapYear (y : Z) : bool :=
  ((y mod 4 =? 0) && negb (y mod 100 =? 0) || (y mod 400 =? 0))%Z.

(** The year of day number [d]: the largest [y] with [DayFromYear y <= d],
    found from an estimate that is off by at most one. *)
Definition YearFromDay (d : Z) : Z :=
  let y := (1970 + d * 10000 / 3652425)%Z in
  if (d <? DayFromYear y)%Z then (y - 1)%Z
  else if (DayFromYear (y + 1) <=? d)%Z then (y + 1)%Z
  else y.

Definition YearFromTime (t : Z) : Z := YearFromDay (Day t).
Definition DayWithinYear (t : Z) : Z := (Day t - DayFromYear (YearFromTime t))%Z.

(** Number of days of the year before month [m] (0 = January). *)
Definition monthStart (leap : bool) (m : Z) : Z :=
  let l := if leap then 1%Z else 0%Z in
  (match m with
   | 0 => 0 | 1 => 31 | 2 => 59 + l | 3 => 90 + l | 4 => 120 + l
   | 5 => 151 + l | 6 => 181 + l | 7 => 212 + l | 8 => 243 + l
   | 9 => 273 + l | 10 => 304 + l | _ => 334 + l
   end)%Z.

Definition MonthFromTime (t : Z) : Z :=
  let leap := isLeapYear (YearFromTime t) in
  let d := DayWithinYear t in
  let fix find (fuel : nat) (m : Z) : Z :=
    match fuel with
    | O => m
    | S fuel' => if (d <? monthStart leap (m + 1))%Z then m else find fuel' (m + 1)%Z
    end in
  find 11%nat 0%Z.

Definition DateFromTime (t : Z) : Z :=
  (DayWithinYear t - monthStart (isLeapYear (YearFromTime t)) (MonthFromTime t) + 1)%Z.

(** [MakeDay(year, month, date)] for integral arguments. *)
Definition MakeDay (year month date : Z) : Z :=
  let ym := (year + month / 12)%Z in
  let mn := (month mod 12)%Z in
  (DayFromYear ym + monthStart (isLeapYear ym) mn + date - 1)%Z.

Definition MakeDate (day time : Z) : Z := (day * msPerDay + time)%Z.

(** [Date.UTC(year, month, date)]: years 0..99 mean 1900..1999. *)
Definition Date_UTC (year month date : Z) : Date :=
  let yr := if ((0 <=? year) && (year <=? 99))%Z then (1900 + year)%Z else year in
  TimeClip (of_Z (MakeDate (MakeDay yr month date) 0)).

(** [d.setUTCDate(dt)]: the date after the call. *)
Definition setUTCDate (d : Date) (dt : number) : Date :=
  match d, dt with
  | Some t, Fin q =>
      TimeClip (of_Z (MakeDate (MakeDay (YearFromTime t) (MonthFromTime t) (Qtrunc q))
                               (TimeWithinDay t)))
  | _, _ => None
  end.

(** ** Strings *)

(** The white space class of [\s] and of [trim]. *)
Definition is_ws (c : ascii) : bool :=
  let n := nat_of_ascii c in
  ((9 <=? n) && (n <=? 13) || (n =? 32) || (n =? 160))%nat.

Fixpoint trimStart (s : string) : string :=
  match s with
  | String c s' => if is_ws c then trimStart s' else s
  | EmptyString => EmptyString
  end.

Definition rev_string (s : string) : string :=
  string_of_list_ascii (List.rev (list_ascii_of_string s)).

Definition trimEnd (s : string) : string := rev_string (trimStart (rev_string s)).

(** [s.trim()]. *)
Definition trim (s : string) : string := trimEnd (trimStart s).

(** [s.split(/\s+/)]: the pieces between maximal runs of white space. *)
Fixpoint split_ws_from (cur : string) (in_sep : bool) (s : string) : list string :=
  match s with
  | EmptyString => [rev_string cur]
  | String c s' =>
      if is_ws c then
        if in_sep then split_ws_from cur true s'
        else rev_string cur :: split_ws_from EmptyString true s'
      else split_ws_from (String c cur) false s'
  end.

Definition split_ws (s : string) : list string := split_ws_from EmptyString false s.

(** [s.split(sep)] for a one-character separator. *)
Fixpoint split_char_from (sep : ascii) (cur : string) (s : string) : list string :=
  match s with
  | EmptyString => [rev_string cur]
  | String c s' =>
      if Ascii.eqb c sep then rev_string cur :: split_char_from sep EmptyString s'
      else split_char_from sep (String c cur) s'
  end.

Definition split_char (sep : ascii) (s : string) : list string :=
  split_char_from sep EmptyString s.

(** [s.startsWith(c)] for a one-character prefix. *)
Definition startsWith (c : ascii) (s : string) : bool :=
  match s with
  | String c' _ => Ascii.eqb c' c
  | EmptyString => false
  end.

(** [s.slice(1)]. *)
Definition slice1 (s : string) : string :=
  match s with
  | String _ s' => s'
  | EmptyString => EmptyString
  end.

(** [s.slice(0, n)]. *)
Fixpoint slice0 (n : nat) (s : string) : string :=
  match n, s with
  | S n', String c s' => String c (slice0 n' s')
  | _, _ => EmptyString
  end.

(** [parts.join(sep)]. *)
Definition join (sep : string) (parts : list string) : string :=
  String.concat sep parts.

(** A string is truthy when it is not empty. *)
Definition truthy_string (s : string) : bool :=
  match s with EmptyString => false | _ => true end.

Definition dquote : ascii := ascii_of_nat 34.

(** The replacement that [/dtg] applies to its phrase: one leading and one
    trailing double quote are removed. *)
Definition strip_quotes (s : string) : string :=
  let s1 := if startsWith dquote s then slice1 s else s in
  let r := rev_string s1 in
  if startsWith dquote r then rev_string (slice1 r) else s1.

(** Decimal digits of an integer, padded with zeros to [width] digits. *)
Definition digits (z : Z) : string := NilZero.string_of_uint (N.to_uint (Z.to_N z)).

Fixpoint zeros (n : nat) : string :=
  match n with O => EmptyString | S n' => String "0" (zeros n') end.

Definition padStart (width : nat) (z : Z) : string :=
  let d := digits z in
  zeros (width - String.length d) +:+ d.

(** The first ten characters of the ISO-8601 form of an instant:
    [YYYY-MM-DD] for the years 0 to 9999, the start of the expanded form
    ([+YYYYYY-MM] or [-YYYYYY-MM]) otherwise. *)
Definition iso_date (t : instant) : string :=
  let y := YearFromTime t in
  let m := (MonthFromTime t + 1)%Z in
  let d := DateFromTime t in
  if ((0 <=? y) && (y <=? 9999))%Z then
    padStart 4 y +:+ "-" +:+ padStart 2 m +:+ "-" +:+ padStart 2 d
  else
    slice0 10 ((if (0 <=? y)%Z then "+" else "-") +:+ padStart 6 (Z.abs y)
               +:+ "-" +:+ padStart 2 m +:+ "-" +:+ padStart 2 d).

(** ** JSON values *)

Inductive json : Type :=
| JNull
| JBool (b : bool)
| JNum (n : number)
| JStr (s : string)
| JArr (items : list json)
| JObj (fields : list (string * json)).

(** A JavaScript value read out of parsed JSON; [None] is [undefined]. *)
Abbreviation value := (option json).

Fixpoint assoc (k : string) (fields : list (string * json)) : value :=
  match fields with
  | [] => None
  | (k', v) :: rest => if String.eqb k k' then Some v else assoc k rest
  end.

(** [o.k] for [o] neither [null] nor [undefined], and [k] a key that no
    prototype defines. *)
Definition prop (o : json) (k : string) : value :=
  match o with
  | JObj fields => assoc k fields
  | _ => None
  end.

(** [v?.k]. *)
Definition opt_get (v : value) (k : string) : value :=
  match v with
  | None | Some JNull => None
  | Some o => prop o k
  end.

(** [v?.[0]]: the first element of an array, the first character of a
    string, the field ["0"] of an object. *)
Definition opt_first (v : value) : value :=
  match v with
  | Some (JArr (x :: _)) => Some x
  | Some (JStr (String c _)) => Some (JStr (String c EmptyString))
  | Some (JObj fields) => assoc "0" fields
  | _ => None
  end.

(** [v ?? d]. *)
Definition nullish (v : value) (d : json) : json :=
  match v with
  | None | Some JNull => d
  | Some x => x
  end.


(** [typeof v === "object"]: objects, arrays and [null]. *)
Definition typeof_object (v : value) : bool :=
  match v with
  | Some (JObj _) | Some (JArr _) | Some JNull => true
  | _ => false
  end.

Definition Array_isArray (v : value) : bool :=
  match v with Some (JArr _) => true | _ => false end.

(** [!!v]. *)
Definition truthy (v : value) : bool :=
  match v with
  | None | Some JNull => false
  | Some (JBool b) => b
  | Some (JNum n) => truthy_number n
  | Some (JStr s) => truthy_string s
  | Some (JArr _) | Some (JObj _) => true
  end.

(** The conversions the language leaves to its grammar of numeric literals
    and to the JSON grammar. *)
Class Runtime : Type := {
  StringToNumber : string -> number;
  NumberToString : number -> string;
  JSON_parse : string -> option json
}.

Section Conversions.
Context {rt : Runtime}.

(** [String(v)] for a JSON value. *)
Fixpoint ToString (v : json) : string :=
  match v with
  | JNull => "null"
  | JBool true => "true"
  | JBool false => "false"
  | JNum n => NumberToString n
  | JStr s => s
  | JArr items =>
      (fix joined (l : list json) : string :=
         match l with
         | [] => EmptyString
         | x :: rest =>
             let e := match x with JNull => EmptyString | _ => ToString x end in
             match rest with
             | [] => e
             | _ => e +:+ "," +:+ joined rest
             end
         end) items
  | JObj _ => "[object Object]"
  end.

(** [Number(v)]. *)
Definition ToNumber (v : value) : number :=
  match v with
  | None => NaN
  | Some JNull => of_Z 0
  | Some (JBool b) => if b then of_Z 1 else of_Z 0
  | Some (JNum n) => n
  | Some (JStr s) => StringToNumber s
  | Some (JArr items) => StringToNumber (ToString (JArr items))
  | Some (JObj fields) => StringToNumber (ToString (JObj fields))
  end.

(** [JSON.parse(v)]: the argument is converted to a string first; [None]
    is a [SyntaxError]. *)
Definition JSON_parse_value (v : json) : option json := JSON_parse (ToString v).
End Conversions.

End JS.

Import JS.

(** ** The handler monad: state and exceptions

    A handler runs over a state [S] (the database and the log of the calls
    it made to the outside) and either returns or throws; the state reached
    so far survives a throw. *)

Definition M (S A : Type) : Type := S -> result A * S.

Definition ret {S A : Type} (a : A) : M S A := fun s => (Ok a, s).

Definition throw {S A : Type} (e : js_error) : M S A := fun s => (Throw e, s).

Definition bind {S A B : Type} (c : M S A) (k : A -> M S B) : M S B :=
  fun s =>
    match c s with
    | (Ok a, s') => k a s'
    | (Throw e, s') => (Throw e, s')
    end.

(** A completion record as a computation. *)
Definition lift {S A : Type} (r : result A) : M S A := fun s => (r, s).

Definition gets {S A : Type} (f : S -> A) : M S A := fun s => (Ok (f s), s).

Definition modify {S : Type} (f : S -> S) : M S unit := fun s => (Ok tt, f s).

(** A relation between the state before and after that a computation
    maintains, whether it returns or throws. *)
Definition keeps {S A : Type} (R : S -> S -> Prop) (c : M S A) : Prop :=
  forall s, R s (snd (c s)).

Declare Scope handler_scope.
Delimit Scope handler_scope with handler.
Notation "'let*' x ':=' c 'in' k" := (bind c (fun x => k))
  (at level 10, x name, c at level 100, k at level 200) : handler_scope.

(** * The Telegram update, as the Bot API types it *)

Module Telegram.

Record User : Type := {
  user_id : option Z;
  first_name : option string;
  username : option string
}.

(** [text] is [None] when the message carries no string in that field;
    [chat_id] is [msg.chat.id]. *)
Record Message : Type := {
  message_id : option Z;
  from : option User;
  chat_id : Z;
  date : option Z;
  text : option string
}.

(** [cq_chat_id] is [cq.message?.chat?.id]. *)
Record CallbackQuery : Type := {
  cq_id : string;
  data : option string;
  cq_chat_id : option Z
}.

Record Update : Type := {
  update_id : option Z;
  message : option Message;
  edited_message : option Message;
  callback_query : option CallbackQuery
}.

End Telegram.

(** * The database

    The tables the three functions share.  The schema itself is not part of
    the sources; what the code relies on is fixed here. *)

Module Store.

Record user_row : Type := {
  u_id : string;
  telegram_user_id : option Z;
  display_name : string
}.

Record message_row : Type := {
  m_id : string;
  telegram_update_id : option Z;
  telegram_message_id : option Z;
  chat_id : Z;
  from_user_id : string;
  text : string;
  created_at : instant;
  payload : Telegram.Update;
  is_question : option bool;
  needs_reply : option bool;
  followup : option bool;
  urgency_score : option Q;
  topics : option json;
  entities : option json;
  sentiment : option Q;
  replied : option bool
}.

Inductive followup_status : Type := open | done.

Record followup_row : Type := {
  status : followup_status;
  due_at : option instant;
  resolved_at : option instant
}.

(** [summary_md] holds what the summarizer answered, as it came. *)
Record summary_row : Type := {
  start_date : string;
  end_date : string;
  summary_md : json
}.

(** [messages], [users] and [summaries] are kept in insertion order;
    [followups] and [embeddings] are keyed by their unique [message_id]. *)
Record db : Type := {
  users : list user_row;
  messages : list message_row;
  embeddings : gmap string (list number);
  followups : gmap string followup_row;
  summaries : list summary_row
}.

Definition empty : db :=
  {| users := []; messages := []; embeddings := ∅; followups := ∅; summaries := [] |}.

Definition set_users (f : list user_row -> list user_row) (d : db) : db :=
  {| users := f (users d); messages := messages d; embeddings := embeddings d;
     followups := followups d; summaries := summaries d |}.

Definition set_messages (f : list message_row -> list message_row) (d : db) : db :=
  {| users := users d; messages := f (messages d); embeddings := embeddings d;
     followups := followups d; summaries := summaries d |}.

Definition set_embeddings (f : gmap string (list number) -> gmap string (list number))
    (d : db) : db :=
  {| users := users d; messages := messages d; embeddings := f (embeddings d);
     followups := followups d; summaries := summaries d |}.

Definition set_followups (f : gmap string followup_row -> gmap string followup_row)
    (d : db) : db :=
  {| users := users d; messages := messages d; embeddings := embeddings d;
     followups := f (followups d); summaries := summaries d |}.

Definition set_summaries (f : list summary_row -> list summary_row) (d : db) : db :=
  {| users := users d; messages := messages d; embeddings := embeddings d;
     followups := followups d; summaries := f (summaries d) |}.

(** The error PostgREST reports; [code] is the SQLSTATE. *)
Record pg_error : Type := { code : string }.

Definition unique_violation : pg_error := {| code := "23505" |}.

(** What a call to the store resolves to: [{ data, error }]. *)
Record response (A : Type) : Type := { data_of : option A; error_of : option pg_error }.
Arguments data_of {A} r.
Arguments error_of {A} r.

(** Modelled from the spec: the key the store generates for a new row
    ([id (unique, system-generated)]); the generator is not in the sources.
    The [n]-th row of a table gets the tag of the table followed by [n]. *)
Definition gen_id (tag : string) (n : nat) : string := tag +:+ digits (Z.of_nat n).

(** Modelled from the spec: the uniqueness constraint of [messages]
    ([external_ref] is unique when present).  The reference of the source
    event is [telegram_update_id]. *)
Definition same_update (ref : option Z) (m : message_row) : bool :=
  match ref, telegram_update_id m with
  | Some a, Some b => (a =? b)%Z
  | _, _ => false
  end.

Definition already_stored (ref : option Z) (d : db) : bool :=
  existsb (same_update ref) (messages d).

(** A message as [insertMessage] writes it: the classification columns are
    unset, [replied] takes its declared default. *)
Definition new_message (id : string) (update_ref message_ref : option Z) (chat : Z)
    (from_user : string) (txt : string) (created : instant) (upd : Telegram.Update)
    : message_row :=
  {| m_id := id; telegram_update_id := update_ref; telegram_message_id := message_ref;
     chat_id := chat; from_user_id := from_user; text := txt; created_at := created;
     payload := upd;
     is_question := None; needs_reply := None; followup := None; urgency_score := None;
     topics := None; entities := None; sentiment := None; replied := Some false |}.

(** [from("messages").insert(row).select("id").maybeSingle()]. *)
Definition insert_message (update_ref message_ref : option Z) (chat : Z)
    (from_user : string) (txt : string) (created : instant) (upd : Telegram.Update)
    (d : db) : response string * db :=
  if already_stored update_ref d then
    ({| data_of := None; error_of := Some unique_violation |}, d)
  else
    let id := gen_id "m" (List.length (messages d)) in
    ({| data_of := Some id; error_of := None |},
     set_messages (fun rows => rows ++ [new_message id update_ref message_ref chat
                                          from_user txt created upd]) d).

(** [from("users").upsert(row, { onConflict: "telegram_user_id" })
    .select("id, telegram_user_id").single()]: a row with the same non-null
    key is updated in place, otherwise a row is added. *)
Definition same_user (key : option Z) (u : user_row) : bool :=
  match key, telegram_user_id u with
  | Some a, Some b => (a =? b)%Z
  | _, _ => false
  end.

Definition upsert_user (key : option Z) (display : string) (d : db)
    : response user_row * db :=
  match List.find (same_user key) (users d) with
  | Some u =>
      let u' := {| u_id := u_id u; telegram_user_id := key; display_name := display |} in
      ({| data_of := Some u'; error_of := None |},
       set_users (List.map (fun r => if same_user key r then u' else r)) d)
  | None =>
      let u' := {| u_id := gen_id "u" (List.length (users d));
                   telegram_user_id := key; display_name := display |} in
      ({| data_of := Some u'; error_of := None |}, set_users (fun rows => rows ++ [u']) d)
  end.

(** A stable sort: [after a b] says that [a] has to come after [b]. Equal
    elements keep the order they had. *)
Section Sorting.
Context {A : Type} (after : A -> A -> bool).

Fixpoint insert_sorted (x : A) (l : list A) : list A :=
  match l with
  | [] => [x]
  | y :: l' => if after x y then y :: insert_sorted x l' else x :: l
  end.

Definition stable_sort (l : list A) : list A := List.fold_right insert_sorted [] l.
End Sorting.

(** [from("messages").select(...).gte("created_at", since)
    .order("created_at", { ascending: false }).limit(n)]. *)
Definition recent_messages (since : instant) (n : nat) (d : db) : list message_row :=
  List.firstn n
    (stable_sort (fun a b => (created_at a <? created_at b)%Z)
       (List.filter (fun m => (since <=? created_at m)%Z) (messages d))).

(** [from("messages").update({ replied: true }).eq("id", id)]. *)
Definition set_replied (m : message_row) : message_row :=
  {| m_id := m_id m; telegram_update_id := telegram_update_id m;
     telegram_message_id := telegram_message_id m; chat_id := chat_id m;
     from_user_id := from_user_id m; text := text m; created_at := created_at m;
     payload := payload m;
     is_question := is_question m; needs_reply := needs_reply m; followup := followup m;
     urgency_score := urgency_score m; topics := topics m; entities := entities m;
     sentiment := sentiment m; replied := Some true |}.

Definition mark_replied (id : option string) (d : db) : db :=
  match id with
  | Some i =>
      set_messages (List.map (fun m => if String.eqb (m_id m) i then set_replied m else m)) d
  | None => d
  end.

(** [from("followups").update({ status: "done", resolved_at }).eq("message_id", id)]:
    the row of that message, when there is one, is changed; no row is made. *)
Definition resolve_followup (id : option string) (at_ : instant) (d : db) : db :=
  match id with
  | Some i =>
      set_followups
        (alter (fun f => {| status := done; due_at := due_at f; resolved_at := Some at_ |}) i) d
  | None => d
  end.

(** [from("followups").upsert(row, { onConflict: "message_id" })]: a new row
    takes the columns of [row] and leaves the others unset; on a conflict
    only the columns of [row] are overwritten.  A row without its key is
    rejected. *)
Definition upsert_followup (id : option string) (due : option instant) (d : db) : db :=
  match id with
  | Some i =>
      set_followups
        (fun t =>
           match t !! i with
           | Some f =>
               <[i := {| status := open;
                         due_at := match due with Some x => Some x | None => due_at f end;
                         resolved_at := resolved_at f |}]> t
           | None => <[i := {| status := open; due_at := due; resolved_at := None |}]> t
           end) d
  | None => d
  end.

End Store.

(** * The Telegram webhook (the function that receives the updates) *)

Module Webhook.
Import Store.
Local Open Scope handler_scope.

Record config : Type := { TELEGRAM_WEBHOOK_SECRET : string }.

(** A reviewed message with its score: [{ ...m, score }]. *)
Record scored : Type := { item : message_row; score : R }.

Record dtg_row : Type := { dtg_created_at : instant; snippet : string }.

(** The messages the bot sends.  How they are laid out as Markdown and cut
    into chunks is the transport's business; a text is kept as what it says. *)
Inductive tg_text : Type :=
| NoItemsToReview (days : number)
| ReviewList (days : number) (items : list scored)
| SummaryText (n : number) (md : json)
| DtgUsage
| DtgNoMatches (phrase : string)
| DtgMatches (rows : list dtg_row)
| MarkedDone
| Snoozed (hours : number)
| CommandList.

(** The inline keyboard under a review: [done:<id>] and [snooze:<id>:24]. *)
Inductive keyboard : Type := TopButtons (id : string).

(** The calls a handler makes to the outside, in order. *)
Inductive call : Type :=
| sendMessage (chat : option Z) (body : tg_text) (reply_markup : option keyboard)
| answerCallbackQuery (callback_query_id : string) (body : tg_text)
| internal (path : string) (payload : json)
| rpc_search_dtg (q : string) (k : Z).

Record state : Type := { store : db; calls : list call }.

Definition on_store {A : Type} (op : db -> A * db) : M state A :=
  fun s => let (a, d) := op (store s) in (Ok a, {| store := d; calls := calls s |}).

Definition update_store (f : db -> db) : M state unit :=
  modify (fun s => {| store := f (store s); calls := calls s |}).

Definition emit (c : call) : M state unit :=
  modify (fun s => {| store := store s; calls := calls s ++ [c] |}).

(** What the outside answers during one request: the clock, the other edge
    functions ([None] is a response that is not [ok]) and the search
    procedure of the database. *)
Record env : Type := {
  Date_now : Z;
  internal_reply : string -> json -> option json;
  search_dtg : string -> Z -> response (list dtg_row)
}.

Inductive body : Type := BodyOk | BodyError (error : string).
Record Response : Type := { body_of : body; status_of : Z }.

Definition ok (b : body) (status : Z) : Response := {| body_of := b; status_of := status |}.

(** The line feed, and the one-character string ["\n"]. *)
Definition LF : ascii := "010"%char.
Definition newline : string := String LF EmptyString.

(** [chunkByLength(s, max)]: the chunks in which [sendText] posts a text,
    cut at ends of lines.  [chunk_line] is the body of the loop over the
    lines of the text; the state of the loop is [(out, cur)]. *)
Definition chunk_line (max : nat) (st : list string * string) (line : string)
    : list string * string :=
  let (out, cur) := st in
  let candidate := if truthy_string cur then cur +:+ newline +:+ line else line in
  if (max <? String.length candidate)%nat then
    (if truthy_string cur then out ++ [cur] else out, line)
  else (out, candidate).

Definition chunkByLength (s : string) (max : nat) : list string :=
  let (out, cur) :=
    List.fold_left (chunk_line max) (split_char LF s) ([], EmptyString) in
  if truthy_string cur then out ++ [cur] else out.

(** The [callback_data] of the two buttons of a keyboard: [done:<id>] and
    [snooze:<id>:24]. *)
Definition callback_data (kb : keyboard) : string * string :=
  match kb with
  | TopButtons id => ("done:" +:+ id, "snooze:" +:+ id +:+ ":24")
  end.

Section Handlers.
Context {rt : Runtime} (cfg : config) (e : env).

(** The texts of the bot are values of [tg_text], and sending one is one
    entry of the log.  The source posts one [sendMessage] for each chunk of
    [chunkByLength text 3800]: one post for a text of at most 3800 code units
    that has a line that is not empty. *)
Definition sendText (chatId : option Z) (text : tg_text) (replyMarkup : option keyboard)
    : M state unit :=
  emit (sendMessage chatId text replyMarkup).

Definition parseCommand (text : string) : option string * string :=
  match split_ws (trim text) with
  | cmd :: rest => (if startsWith "/" cmd then Some (slice1 cmd) else None, join " " rest)
  | [] => (None, EmptyString)
  end.

Definition callInternal (path : string) (payload : json) : M state json :=
  let* _ := emit (internal path payload) in
  match internal_reply e path payload with
  | None => throw (Error "Internal call failed")
  | Some j => ret j
  end.

Definition Z_to_string (z : Z) : string :=
  if (z <? 0)%Z then "-" +:+ digits (Z.abs z) else digits z.

Definition upsertUser (telegramUser : option Telegram.User) : M state (option user_row) :=
  let id := match telegramUser with Some u => Telegram.user_id u | None => None end in
  let first_name := match telegramUser with Some u => Telegram.first_name u | None => None end in
  let username := match telegramUser with Some u => Telegram.username u | None => None end in
  let display :=
    match username, first_name with
    | Some u, _ => u
    | None, Some f => f
    | None, None => "tg_" +:+ match id with Some i => Z_to_string i | None => "undefined" end
    end in
  let* r := on_store (upsert_user id display) in
  match error_of r with
  | Some err => throw (PostgrestError (code err))
  | None => ret (data_of r)
  end.

Definition insertMessage (update : Telegram.Update) (chatId : Z) (fromUserId : string)
    (text : string) (createdAt : Date) : M state (option string) :=
  let telegram_update_id := Telegram.update_id update in
  let telegram_message_id :=
    match match Telegram.message update with
          | Some m => Telegram.message_id m
          | None => None
          end with
    | Some i => Some i
    | None => match Telegram.edited_message update with
              | Some m => Telegram.message_id m
              | None => None
              end
    end in
  let* created_at := lift (toISOString createdAt) in
  let* r := on_store (insert_message telegram_update_id telegram_message_id chatId
                                     fromUserId text created_at update) in
  (* ignore unique violation (duplicate) *)
  match error_of r with
  | Some err =>
      if negb (String.eqb (code err) "23505") then throw (PostgrestError (code err))
      else ret (data_of r)
  | None => ret (data_of r)
  end.

(** [Number(!!b)] and [Number(!b)] for a nullable boolean column. *)
Definition flag (b : option bool) : R :=
  match b with Some true => 1%R | _ => 0%R end.

Definition not_flag (b : option bool) : R :=
  match b with Some true => 0%R | _ => 1%R end.

Definition ageDays (m : message_row) : R :=
  Rmax 0 (IZR (Date_now e - created_at m) / 86400000).

Definition score_of (m : message_row) : R :=
  (3 * flag (is_question m)
   + 2 * flag (followup m)
   + 1.5 * Q2R (match urgency_score m with Some u => u | None => 0%Q end)
   + 2 * not_flag (replied m)
   + 1 * exp (- ageDays m))%R.

(** [arr.sort((a, b) => cmp(a, b))]: [a] goes after [b] when the
    comparator is positive; the sort is stable. *)
Definition Array_sort {A : Type} (cmp : A -> A -> R) (arr : list A) : list A :=
  stable_sort (fun a b => if Rlt_dec 0 (cmp a b) then true else false) arr.

(** The ranking of [handleReview]: score, sort, keep the first ten. *)
Definition rank (rows : list message_row) : list scored :=
  List.firstn 10
    (Array_sort (fun a b => (score b - score a)%R)
       (List.map (fun m => {| item := m; score := score_of m |}) rows)).

(** The query of [handleReview] is answered with its rows (see the
    conventions); the score is the sum of the source, over the reals. *)
Definition handleReview (chatId : option Z) (days : number) : M state unit :=
  let* since :=
    lift (toISOString (new_Date (sub (of_Z (Date_now e)) (mul days (of_Z 86400000))))) in
  let* rows := gets (fun s => recent_messages since 300 (store s)) in
  let scored := rank rows in
  match scored with
  | [] => sendText chatId (NoItemsToReview days) None
  | top :: _ => sendText chatId (ReviewList days scored) (Some (TopButtons (m_id (item top))))
  end.

Definition handleSummary (chatId : option Z) (n : number) : M state unit :=
  let* res := callInternal "ai-summarize-range" (JObj [("days", JNum n)]) in
  let md := nullish (opt_get (Some res) "summary_md") (JStr "_No summary available._") in
  sendText chatId (SummaryText n md) None.

Definition handleDtg (chatId : option Z) (phrase : string) : M state unit :=
  let* _ := emit (rpc_search_dtg phrase 3) in
  let r := search_dtg e phrase 3 in
  match error_of r with
  | Some err => throw (PostgrestError (code err))
  | None =>
      match data_of r with
      | None | Some [] => sendText chatId (DtgNoMatches phrase) None
      | Some rows => sendText chatId (DtgMatches rows) None
      end
  end.

Definition handleDone (messageId : option string) (chatId : option Z)
    (callbackQueryId : option string) : M state unit :=
  let* _ := update_store (resolve_followup messageId (Date_now e)) in
  let* _ := update_store (mark_replied messageId) in
  match callbackQueryId with
  | Some q => if truthy_string q then emit (answerCallbackQuery q MarkedDone)
              else sendText chatId MarkedDone None
  | None => sendText chatId MarkedDone None
  end.

Definition handleSnooze (messageId : option string) (hours : number) (chatId : option Z)
    (callbackQueryId : option string) : M state unit :=
  let* due :=
    lift (toISOString (new_Date (add (of_Z (Date_now e)) (mul hours (of_Z 3600000))))) in
  let* _ := update_store (upsert_followup messageId (Some due)) in
  match callbackQueryId with
  | Some q => if truthy_string q then emit (answerCallbackQuery q (Snoozed hours))
              else sendText chatId (Snoozed hours) None
  | None => sendText chatId (Snoozed hours) None
  end.

(** [Number(h || dflt)] for an optional string [h]. *)
Definition number_or (h : option string) (dflt : Z) : number :=
  match h with
  | Some s => if truthy_string s then StringToNumber s else of_Z dflt
  | None => of_Z dflt
  end.

(** [Math.max(1, Math.min(30, Number(args) || dflt))]. *)
Definition clamp_days (args : string) (dflt : Z) : number :=
  let n := StringToNumber args in
  Math_max (of_Z 1) (Math_min (of_Z 30) (if truthy_number n then n else of_Z dflt)).

(** The dispatch on the name of a command. *)
Definition command (chatId : Z) (name args : string) : M state unit :=
  if String.eqb name "review" then handleReview (Some chatId) (clamp_days args 3)
  else if String.eqb name "summary" then handleSummary (Some chatId) (clamp_days args 7)
  else if String.eqb name "dtg" then
    let phrase := strip_quotes (trim args) in
    if negb (truthy_string phrase) then sendText (Some chatId) DtgUsage None
    else handleDtg (Some chatId) phrase
  else if String.eqb name "done" then handleDone (Some (trim args)) (Some chatId) None
  else if String.eqb name "snooze" then
    let parts := split_ws args in
    handleSnooze (List.nth_error parts 0) (number_or (List.nth_error parts 1) 24)
                 (Some chatId) None
  else sendText (Some chatId) CommandList None.

(** [new Date((msg.date ?? Math.floor(Date.now() / 1000)) * 1000)]. *)
Definition createdAt_of (msg : Telegram.Message) : Date :=
  new_Date (mul (match Telegram.date msg with
                 | Some d => of_Z d
                 | None => of_Z (Date_now e / 1000)
                 end) (of_Z 1000)).

(** The handler given to [Deno.serve]. [header] is the secret token sent
    with the request; an update that is not JSON reads as the empty one. *)
Definition serve (header : option string) (update : Telegram.Update) : M state Response :=
  if negb (match header with
           | Some h => String.eqb h (TELEGRAM_WEBHOOK_SECRET cfg)
           | None => false
           end)
  then ret (ok (BodyError "forbidden") 403)
  else
    match Telegram.callback_query update with
    | Some cq =>
        (* Handle callback query (inline buttons) *)
        let data := match Telegram.data cq with Some d => d | None => EmptyString end in
        let chatId := Telegram.cq_chat_id cq in
        let parts := split_char ":" data in
        let action := List.nth_error parts 0 in
        let id := List.nth_error parts 1 in
        let hours := List.nth_error parts 2 in
        let* _ :=
          match action with
          | Some a =>
              if String.eqb a "done" then handleDone id chatId (Some (Telegram.cq_id cq))
              else if String.eqb a "snooze" then
                handleSnooze id (number_or hours 24) chatId (Some (Telegram.cq_id cq))
              else ret tt
          | None => ret tt
          end in
        ret (ok BodyOk 200)
    | None =>
        (* Handle messages/commands *)
        let msg := match Telegram.message update with
                   | Some m => Some m
                   | None => Telegram.edited_message update
                   end in
        match msg with
        | None => ret (ok BodyOk 200)
        | Some msg =>
            match Telegram.text msg with
            | None => ret (ok BodyOk 200)
            | Some text =>
                let chatId := Telegram.chat_id msg in
                let createdAt := createdAt_of msg in
                (* Upsert user + insert message (passive) *)
                let* user := upsertUser (Telegram.from msg) in
                let* user_id :=
                  match user with
                  | Some u => ret (u_id u)
                  | None => throw (TypeError "Cannot read properties of null")
                  end in
                let* insertedId := insertMessage update chatId user_id text createdAt in
                (* Commands *)
                let (name, args) := parseCommand text in
                match name with
                | Some (String c n) =>
                    let* _ := command chatId (String c n) args in
                    ret (ok BodyOk 200)
                | _ =>
                    (* Non-command: trigger classifier only if a fresh row was inserted *)
                    let* _ :=
                      match insertedId with
                      | Some i =>
                          if truthy_string i then
                            let* _ := callInternal "ai-classify" (JObj [("messageId", JStr i)]) in
                            ret tt
                          else ret tt
                      | None => ret tt
                      end in
                    ret (ok BodyOk 200)
                end
            end
        end
    end.
End Handlers.

End Webhook.

(** * What an HTTP call to a model provider resolves to *)

Module Upstream.

(** [fetch] rejects, or resolves to a response whose body may or may not
    be JSON ([r.json()] rejects on a body that is not). *)
Inductive fetched : Type :=
| Rejected
| Responded (ok : bool) (status : Z) (body : option json).

End Upstream.

(** * ai-classify: classification, embedding and the follow-up row *)

Module Classify.
Import Store Upstream.
Local Open Scope handler_scope.

(** [OPENAI_EMBED_DIMENSIONS_env] is the variable of that name, when set. *)
Record config : Type := {
  INTERNAL_FUNCTION_SECRET : string;
  OPENAI_EMBED_DIMENSIONS_env : option string
}.

Inductive call : Type :=
| openai_chat (content : string)
| openai_embeddings (input : string) (dimensions : Z)
| console_error (what : string)
| console_log (what : string).

Record state : Type := { store : db; calls : list call }.

Definition update_store (f : db -> db) : M state unit :=
  modify (fun s => {| store := f (store s); calls := calls s |}).

Definition emit (c : call) : M state unit :=
  modify (fun s => {| store := store s; calls := calls s ++ [c] |}).

(** The answers of the two model endpoints during one request. *)
Record env : Type := {
  chat_completions : string -> fetched;
  embeddings_endpoint : string -> fetched
}.

(** The classification columns written back: [upd]. *)
Record classification : Type := {
  is_question : bool;
  needs_reply : bool;
  followup : bool;
  urgency_score : number;
  topics : option json;
  entities : option json;
  sentiment : option number
}.

Inductive body : Type :=
| BodyError (error : string)
| BodyDone (cls : classification) (embed_len : nat).

Record Response : Type := { body_of : body; status_of : Z }.

Definition ok (b : body) (status : Z) : Response := {| body_of := b; status_of := status |}.

(** A number as a JSON request carries it into a numeric column: the
    values that are not finite are sent as [null]. *)
Definition column_of_number (n : number) : option Q :=
  match n with Fin q => Some q | _ => None end.

(** [from("messages").update(upd).eq("id", id)]. *)
Definition set_classification (c : classification) (m : message_row) : message_row :=
  {| m_id := m_id m; telegram_update_id := telegram_update_id m;
     telegram_message_id := telegram_message_id m; chat_id := chat_id m;
     from_user_id := from_user_id m; text := text m; created_at := created_at m;
     payload := payload m;
     Store.is_question := Some (is_question c);
     Store.needs_reply := Some (needs_reply c);
     Store.followup := Some (followup c);
     Store.urgency_score := column_of_number (urgency_score c);
     Store.topics := topics c;
     Store.entities := entities c;
     Store.sentiment := match sentiment c with Some n => column_of_number n | None => None end;
     replied := replied m |}.

Definition update_message (id : string) (c : classification) (d : db) : db :=
  set_messages
    (List.map (fun m => if String.eqb (m_id m) id then set_classification c m else m)) d.

(** [from("messages").select("id, text").eq("id", id).single()]: the row,
    when exactly one has that id. *)
Definition load_message (id : string) (d : db) : option message_row :=
  match List.filter (fun m => String.eqb (m_id m) id) (messages d) with
  | [m] => Some m
  | _ => None
  end.

(** [from("embeddings").upsert({ message_id, embedding },
    { onConflict: "message_id" })]. *)
Definition upsert_embedding (id : string) (arr : list number) (d : db) : db :=
  set_embeddings (fun t => <[id := arr]> t) d.

Section Handlers.
Context {rt : Runtime} (cfg : config) (e : env).

Definition OPENAI_EMBED_DIMENSIONS : Z :=
  let n := StringToNumber (match OPENAI_EMBED_DIMENSIONS_env cfg with
                           | Some v => v
                           | None => "3072"
                           end) in
  match n with
  | Fin q => if ltb (of_Z 0) n then Qfloor q else 3072%Z
  | _ => 3072%Z
  end.

(** [j?.choices?.[0]?.message?.content ?? "{}"]. *)
Definition content_of (j : json) : json :=
  nullish (opt_get (opt_get (opt_first (opt_get (Some j) "choices")) "message") "content")
          (JStr "{}").

Definition openaiJSON (content : string) : M state json :=
  let* _ := emit (openai_chat content) in
  match chat_completions e content with
  | Rejected => throw (TypeError "fetch failed")
  | Responded false _ _ =>
      let* _ := emit (console_error "OpenAI classify failed") in
      ret (JObj [])
  | Responded true _ None => throw (Error "the body is not JSON")
  | Responded true _ (Some j) =>
      let raw := content_of j in
      match JSON_parse_value raw with
      | Some v => ret v
      | None =>
          let* _ := emit (console_error "Classify JSON parse failed") in
          ret (JObj [])
      end
  end.

Definition openaiEmbed (input : string) : M state json :=
  let* _ := emit (openai_embeddings input OPENAI_EMBED_DIMENSIONS) in
  match embeddings_endpoint e input with
  | Rejected => throw (TypeError "fetch failed")
  | Responded false _ _ =>
      let* _ := emit (console_error "OpenAI embed failed") in
      ret JNull
  | Responded true _ None => throw (Error "the body is not JSON")
  | Responded true _ (Some j) =>
      ret (nullish (opt_get (opt_first (opt_get (Some j) "data")) "embedding") JNull)
  end.

(** The object [upd] built from what the classifier answered. *)
Definition classification_of (cls : json) : result classification :=
  match cls with
  | JNull => Throw (TypeError "Cannot read properties of null")
  | _ =>
      let field := prop cls in
      Ok {| is_question := truthy (field "is_question");
            needs_reply := truthy (field "needs_reply");
            followup := truthy (field "followup");
            urgency_score :=
              match field "urgency_score" with
              | Some (JNum n) => n
              | _ => of_Z 0
              end;
            topics := if Array_isArray (field "topics") then field "topics" else None;
            entities :=
              if truthy (field "entities") && typeof_object (field "entities")
              then field "entities" else None;
            sentiment :=
              match field "sentiment" with
              | Some (JNum n) => Some n
              | _ => None
              end |}
  end.

(** [Array.isArray(vec) ? vec.map((x) => Number(x)) : []]. *)
Definition numbers_of (vec : json) : list number :=
  match vec with
  | JArr items => List.map (fun x => ToNumber (Some x)) items
  | _ => []
  end.

(** The test that guards the write of an embedding. *)
Definition valid_embedding (arr : list number) : bool :=
  (Z.of_nat (List.length arr) =? OPENAI_EMBED_DIMENSIONS)%Z && List.forallb isFinite arr.

(** The handler given to [Deno.serve]; [body] is [None] when the request
    body is not JSON. *)
Definition serve (header : option string) (body : option json) : M state Response :=
  (* Internal secret guard *)
  if negb (match header with
           | Some h => String.eqb h (INTERNAL_FUNCTION_SECRET cfg)
           | None => false
           end)
  then ret (ok (BodyError "forbidden") 403)
  else
    (* Parse input *)
    let body := match body with Some b => b | None => JObj [] end in
    let messageId := opt_get (Some body) "messageId" in
    if negb (truthy messageId) then ret (ok (BodyError "missing messageId") 400)
    else
      let id := match messageId with Some v => ToString v | None => EmptyString end in
      (* Load message *)
      let* m := gets (fun s => load_message id (store s)) in
      match m with
      | None => ret (ok (BodyError "not_found") 404)
      | Some m =>
          (* Classify *)
          let* cls := openaiJSON (text m) in
          let* upd := lift (classification_of cls) in
          let* _ := update_store (update_message id upd) in
          (* Embedding *)
          let* vec := openaiEmbed (text m) in
          let arr := numbers_of vec in
          let embedLen := List.length arr in
          let* _ :=
            if valid_embedding arr then update_store (upsert_embedding id arr)
            else emit (console_error "Invalid embedding") in
          (* Follow-up row if needed *)
          let* _ :=
            if followup upd || is_question upd
            then update_store (upsert_followup (Some id) None)
            else ret tt in
          let* _ := emit (console_log "ai-classify done") in
          ret (ok (BodyDone upd embedLen) 200)
      end.
End Handlers.

End Classify.

(** * ai-summarize-range: the digest of a window of days and its cache *)

Module Summarize.
Import Store Upstream.
Local Open Scope handler_scope.

Record config : Type := { INTERNAL_FUNCTION_SECRET : string }.

(** The request to the summarizer: the day count and the lines of the
    prompt, one per message. *)
Inductive call : Type :=
| openai_chat (days : number) (lines : list string).

Record state : Type := { store : db; calls : list call }.

Definition on_store {A : Type} (op : db -> A * db) : M state A :=
  fun s => let (a, d) := op (store s) in (Ok a, {| store := d; calls := calls s |}).

Definition emit (c : call) : M state unit :=
  modify (fun s => {| store := store s; calls := calls s ++ [c] |}).

Record env : Type := {
  Date_now : Z;
  chat_completions : number -> list string -> fetched
}.

Inductive body : Type :=
| BodyError (error : string)
| BodySummary (row : summary_row).

Record Response : Type := { body_of : body; status_of : Z }.

Definition ok (b : body) (status : Z) : Response := {| body_of := b; status_of := status |}.

(** [from("summaries").select("*").eq("start_date", a).eq("end_date", b)
    .maybeSingle()]: the row when exactly one matches; no data otherwise. *)
Definition same_range (a b : string) (r : summary_row) : bool :=
  String.eqb (start_date r) a && String.eqb (end_date r) b.

Definition cached_summary (a b : string) (d : db) : option summary_row :=
  match List.filter (same_range a b) (summaries d) with
  | [r] => Some r
  | _ => None
  end.

(** [from("messages").select("text").gte("created_at", since)
    .order("created_at", { ascending: true }).limit(n)]. *)
Definition messages_since (since : instant) (n : nat) (d : db) : list message_row :=
  List.firstn n
    (stable_sort (fun a b => (created_at b <? created_at a)%Z)
       (List.filter (fun m => (since <=? created_at m)%Z) (messages d))).

(** Modelled from the spec: the uniqueness constraint of [summaries] (at
    most one row per pair of dates).
    [from("summaries").insert(row).select("*").single()]. *)
Definition insert_summary (r : summary_row) (d : db) : response summary_row * db :=
  if existsb (same_range (start_date r) (end_date r)) (summaries d) then
    ({| data_of := None; error_of := Some unique_violation |}, d)
  else
    ({| data_of := Some r; error_of := None |}, set_summaries (fun rows => rows ++ [r]) d).

(** [s.replace(/\s+/g, " ").trim()], cut to [max] characters. *)
Definition trunc (s : string) (max : nat) : string :=
  let s := trim (join " " (split_ws s)) in
  if (max <? String.length s)%nat then slice0 max s +:+ "…" else s.

Section Handlers.
Context {rt : Runtime} (cfg : config) (e : env).

Definition summarize (messages : list message_row) (days : number) : M state json :=
  let joined := List.map (fun m => "- " +:+ trunc (text m) 300) messages in
  let* _ := emit (openai_chat days joined) in
  match chat_completions e days joined with
  | Rejected => throw (TypeError "fetch failed")
  | Responded _ _ None => throw (Error "the body is not JSON")
  | Responded _ _ (Some j) =>
      ret (nullish (opt_get (opt_get (opt_first (opt_get (Some j) "choices")) "message") "content")
                   (JStr "_(empty)_"))
  end.

(** [Math.max(1, Math.min(30, Number(body.days ?? 7)))]. *)
Definition days_of (body : json) : number :=
  Math_max (of_Z 1)
    (Math_min (of_Z 30)
       (ToNumber (Some (nullish (opt_get (Some body) "days") (JNum (of_Z 7)))))).

(** The UTC midnight that opens the day of [Date.now()]:
    [Date.UTC(end.getUTCFullYear(), end.getUTCMonth(), end.getUTCDate())]. *)
Definition today : Date :=
  let t := Date_now e in
  Date_UTC (YearFromTime t) (MonthFromTime t) (DateFromTime t).

Definition getUTCDate (d : Date) : number :=
  match d with Some t => of_Z (DateFromTime t) | None => NaN end.

(** The pair [(startDateStr, endDateStr)]. *)
Definition window (days : number) : result (string * string) :=
  match toISOString today with
  | Throw err => Throw err
  | Ok endT =>
      let endDateStr := iso_date endT in
      let startUTC := setUTCDate today (sub (getUTCDate today) (sub days (of_Z 1))) in
      match toISOString startUTC with
      | Throw err => Throw err
      | Ok startT => Ok (iso_date startT, endDateStr)
      end
  end.

(** The handler given to [Deno.serve]; [body] is [None] when the request
    body is not JSON. *)
Definition serve (header : option string) (body : option json) : M state Response :=
  if negb (match header with
           | Some h => String.eqb h (INTERNAL_FUNCTION_SECRET cfg)
           | None => false
           end)
  then ret (ok (BodyError "forbidden") 403)
  else
    let body := match body with
                | Some b => if truthy (Some b) then b else JObj []
                | None => JObj []
                end in
    let days := days_of body in
    (* Compute UTC date window [start_date .. end_date] *)
    let* w := lift (window days) in
    let (startDateStr, endDateStr) := w in
    (* Check cache *)
    let* cached := gets (fun s => cached_summary startDateStr endDateStr (store s)) in
    match cached with
    | Some row => ret (ok (BodySummary row) 200)
    | None =>
        (* Fetch messages in range *)
        let* since :=
          lift (toISOString (new_Date (sub (of_Z (Date_now e)) (mul days (of_Z 86400000))))) in
        let* rows := gets (fun s => messages_since since 1000 (store s)) in
        let* summary_md := summarize rows days in
        let* r := on_store (insert_summary {| start_date := startDateStr;
                                              end_date := endDateStr;
                                              summary_md := summary_md |}) in
        match error_of r, data_of r with
        | Some err, _ => ret (ok (BodyError (code err)) 500)
        | None, Some inserted => ret (ok (BodySummary inserted) 200)
        | None, None => ret (ok (BodyError "no row") 500)
        end
    end.
End Handlers.

End Summarize.

(** * The priority formula, in the words of the specification *)

Module Spec.
Import Store.

(** [[p]] is 1 if true else 0. *)
Definition indicator (p : bool) : R := if p then 1%R else 0%R.

(** Unset boolean and numeric fields are treated as [false] and [0]. *)
Definition or_false (b : option bool) : bool :=
  match b with Some x => x | None => false end.

Definition or_zero (q : option Q) : Q :=
  match q with Some x => x | None => 0%Q end.

(** [age_days = (now - created_at) / 1 day], clamped to be at least 0. *)
Definition age_days (now : instant) (m : message_row) : R :=
  let a := (IZR (now - created_at m) / IZR msPerDay)%R in
  if Rle_dec 0 a then a else 0%R.

Definition score (now : instant) (m : message_row) : R :=
  (3 * indicator (or_false (is_question m))
   + 2 * indicator (or_false (followup m))
   + 1.5 * Q2R (or_zero (urgency_score m))
   + 2 * indicator (negb (or_false (replied m)))
   + exp (- age_days now m))%R.

End Spec.

(** * What the properties observe of a run *)

Module Observe.
Import Store.

(** The first of the pieces of a text that white space separates. *)
Definition first_token (text : string) : string :=
  List.hd EmptyString (split_ws (trim text)).

Definition begins_with_slash (text : string) : bool :=
  startsWith "/" (first_token text).

(** The first piece is a slash followed by a name of at least one character. *)
Definition names_command (text : string) : bool :=
  begins_with_slash text && (1 <? String.length (first_token text))%nat.

(** The calls to the classifier among the calls of a run. *)
Definition is_classify (c : Webhook.call) : bool :=
  match c with
  | Webhook.internal path _ => String.eqb path "ai-classify"
  | _ => false
  end.

Definition classify_calls (s : Webhook.state) : list Webhook.call :=
  List.filter is_classify (Webhook.calls s).

(** The stored messages by id, text and reference of the source event. *)
Definition message_keys (d : db) : list (string * string * option Z) :=
  List.map (fun m => (m_id m, text m, telegram_update_id m)) (messages d).

(** A step of the webhook that neither adds or renames a stored message
    nor calls the classifier. *)
Definition quiet_step (s s' : Webhook.state) : Prop :=
  message_keys (Webhook.store s') = message_keys (Webhook.store s)
  /\ classify_calls s' = classify_calls s.

(** The order of the ranking: a higher score first, and among equal scores
    the message created later first. *)
Definition ranked_before (x y : Webhook.scored) : Prop :=
  (Webhook.score y < Webhook.score x)%R
  \/ (Webhook.score x = Webhook.score y
      /\ (created_at (Webhook.item y) <= created_at (Webhook.item x))%Z).

Definition newer_first (a b : message_row) : Prop := (created_at b <= created_at a)%Z.

(** The message that a review sends for a ranking. *)
Definition review_call (chatId : option Z) (days : number) (out : list Webhook.scored)
    : Webhook.call :=
  match out with
  | [] => Webhook.sendMessage chatId (Webhook.NoItemsToReview days) None
  | top :: _ =>
      Webhook.sendMessage chatId (Webhook.ReviewList days out)
        (Some (Webhook.TopButtons (m_id (Webhook.item top))))
  end.

(** A sequence of snoozes of one message: each call has its clock, its
    delay in hours, and the chat and callback it answers to. *)
Record snooze_call : Type := {
  snooze_env : Webhook.env;
  snooze_hours : Q;
  snooze_chat : option Z;
  snooze_callback : option string
}.

Definition snooze (id : string) (s : Webhook.state) (c : snooze_call) : Webhook.state :=
  snd (Webhook.handleSnooze (snooze_env c) (Some id) (Fin (snooze_hours c))
         (snooze_chat c) (snooze_callback c) s).

Definition snooze_all (id : string) (cs : list snooze_call) (s : Webhook.state)
    : Webhook.state :=
  List.fold_left (snooze id) cs s.

(** The time of resolution that the follow-up of a message holds, if any. *)
Definition resolved_at_of (id : string) (d : db) : option instant :=
  match followups d !! id with
  | Some f => resolved_at f
  | None => None
  end.

(** A vector of the configured dimension. *)
Definition shaped (dim : Z) (v : list number) : Prop :=
  Z.of_nat (List.length v) = dim /\ List.Forall (fun x => isFinite x = true) v.

(** Every embedding that a step of the classifier leaves in the table was
    there before or has the configured dimension. *)
Definition only_shaped (dim : Z) (s s' : Classify.state) : Prop :=
  forall (id : string) (v : list number),
    embeddings (Classify.store s') !! id = Some v ->
    embeddings (Classify.store s) !! id = Some v \/ shaped dim v.

Definition well_shaped (dim : Z) (d : db) : Prop :=
  forall (id : string) (v : list number), embeddings d !! id = Some v -> shaped dim v.

(** A step that leaves the table of embeddings as it was; [db_of] reads the
    database out of the state of the function. *)
Definition untouched {S : Type} (db_of : S -> db) (s s' : S) : Prop :=
  embeddings (db_of s') = embeddings (db_of s).

(** One run of one of the three functions, seen from the database. *)
Inductive run {rt : Runtime} (ccfg : Classify.config) : db -> db -> Prop :=
| run_webhook (cfg : Webhook.config) (e : Webhook.env) (header : option string)
    (update : Telegram.Update) (s : Webhook.state) :
    run ccfg (Webhook.store s) (Webhook.store (snd (Webhook.serve cfg e header update s)))
| run_classify (e : Classify.env) (header : option string) (body : option json)
    (s : Classify.state) :
    run ccfg (Classify.store s) (Classify.store (snd (Classify.serve ccfg e header body s)))
| run_summarize (cfg : Summarize.config) (e : Summarize.env) (header : option string)
    (body : option json) (s : Summarize.state) :
    run ccfg (Summarize.store s)
      (Summarize.store (snd (Summarize.serve cfg e header body s))).

(** The databases that runs of the functions make of the empty one. *)
Inductive reachable {rt : Runtime} (ccfg : Classify.config) : db -> Prop :=
| reachable_empty : reachable ccfg Store.empty
| reachable_run (d d' : db) : reachable ccfg d -> run ccfg d d' -> reachable ccfg d'.

(** The id that a request to the classifier names: [body?.messageId], as a
    string. *)
Definition requested_id {rt : Runtime} (body : option json) : string :=
  match opt_get (Some (match body with Some b => b | None => JObj [] end)) "messageId" with
  | Some v => ToString v
  | None => EmptyString
  end.


(** The string [s] does not hold the character [c]. *)
Definition lacks (c : ascii) (s : string) : bool :=
  List.forallb (fun x => negb (Ascii.eqb x c)) (list_ascii_of_string s).

(** The only white space of [s] is the space character. *)
Definition spaced (s : string) : Prop :=
  List.Forall (fun c => is_ws c = true -> c = " "%char) (list_ascii_of_string s).

(** The lines that the loop of [chunkByLength] holds in its state. *)
Definition lines_of (st : list string * string) : list string :=
  List.flat_map (split_char Webhook.LF) (fst st)
  ++ (if truthy_string (snd st) then split_char Webhook.LF (snd st) else []).

(** The answer of the handler of a button or of a command: to the callback
    query when there is one, to the chat otherwise. *)
Definition reply_call (chatId : option Z) (callbackQueryId : option string)
    (text : Webhook.tg_text) : Webhook.call :=
  match callbackQueryId with
  | Some q => if truthy_string q then Webhook.answerCallbackQuery q text
              else Webhook.sendMessage chatId text None
  | None => Webhook.sendMessage chatId text None
  end.

(** The name kept for a sender: [username ?? first_name ?? `tg_${id}`]. *)
Definition display_of (u : Telegram.User) : string :=
  match Telegram.username u, Telegram.first_name u with
  | Some n, _ => n
  | None, Some f => f
  | None, None =>
      "tg_" +:+ match Telegram.user_id u with
                | Some i => Webhook.Z_to_string i
                | None => "undefined"
                end
  end.

(** What ingestion wrote of a message: every column but those of the
    classification. *)
Definition ingested (m : message_row) :=
  (m_id m, telegram_update_id m, telegram_message_id m, chat_id m, from_user_id m,
   text m, created_at m, payload m, replied m).

(** A step of the classifier on the message [id]: no row of [messages] is
    added or removed, no row but that of [id] is changed, and what ingestion
    wrote stays; [users] and [summaries] are as they were. *)
Definition classifies_only (id : string) (d d' : db) : Prop :=
  users d' = users d
  /\ summaries d' = summaries d
  /\ List.Forall2 (fun m m' => ingested m' = ingested m /\ (m_id m <> id -> m' = m))
       (messages d) (messages d').

(** What [openaiJSON] and [openaiEmbed] return for a text: the state they
    are called in plays no part in it. *)
Definition nothing_yet : Classify.state :=
  {| Classify.store := Store.empty; Classify.calls := [] |}.

Definition answer_of {rt : Runtime} (e : Classify.env) (txt : string) : result json :=
  fst (Classify.openaiJSON e txt nothing_yet).

Definition vector_of {rt : Runtime} (cfg : Classify.config) (e : Classify.env) (txt : string)
    : result json :=
  fst (Classify.openaiEmbed cfg e txt nothing_yet).

(** What a run of the classifier writes when it is asked about the message
    [id] and finds it stored with the text [txt]. *)
Definition written {rt : Runtime} (cfg : Classify.config) (e : Classify.env) (id txt : string)
    (d : db) : db :=
  match answer_of e txt with
  | Ok cls =>
      match Classify.classification_of cls with
      | Ok upd =>
          let d1 := Classify.update_message id upd d in
          match vector_of cfg e txt with
          | Ok vec =>
              let arr := Classify.numbers_of vec in
              let d2 := if Classify.valid_embedding cfg arr
                        then Classify.upsert_embedding id arr d1 else d1 in
              if Classify.followup upd || Classify.is_question upd
              then upsert_followup (Some id) None d2 else d2
          | Throw _ => d1
          end
      | Throw _ => d
      end
  | Throw _ => d
  end.

(** A word: a string that is not empty and holds no white space. *)
Definition word (p : string) : Prop :=
  p <> EmptyString /\ List.Forall (fun c => is_ws c = false) (list_ascii_of_string p).

(** The first character of [s], when it has one, is not white space. *)
Definition head_not_ws (s : string) : Prop :=
  match s with
  | String c _ => is_ws c = false
  | EmptyString => False
  end.

End Observe.

(** * Concrete runs, used to instantiate the properties *)

Module Examples.
Import Store.

(** A runtime that reads and prints unsigned decimal integers, and parses
    the four JSON texts of the runs below. *)
Definition is_digit (c : ascii) : bool :=
  let n := nat_of_ascii c in ((48 <=? n) && (n <=? 57))%nat.

Fixpoint parse_digits (acc : Z) (s : string) : option Z :=
  match s with
  | EmptyString => Some acc
  | String c rest =>
      if is_digit c then parse_digits (10 * acc + Z.of_nat (nat_of_ascii c - 48)) rest
      else None
  end.

Definition decimal_of_string (s : string) : number :=
  match trim s with
  | EmptyString => of_Z 0
  | t => match parse_digits 0 t with Some z => of_Z z | None => NaN end
  end.

Definition string_of_decimal (n : number) : string :=
  match n with
  | Fin q => if (Zpos (Qden q) =? 1)%Z && (0 <=? Qnum q)%Z then digits (Qnum q) else "NaN"
  | NaN => "NaN"
  | PosInfinity => "Infinity"
  | NegInfinity => "-Infinity"
  end.

Definition quoted (s : string) : string :=
  String dquote (s +:+ String dquote EmptyString).

(** The texts [{"is_question":"no"}] and [{"followup":true}]. *)
Definition text_question_no : string :=
  "{" +:+ quoted "is_question" +:+ ":" +:+ quoted "no" +:+ "}".

Definition text_followup_true : string :=
  "{" +:+ quoted "followup" +:+ ":true}".

Definition parse_known (s : string) : option json :=
  if String.eqb s "{}" then Some (JObj [])
  else if String.eqb s "null" then Some JNull
  else if String.eqb s text_question_no then Some (JObj [("is_question", JStr "no")])
  else if String.eqb s text_followup_true then Some (JObj [("followup", JBool true)])
  else None.

Definition decimal_runtime : Runtime :=
  {| StringToNumber := decimal_of_string;
     NumberToString := string_of_decimal;
     JSON_parse := parse_known |}.

(** ** The webhook *)

Definition webhook_config : Webhook.config :=
  {| Webhook.TELEGRAM_WEBHOOK_SECRET := "telegram-secret" |}.

(** The outside at time [now]: the other functions answer [{}], the search
    finds nothing. *)
Definition at_time (now : Z) : Webhook.env :=
  {| Webhook.Date_now := now;
     Webhook.internal_reply := fun _ _ => Some (JObj []);
     Webhook.search_dtg := fun _ _ => {| data_of := Some []; error_of := None |} |}.

Definition text_message (txt : string) : Telegram.Message :=
  {| Telegram.message_id := Some 7%Z; Telegram.from := None;
     Telegram.chat_id := 5%Z; Telegram.date := Some 1700000000%Z;
     Telegram.text := Some txt |}.

Definition text_update (ref : Z) (txt : string) : Telegram.Update :=
  {| Telegram.update_id := Some ref;
     Telegram.message := Some (text_message txt);
     Telegram.edited_message := None;
     Telegram.callback_query := None |}.

Definition update42 : Telegram.Update := text_update 42 "hello".

Definition start : Webhook.state := {| Webhook.store := Store.empty; Webhook.calls := [] |}.

Definition delivered_once : Webhook.state :=
  snd (Webhook.insertMessage update42 5 "u0" "hello" (Some 1700000000000%Z) start).

(** A question asked at 1700000000000 that nobody answered. *)
Definition question : message_row :=
  {| m_id := "m0"; telegram_update_id := Some 42%Z; telegram_message_id := Some 7%Z;
     chat_id := 5%Z; from_user_id := "u0"; text := "when?";
     created_at := 1700000000000%Z; payload := text_update 42 "when?";
     is_question := Some true; needs_reply := Some false; followup := Some false;
     urgency_score := Some 0%Q; topics := None; entities := None; sentiment := None;
     replied := Some false |}.

(** A note taken a day before, not classified yet. *)
Definition note : message_row :=
  new_message "m1" (Some 43%Z) (Some 8%Z) 5%Z "u0" "milk" 1699913600000%Z
    (text_update 43 "milk").

Definition two_messages : Webhook.state :=
  {| Webhook.store := set_messages (fun _ => [note; question]) Store.empty;
     Webhook.calls := [] |}.

(** A store where the follow-up of ["m0"] is open. *)
Definition open_followup : Webhook.state :=
  {| Webhook.store :=
       set_followups
         (fun _ => {[ "m0" := {| status := open; due_at := None; resolved_at := None |} ]})
         Store.empty;
     Webhook.calls := [] |}.

(** A snooze of 24 hours, and one of 1 hour a minute later. *)
Definition snooze_24h : Observe.snooze_call :=
  {| Observe.snooze_env := at_time 1700000000000; Observe.snooze_hours := 24 # 1;
     Observe.snooze_chat := Some 5%Z; Observe.snooze_callback := None |}.

Definition snooze_1h : Observe.snooze_call :=
  {| Observe.snooze_env := at_time 1700000060000; Observe.snooze_hours := 1 # 1;
     Observe.snooze_chat := Some 5%Z; Observe.snooze_callback := None |}.

(** ** The classifier *)

Definition classify_config : Classify.config :=
  {| Classify.INTERNAL_FUNCTION_SECRET := "internal-secret";
     Classify.OPENAI_EMBED_DIMENSIONS_env := Some "2" |}.

(** [{ choices: [{ message: { content } }] }]. *)
Definition chat_answer (content : string) : json :=
  JObj [("choices", JArr [JObj [("message", JObj [("content", JStr content)])]])].

(** [{ data: [{ embedding }] }]. *)
Definition embedding_answer (v : list json) : json :=
  JObj [("data", JArr [JObj [("embedding", JArr v)]])].

(** The classifier answers with [content]; the embedding service with the
    vector [v]. *)
Definition answers (content : string) (v : list json) : Classify.env :=
  {| Classify.chat_completions := fun _ => Upstream.Responded true 200 (Some (chat_answer content));
     Classify.embeddings_endpoint :=
       fun _ => Upstream.Responded true 200 (Some (embedding_answer v)) |}.

(** The classifier is down. *)
Definition classifier_down : Classify.env :=
  {| Classify.chat_completions := fun _ => Upstream.Responded false 500 None;
     Classify.embeddings_endpoint := fun _ => Upstream.Responded false 500 None |}.

Definition classify_request : option json := Some (JObj [("messageId", JStr "m0")]).

(** The message ["m0"] is stored and its follow-up was resolved at 9000
    after a snooze until 5000. *)
Definition resolved : Classify.state :=
  {| Classify.store :=
       set_followups
         (fun _ => {[ "m0" := {| status := done; due_at := Some 5000%Z;
                                 resolved_at := Some 9000%Z |} ]})
         (set_messages (fun _ => [question]) Store.empty);
     Classify.calls := [] |}.

Definition half : json := JNum (Fin (1 # 2)).

(** The store after the webhook took the message ["hello"] in and the
    classifier embedded it. *)
Definition after_webhook : db :=
  Webhook.store
    (snd (Webhook.serve (rt := decimal_runtime) webhook_config (at_time 1700000000000)
            (Some "telegram-secret") update42 start)).

Definition after_classify : db :=
  Classify.store
    (snd (Classify.serve (rt := decimal_runtime) classify_config
            (answers text_followup_true [half; half]) (Some "internal-secret")
            classify_request {| Classify.store := after_webhook; Classify.calls := [] |})).

(** ** The summarizer *)

Definition summarize_config : Summarize.config :=
  {| Summarize.INTERNAL_FUNCTION_SECRET := "internal-secret" |}.

(** 2024-03-10T12:00:00Z. *)
Definition noon_10_march_2024 : Summarize.env :=
  {| Summarize.Date_now := 1710072000000%Z;
     Summarize.chat_completions := fun _ _ => Upstream.Rejected |}.

Definition week_digest : summary_row :=
  {| start_date := "2024-03-04"; end_date := "2024-03-10"; summary_md := JStr "quiet week" |}.

Definition cached_week : Summarize.state :=
  {| Summarize.store := set_summaries (fun _ => [week_digest]) Store.empty;
     Summarize.calls := [] |}.

(** The cache after two weeks: the digest of the week before comes first. *)
Definition earlier_digest : summary_row :=
  {| start_date := "2024-02-26"; end_date := "2024-03-03"; summary_md := JStr "busy week" |}.

Definition cached_weeks : Summarize.state :=
  {| Summarize.store := set_summaries (fun _ => [earlier_digest; week_digest]) Store.empty;
     Summarize.calls := [] |}.

(** ** More of the webhook *)

(** A sender, and the same sender after they took a username. *)
Definition alice : Telegram.User :=
  {| Telegram.user_id := Some 9%Z; Telegram.first_name := Some "Alice";
     Telegram.username := None |}.

Definition alice_renamed : Telegram.User :=
  {| Telegram.user_id := Some 9%Z; Telegram.first_name := Some "Alice";
     Telegram.username := Some "al" |}.

(** The question, once it was replied to. *)
Definition answered : message_row := set_replied question.

(** The press of a button whose data is [data]. *)
Definition pressed (data : string) : Telegram.Update :=
  {| Telegram.update_id := Some 50%Z; Telegram.message := None;
     Telegram.edited_message := None;
     Telegram.callback_query :=
       Some {| Telegram.cq_id := "q1"; Telegram.data := Some data;
               Telegram.cq_chat_id := Some 5%Z |} |}.

(** A message that carries no date. *)
Definition undated : Telegram.Message :=
  {| Telegram.message_id := Some 7%Z; Telegram.from := None; Telegram.chat_id := 5%Z;
     Telegram.date := None; Telegram.text := Some "hello" |}.

(** ** More of the summarizer *)

(** The model answers with the body [j] under the status [status]. *)
Definition model_answers (okay : bool) (status : Z) (j : json) : Summarize.env :=
  {| Summarize.Date_now := 1710072000000%Z;
     Summarize.chat_completions := fun _ _ => Upstream.Responded okay status (Some j) |}.

(** 2024-03-10T23:00:00Z, with the summarizer out of reach. *)
Definition late_10_march_2024 : Summarize.env :=
  {| Summarize.Date_now := 1710111600000%Z;
     Summarize.chat_completions := fun _ _ => Upstream.Rejected |}.

Definition no_summaries : Summarize.state :=
  {| Summarize.store := Store.empty; Summarize.calls := [] |}.

Definition week_request : option json := Some (JObj [("days", JNum (of_Z 7))]).

Definition digest : summary_row :=
  {| start_date := "2024-03-04"; end_date := "2024-03-10"; summary_md := JStr "digest" |}.

(** The state after the digest of the week was made. *)
Definition after_digest : Summarize.state :=
  snd (Summarize.serve (rt := decimal_runtime) summarize_config
         (model_answers true 200 (chat_answer "digest")) (Some "internal-secret")
         week_request no_summaries).

End Examples.

(** * Properties *)

(** ** Relations that the steps of a handler maintain *)

Section Steps.
Context {S : Type} (R : S -> S -> Prop).
Hypothesis R_refl : forall s, R s s.
Hypothesis R_trans : forall s1 s2 s3, R s1 s2 -> R s2 s3 -> R s1 s3.

Lemma keeps_ret {A : Type} (a : A) : keeps R (ret a).
Proof. intros s. apply R_refl. Qed.

Lemma keeps_throw {A : Type} (err : js_error) : keeps R (@throw S A err).
Proof. intros s. apply R_refl. Qed.

Lemma keeps_lift {A : Type} (r : result A) : keeps R (@lift S A r).
Proof. intros s. apply R_refl. Qed.

Lemma keeps_gets {A : Type} (f : S -> A) : keeps R (gets f).
Proof. intros s. apply R_refl. Qed.

Lemma keeps_modify (f : S -> S) : (forall s, R s (f s)) -> keeps R (modify f).
Proof. intros Hf s. apply Hf. Qed.

Lemma keeps_bind {A B : Type} (c : M S A) (k : A -> M S B) :
  keeps R c -> (forall a, keeps R (k a)) -> keeps R (bind c k).
Proof.
  intros Hc Hk s. unfold bind. specialize (Hc s).
  destruct (c s) as [[a|err] s1]; cbn in *; [|exact Hc].
  apply R_trans with s1; [exact Hc | apply Hk].
Qed.
End Steps.

Import Store.

(** ** Message store: ingestion of an update that is already stored *)

Section Ingestion.
Import Webhook.

Lemma already_stored_In (ref : Z) (d : db) :
  already_stored (Some ref) d = true <->
  exists m, In m (messages d) /\ telegram_update_id m = Some ref.
Proof.
  unfold already_stored. rewrite existsb_exists. split.
  - intros (m & Hin & Hsame). exists m. split; [exact Hin|].
    unfold same_update in Hsame. destruct (telegram_update_id m) as [b|]; [|discriminate].
    apply Z.eqb_eq in Hsame. now subst.
  - intros (m & Hin & Href). exists m. split; [exact Hin|].
    unfold same_update. rewrite Href. apply Z.eqb_refl.
Qed.

(** A first delivery adds the row and returns its new id. *)
Lemma insertMessage_fresh (update : Telegram.Update) (chatId : Z) (fromUserId text : string)
    (t : instant) (s : state) :
  already_stored (Telegram.update_id update) (store s) = false ->
  exists row,
    insertMessage update chatId fromUserId text (Some t) s =
      (Ok (Some (gen_id "m" (List.length (messages (store s))))),
       {| store := set_messages (fun rows => rows ++ [row]) (store s); calls := calls s |})
    /\ m_id row = gen_id "m" (List.length (messages (store s)))
    /\ Store.text row = text
    /\ telegram_update_id row = Telegram.update_id update
    /\ created_at row = t.
Proof.
  intros Hnew. eexists. split.
  - unfold insertMessage, bind, lift, on_store, insert_message. cbn.
    rewrite Hnew. cbn. reflexivity.
  - cbn. repeat split.
Qed.

(** C1 (as amended): when the reference of the update is already stored,
    [insertMessage] changes nothing in the store, does not throw, and
    returns [null], not the id of the stored message. *)
Theorem insertMessage_duplicate (update : Telegram.Update) (chatId : Z)
    (fromUserId text : string) (t : instant) (s : state) (ref : Z) (m : message_row) :
  Telegram.update_id update = Some ref ->
  In m (messages (store s)) ->
  telegram_update_id m = Some ref ->
  insertMessage update chatId fromUserId text (Some t) s = (Ok None, s).
Proof.
  intros Hupd Hin Href.
  assert (Hdup : already_stored (Telegram.update_id update) (store s) = true).
  { rewrite Hupd. apply already_stored_In. eauto. }
  unfold insertMessage, bind, lift, on_store, insert_message. cbn.
  rewrite Hdup. cbn. destruct s; reflexivity.
Qed.
End Ingestion.

(** ** Facts about the stable sort *)

Section SortingFacts.
Context {A : Type} (after : A -> A -> bool).

Lemma insert_sorted_In (x y : A) (l : list A) :
  In y (insert_sorted after x l) <-> y = x \/ In y l.
Proof.
  induction l as [|z l IH]; cbn.
  - intuition.
  - destruct (after x z); cbn; [rewrite IH|]; intuition.
Qed.

Lemma stable_sort_cons (x : A) (l : list A) :
  stable_sort after (x :: l) = insert_sorted after x (stable_sort after l).
Proof. reflexivity. Qed.

Lemma stable_sort_In (y : A) (l : list A) :
  In y (stable_sort after l) <-> In y l.
Proof.
  induction l as [|x l IH]; [cbn; tauto|].
  rewrite stable_sort_cons, insert_sorted_In, IH. cbn. intuition.
Qed.

Lemma insert_sorted_length (x : A) (l : list A) :
  List.length (insert_sorted after x l) = S (List.length l).
Proof.
  induction l as [|z l IH]; cbn; [reflexivity|].
  destruct (after x z); cbn; [now rewrite IH | reflexivity].
Qed.

Lemma stable_sort_length (l : list A) :
  List.length (stable_sort after l) = List.length l.
Proof.
  induction l as [|x l IH]; [reflexivity|].
  rewrite stable_sort_cons, insert_sorted_length, IH. reflexivity.
Qed.

Lemma insert_sorted_Permutation (x : A) (l : list A) :
  Permutation (insert_sorted after x l) (x :: l).
Proof.
  induction l as [|z l IH]; cbn; [reflexivity|].
  destruct (after x z); [|reflexivity].
  rewrite IH. apply perm_swap.
Qed.

Lemma stable_sort_Permutation (l : list A) : Permutation (stable_sort after l) l.
Proof.
  induction l as [|x l IH]; [reflexivity|].
  rewrite stable_sort_cons, insert_sorted_Permutation. now constructor.
Qed.

(** [pre] is what is known of two elements from their order in the input,
    [le] the order of the output. *)
Context (pre le : A -> A -> Prop).
Hypothesis le_trans : forall a b c, le a b -> le b c -> le a c.
Hypothesis after_le : forall a b, after a b = true -> le b a.
Hypothesis keep_le : forall a b, pre a b -> after a b = false -> le a b.

Lemma insert_sorted_sorted (x : A) (l : list A) :
  Forall (pre x) l -> StronglySorted le l -> StronglySorted le (insert_sorted after x l).
Proof.
  intros Hpre Hs. induction Hs as [|z l Hs IH Hz]; cbn.
  - constructor; [constructor | constructor].
  - inversion Hpre as [|? ? Hxz Hxl]; subst.
    destruct (after x z) eqn:Hafter.
    + constructor; [now apply IH|].
      apply List.Forall_forall. intros y Hy. apply insert_sorted_In in Hy.
      destruct Hy as [->|Hy]; [now apply after_le|].
      rewrite List.Forall_forall in Hz. now apply Hz.
    + assert (Hle : le x z) by now apply keep_le.
      constructor; [now constructor|].
      constructor; [exact Hle|].
      apply List.Forall_forall. intros y Hy. rewrite List.Forall_forall in Hz.
      apply le_trans with z; [exact Hle | now apply Hz].
Qed.

Lemma stable_sort_sorted (l : list A) :
  StronglySorted pre l -> StronglySorted le (stable_sort after l).
Proof.
  induction 1 as [|x l Hs IH Hx]; [constructor|].
  rewrite stable_sort_cons. apply insert_sorted_sorted; [|exact IH].
  apply List.Forall_forall. intros y Hy. apply (proj1 (stable_sort_In y l)) in Hy.
  rewrite List.Forall_forall in Hx. now apply Hx.
Qed.
End SortingFacts.

Lemma StronglySorted_any {A : Type} (l : list A) :
  StronglySorted (fun _ _ => True) l.
Proof.
  induction l; constructor; [assumption|]. apply List.Forall_forall. intros; exact I.
Qed.

Lemma In_firstn {A : Type} (n : nat) (l : list A) (y : A) :
  In y (List.firstn n l) -> In y l.
Proof.
  revert n. induction l as [|x l IH]; intros [|n]; cbn; try tauto.
  intros [->|Hy]; [now left | right; now apply (IH n)].
Qed.

Lemma StronglySorted_firstn {A : Type} (le : A -> A -> Prop) (n : nat) (l : list A) :
  StronglySorted le l -> StronglySorted le (List.firstn n l).
Proof.
  intros Hs. revert n. induction Hs as [|x l Hs IH Hx]; intros [|n]; cbn; try constructor.
  - apply IH.
  - apply List.Forall_forall. intros y Hy. rewrite List.Forall_forall in Hx. apply Hx.
    now apply (In_firstn n l).
Qed.

Lemma StronglySorted_map {A B : Type} (f : A -> B) (le : B -> B -> Prop) (l : list A) :
  StronglySorted (fun a b => le (f a) (f b)) l -> StronglySorted le (List.map f l).
Proof.
  induction 1 as [|x l Hs IH Hx]; cbn; constructor; [exact IH|].
  apply List.Forall_forall. intros y Hy. apply List.in_map_iff in Hy.
  destruct Hy as (a & <- & Ha). rewrite List.Forall_forall in Hx. now apply Hx.
Qed.

Lemma StronglySorted_nth_error {A : Type} (le : A -> A -> Prop) (l : list A) :
  StronglySorted le l ->
  forall (i j : nat) (a b : A),
    (i < j)%nat -> List.nth_error l i = Some a -> List.nth_error l j = Some b -> le a b.
Proof.
  induction 1 as [|x l Hs IH Hx]; intros i j a b Hij Ha Hb.
  - destruct i; discriminate.
  - destruct j as [|j]; [lia|]. cbn in Hb. destruct i as [|i]; cbn in Ha.
    + injection Ha as <-. rewrite List.Forall_forall in Hx. apply Hx.
      eapply List.nth_error_In; eassumption.
    + apply (IH i j); [lia | assumption | assumption].
Qed.

(** ** Priority ranker *)

Section Ranking.
Import Webhook Observe.
Context (e : env).

Lemma flag_indicator (b : option bool) : flag b = Spec.indicator (Spec.or_false b).
Proof. destruct b as [[|]|]; reflexivity. Qed.

Lemma not_flag_indicator (b : option bool) :
  not_flag b = Spec.indicator (negb (Spec.or_false b)).
Proof. destruct b as [[|]|]; reflexivity. Qed.

Lemma ageDays_clamped (m : message_row) : ageDays e m = Spec.age_days (Date_now e) m.
Proof.
  unfold ageDays, Spec.age_days, msPerDay.
  destruct (Rle_dec 0 (IZR (Date_now e - created_at m) / 86400000)) as [H|H].
  - now apply Rmax_right.
  - apply Rmax_left. lra.
Qed.

Lemma score_of_spec (m : message_row) : score_of e m = Spec.score (Date_now e) m.
Proof.
  unfold score_of, Spec.score.
  rewrite !flag_indicator, not_flag_indicator, ageDays_clamped.
  unfold Spec.or_zero. lra.
Qed.

Lemma rank_In (rows : list message_row) (x : scored) :
  In x (rank e rows) -> exists m, In m rows /\ x = {| item := m; score := score_of e m |}.
Proof.
  unfold rank, Array_sort. intros Hx. apply In_firstn in Hx.
  apply stable_sort_In in Hx. apply List.in_map_iff in Hx.
  destruct Hx as (m & <- & Hm). eauto.
Qed.

(** C2: the score that the ranking gives a message is the formula of the
    specification, with unset flags read as false, an unset urgency as 0
    and the age clamped at 0; a fresh unanswered question without urgency
    scores exactly 6. *)
Theorem review_score (m : message_row) :
  score_of e m = Spec.score (Date_now e) m
  /\ (forall rows x, In x (rank e rows) -> score x = Spec.score (Date_now e) (item x))
  /\ (is_question m = Some true -> followup m = Some false -> replied m = Some false ->
      (forall u, urgency_score m = Some u -> (u == 0)%Q) ->
      created_at m = Date_now e ->
      score_of e m = 6%R).
Proof.
  split; [apply score_of_spec|]. split.
  - intros rows x Hx. apply rank_In in Hx. destruct Hx as (m' & _ & ->). cbn.
    apply score_of_spec.
  - intros Hq Hf Hr Hu Hc. unfold score_of, ageDays.
    rewrite Hq, Hf, Hr, Hc, Z.sub_diag. cbn [flag not_flag].
    assert (Hzero : Q2R (match urgency_score m with Some u => u | None => 0%Q end) = 0%R).
    { destruct (urgency_score m) as [u|].
      - rewrite (Qeq_eqR u 0 (Hu u eq_refl)). apply RMicromega.Q2R_0.
      - apply RMicromega.Q2R_0. }
    rewrite Hzero.
    replace (Rmax 0 (0 / 86400000)) with 0%R by (rewrite Rmax_left; lra).
    rewrite Ropp_0, exp_0. lra.
Qed.

Lemma recent_messages_sorted (since : instant) (n : nat) (d : db) :
  StronglySorted newer_first (recent_messages since n d).
Proof.
  unfold recent_messages. apply StronglySorted_firstn.
  apply (stable_sort_sorted _ (fun _ _ => True) newer_first).
  - unfold newer_first. intros a b c; lia.
  - unfold newer_first. intros a b H. apply Z.ltb_lt in H. lia.
  - unfold newer_first. intros a b _ H. apply Z.ltb_ge in H. lia.
  - apply StronglySorted_any.
Qed.

(** The ranking is the head of the whole list of candidates in order. *)
Lemma rank_top (rows : list message_row) :
  StronglySorted newer_first rows ->
  exists all,
    Permutation all (List.map (fun m => {| item := m; score := score_of e m |}) rows)
    /\ StronglySorted ranked_before all
    /\ rank e rows = List.firstn 10 all.
Proof.
  intros Hrows.
  exists (Array_sort (fun a b => (score b - score a)%R)
            (List.map (fun m => {| item := m; score := score_of e m |}) rows)).
  split; [apply stable_sort_Permutation|]. split; [|reflexivity].
  unfold Array_sort.
  apply (stable_sort_sorted _ (fun x y => newer_first (item x) (item y)) ranked_before).
  - unfold ranked_before. intros a b c [H1|[H1 H1']] [H2|[H2 H2']].
    + left; lra.
    + left; lra.
    + left; lra.
    + right. split; [lra | lia].
  - intros a b H. destruct (Rlt_dec 0 (score b - score a)); [|discriminate].
    left. lra.
  - unfold ranked_before, newer_first. intros a b Hpre H.
    destruct (Rlt_dec 0 (score b - score a)) as [|Hn]; [discriminate|].
    destruct (Rle_lt_or_eq_dec (score b) (score a)) as [Hlt|Heq]; [lra | now left |].
    right. split; [now symmetry | exact Hpre].
  - now apply StronglySorted_map.
Qed.

Lemma rank_length (rows : list message_row) : (List.length (rank e rows) <= 10)%nat.
Proof. unfold rank. apply List.firstn_le_length. Qed.

Lemma handleReview_run (chatId : option Z) (days : number) (s : state) (since : instant) :
  toISOString (new_Date (sub (of_Z (Date_now e)) (mul days (of_Z 86400000)))) = Ok since ->
  handleReview e chatId days s =
    (Ok tt, {| store := store s;
               calls := calls s ++ [review_call chatId days
                                      (rank e (recent_messages since 300 (store s)))] |}).
Proof.
  intros Hsince. unfold handleReview, bind, lift, gets. rewrite Hsince. cbn.
  unfold review_call.
  destruct (rank e (recent_messages since 300 (store s))); reflexivity.
Qed.

(** C3: the review is a function of the stored messages and of "now": a
    repeated call sends the same ranking; the ranking is the first ten, at
    most, of the candidates put in descending order of score, and of two
    messages with the same score the one created later comes first. *)
Theorem review_order (chatId : option Z) (days : number) (s : state) (since : instant) :
  toISOString (new_Date (sub (of_Z (Date_now e)) (mul days (of_Z 86400000)))) = Ok since ->
  let out := rank e (recent_messages since 300 (store s)) in
  let s1 := snd (handleReview e chatId days s) in
  let s2 := snd (handleReview e chatId days s1) in
  calls s1 = calls s ++ [review_call chatId days out]
  /\ calls s2 = calls s1 ++ [review_call chatId days out]
  /\ (List.length out <= 10)%nat
  /\ (exists all,
        Permutation all
          (List.map (fun m => {| item := m; score := score_of e m |})
             (recent_messages since 300 (store s)))
        /\ out = List.firstn 10 all
        /\ forall (i j : nat) (a b : scored),
             (i < j)%nat ->
             List.nth_error all i = Some a -> List.nth_error all j = Some b ->
             (score b <= score a)%R
             /\ (score a = score b -> (created_at (item b) <= created_at (item a))%Z)).
Proof.
  intros Hsince out s1 s2.
  assert (H1 : s1 = {| store := store s; calls := calls s ++ [review_call chatId days out] |}).
  { unfold s1. now rewrite (handleReview_run chatId days s since Hsince). }
  split; [now rewrite H1|]. split.
  - unfold s2. rewrite (handleReview_run chatId days s1 since Hsince). cbn.
    rewrite H1. reflexivity.
  - split; [apply rank_length|].
    destruct (rank_top (recent_messages since 300 (store s))
                (recent_messages_sorted since 300 (store s)))
      as (all & Hperm & Hsorted & Hout).
    exists all. split; [exact Hperm|]. split; [exact Hout|].
    intros i j a b Hij Ha Hb.
    assert (Hab : ranked_before a b)
      by (eapply (StronglySorted_nth_error ranked_before all); eassumption).
    destruct Hab as [Hlt|[Heq Hc]]; split; try lra; intros; try lra; lia.
Qed.
End Ranking.

(** ** Follow-up tracker *)

Section Followups.
Import Webhook Observe.

Lemma handleDone_store (e : env) (id chatId callbackQueryId : option _) (s : state) :
  fst (handleDone e id chatId callbackQueryId s) = Ok tt
  /\ store (snd (handleDone e id chatId callbackQueryId s)) =
       mark_replied id (resolve_followup id (Date_now e) (store s)).
Proof.
  unfold handleDone, bind, update_store, modify, sendText, emit. cbn.
  destruct callbackQueryId as [q|]; [destruct (truthy_string q)|]; cbn; split; reflexivity.
Qed.

Lemma followups_mark_replied (id : option string) (d : db) :
  followups (mark_replied id d) = followups d.
Proof. destruct id; reflexivity. Qed.

Lemma resolve_followup_lookup (id : string) (t : instant) (d : db) :
  followups (resolve_followup (Some id) t d) !! id =
    match followups d !! id with
    | Some f => Some {| status := done; due_at := due_at f; resolved_at := Some t |}
    | None => None
    end.
Proof. cbn. rewrite lookup_alter_eq. destruct (followups d !! id); reflexivity. Qed.

(** Resolving a message that has no follow-up row makes none. *)
Lemma handleDone_no_row (e : env) (id : string) (chatId : option Z)
    (callbackQueryId : option string) (s : state) :
  followups (store s) !! id = None ->
  followups (store (snd (handleDone e (Some id) chatId callbackQueryId s))) !! id = None.
Proof.
  intros Hnone. rewrite (proj2 (handleDone_store e _ _ _ s)), followups_mark_replied.
  rewrite resolve_followup_lookup, Hnone. reflexivity.
Qed.

(** C5 (as amended): resolving twice a message that has a follow-up row
    succeeds both times and leaves the row [done]; [resolved_at] is the time
    of the second call, the first one's is overwritten. *)
Theorem resolve_twice (e1 e2 : env) (id : string) (chat1 chat2 : option Z)
    (cq1 cq2 : option string) (s : state) (f : followup_row) :
  followups (store s) !! id = Some f ->
  let r1 := handleDone e1 (Some id) chat1 cq1 s in
  let r2 := handleDone e2 (Some id) chat2 cq2 (snd r1) in
  fst r1 = Ok tt
  /\ followups (store (snd r1)) !! id =
       Some {| status := done; due_at := due_at f; resolved_at := Some (Date_now e1) |}
  /\ fst r2 = Ok tt
  /\ followups (store (snd r2)) !! id =
       Some {| status := done; due_at := due_at f; resolved_at := Some (Date_now e2) |}.
Proof.
  intros Hrow. cbv zeta.
  pose proof (handleDone_store e1 (Some id) chat1 cq1 s) as [Hok1 Hs1].
  pose proof (handleDone_store e2 (Some id) chat2 cq2
                (snd (handleDone e1 (Some id) chat1 cq1 s))) as [Hok2 Hs2].
  rewrite Hs2, Hs1, !followups_mark_replied, !resolve_followup_lookup.
  rewrite followups_mark_replied, resolve_followup_lookup, Hrow.
  repeat split; assumption.
Qed.

Lemma Qtrunc_comp (x y : Q) : (x == y)%Q -> Qtrunc x = Qtrunc y.
Proof.
  intros Hxy. unfold Qtrunc.
  assert (Hb : Qle_bool 0 x = Qle_bool 0 y).
  { apply eq_true_iff_eq. rewrite !Qle_bool_iff. now rewrite Hxy. }
  rewrite Hb. destruct (Qle_bool 0 y); [now apply Qfloor_comp | now apply Qceiling_comp].
Qed.

Lemma Qtrunc_Z (z : Z) : Qtrunc (inject_Z z) = z.
Proof. unfold Qtrunc. destruct (Qle_bool 0 (inject_Z z)); [apply Qfloor_Z | apply Qceiling_Z]. Qed.

(** The instant a snooze computes, for a delay that is a whole number [d]
    of milliseconds. *)
Lemma snooze_due (now d : Z) (q : Q) :
  (q * inject_Z 3600000 == inject_Z d)%Q ->
  (Z.abs (now + d) <= maxTime)%Z ->
  toISOString (new_Date (add (of_Z now) (mul (Fin q) (of_Z 3600000)))) = Ok (now + d)%Z.
Proof.
  intros Hd Hrange. unfold new_Date, of_Z. cbn [mul add TimeClip].
  assert (Ht : Qtrunc (inject_Z now + q * inject_Z 3600000) = (now + d)%Z).
  { rewrite <- (Qtrunc_Z (now + d)). apply Qtrunc_comp.
    rewrite Hd, inject_Z_plus. reflexivity. }
  rewrite Ht. apply Z.leb_le in Hrange. rewrite Hrange. reflexivity.
Qed.

Lemma handleSnooze_store (e : env) (id : option string) (hours : number)
    (chatId : option Z) (callbackQueryId : option string) (s : state) (due : instant) :
  toISOString (new_Date (add (of_Z (Date_now e)) (mul hours (of_Z 3600000)))) = Ok due ->
  fst (handleSnooze e id hours chatId callbackQueryId s) = Ok tt
  /\ store (snd (handleSnooze e id hours chatId callbackQueryId s)) =
       upsert_followup id (Some due) (store s).
Proof.
  intros Hdue. unfold handleSnooze, bind, lift, update_store, modify, sendText, emit.
  rewrite Hdue. cbn.
  destruct callbackQueryId as [q|]; [destruct (truthy_string q)|]; cbn; split; reflexivity.
Qed.

Lemma upsert_followup_lookup (id : string) (due : instant) (d : db) :
  followups (upsert_followup (Some id) (Some due) d) !! id =
    Some {| status := open; due_at := Some due; resolved_at := resolved_at_of id d |}.
Proof.
  unfold resolved_at_of. cbn.
  destruct (followups d !! id) as [f|]; now rewrite lookup_insert_eq.
Qed.

(** A snooze, carried out or refused, leaves the time of resolution alone. *)
Lemma snooze_resolved_at (id : string) (c : snooze_call) (s : state) :
  resolved_at_of id (store (snooze id s c)) = resolved_at_of id (store s).
Proof.
  unfold snooze.
  destruct (toISOString (new_Date (add (of_Z (Date_now (snooze_env c)))
                                       (mul (Fin (snooze_hours c)) (of_Z 3600000)))))
    as [due|err] eqn:Hdue.
  - rewrite (proj2 (handleSnooze_store _ _ _ _ _ s due Hdue)).
    unfold resolved_at_of at 1. now rewrite upsert_followup_lookup.
  - unfold handleSnooze, bind, lift. now rewrite Hdue.
Qed.

Lemma snooze_all_resolved_at (id : string) (cs : list snooze_call) (s : state) :
  resolved_at_of id (store (snooze_all id cs s)) = resolved_at_of id (store s).
Proof.
  revert s. induction cs as [|c cs IH]; intros s; [reflexivity|].
  cbn. unfold snooze_all in IH. now rewrite IH, snooze_resolved_at.
Qed.

(** C6: a snooze sets [due_at] to now plus the delay and the status to
    open, whatever the row held; after any sequence of snoozes of a message
    its row is open and [due_at] is the clock of the last snooze plus the
    delay of the last snooze (the delays do not add up). *)
Theorem snooze_last_wins (id : string) (earlier : list snooze_call) (last : snooze_call)
    (d : Z) (s : state) :
  (snooze_hours last * inject_Z 3600000 == inject_Z d)%Q ->
  (Z.abs (Date_now (snooze_env last) + d) <= maxTime)%Z ->
  let before := snooze_all id earlier s in
  fst (handleSnooze (snooze_env last) (Some id) (Fin (snooze_hours last))
         (snooze_chat last) (snooze_callback last) before) = Ok tt
  /\ followups (store (snooze_all id (earlier ++ [last]) s)) !! id =
       Some {| status := open;
               due_at := Some (Date_now (snooze_env last) + d)%Z;
               resolved_at := resolved_at_of id (store s) |}.
Proof.
  intros Hd Hrange. cbv zeta.
  pose proof (handleSnooze_store (snooze_env last) (Some id) (Fin (snooze_hours last))
                (snooze_chat last) (snooze_callback last) (snooze_all id earlier s) _
                (snooze_due _ _ _ Hd Hrange)) as [Hok Hstore].
  split; [exact Hok|].
  unfold snooze_all at 1. rewrite List.fold_left_app. cbn [List.fold_left].
  fold (snooze_all id earlier s). unfold snooze at 1.
  now rewrite Hstore, upsert_followup_lookup, snooze_all_resolved_at.
Qed.
End Followups.

(** ** The webhook: commands and the call to the classifier *)

Section Coordinator.
Import Webhook Observe.
Context {rt : Runtime} (cfg : config) (e : env).

Lemma quiet_refl (s : state) : quiet_step s s.
Proof. split; reflexivity. Qed.

Lemma quiet_trans (s1 s2 s3 : state) : quiet_step s1 s2 -> quiet_step s2 s3 -> quiet_step s1 s3.
Proof. intros [H1 H2] [H3 H4]. split; congruence. Qed.

Lemma quiet_emit (c : call) : is_classify c = false -> keeps quiet_step (emit c).
Proof.
  intros Hc. apply keeps_modify. intros s. split; [reflexivity|].
  unfold classify_calls. cbn. rewrite List.filter_app. cbn. rewrite Hc.
  apply List.app_nil_r.
Qed.

Lemma quiet_update_store (f : db -> db) :
  (forall d, message_keys (f d) = message_keys d) -> keeps quiet_step (update_store f).
Proof. intros Hf. apply keeps_modify. intros s. split; [apply Hf | reflexivity]. Qed.

Lemma message_keys_mark_replied (id : option string) (d : db) :
  message_keys (mark_replied id d) = message_keys d.
Proof.
  destruct id as [i|]; [|reflexivity]. unfold message_keys. cbn.
  rewrite List.map_map. apply List.map_ext. intros m.
  destruct (String.eqb (m_id m) i); reflexivity.
Qed.

Lemma message_keys_resolve_followup (id : option string) (t : instant) (d : db) :
  message_keys (resolve_followup id t d) = message_keys d.
Proof. destruct id; reflexivity. Qed.

Lemma message_keys_upsert_followup (id : option string) (due : option instant) (d : db) :
  message_keys (upsert_followup id due d) = message_keys d.
Proof. destruct id; reflexivity. Qed.

Ltac quiet_steps :=
  repeat first
    [ apply (keeps_ret _ quiet_refl) | apply (keeps_throw _ quiet_refl)
    | apply (keeps_lift _ quiet_refl) | apply (keeps_gets _ quiet_refl)
    | apply quiet_emit; reflexivity
    | apply quiet_update_store; intros ?;
      first [ apply message_keys_mark_replied | apply message_keys_resolve_followup
            | apply message_keys_upsert_followup ]
    | apply (keeps_bind _ quiet_trans); [|intros ?]
    | match goal with
      | |- keeps _ (match ?x with _ => _ end) => destruct x
      end ].

Lemma quiet_sendText (chatId : option Z) (text : tg_text) (kb : option keyboard) :
  keeps quiet_step (sendText chatId text kb).
Proof. unfold sendText. quiet_steps. Qed.

Lemma quiet_handleReview (chatId : option Z) (days : number) : keeps quiet_step (handleReview e chatId days).
Proof. unfold handleReview. quiet_steps; apply quiet_sendText. Qed.

Lemma quiet_handleSummary (chatId : option Z) (n : number) : keeps quiet_step (handleSummary e chatId n).
Proof. unfold handleSummary, callInternal. quiet_steps; apply quiet_sendText. Qed.

Lemma quiet_handleDtg (chatId : option Z) (phrase : string) : keeps quiet_step (handleDtg e chatId phrase).
Proof. unfold handleDtg. quiet_steps; apply quiet_sendText. Qed.

Lemma quiet_handleDone (id : option string) (chatId : option Z) (cq : option string) :
  keeps quiet_step (handleDone e id chatId cq).
Proof. unfold handleDone. quiet_steps; apply quiet_sendText. Qed.

Lemma quiet_handleSnooze (id : option string) (hours : number) (chatId : option Z)
    (cq : option string) :
  keeps quiet_step (handleSnooze e id hours chatId cq).
Proof. unfold handleSnooze. quiet_steps; apply quiet_sendText. Qed.

Lemma quiet_command (chatId : Z) (name args : string) : keeps quiet_step (command e chatId name args).
Proof.
  unfold command.
  repeat match goal with
         | |- keeps _ (if ?b then _ else _) => destruct b
         end;
    first [ apply quiet_handleReview | apply quiet_handleSummary | apply quiet_handleDtg
          | apply quiet_handleDone | apply quiet_handleSnooze | apply quiet_sendText ].
Qed.

Lemma upsertUser_run (from : option Telegram.User) (s : state) :
  exists u s',
    upsertUser from s = (Ok (Some u), s')
    /\ messages (store s') = messages (store s)
    /\ calls s' = calls s.
Proof.
  unfold upsertUser, bind, on_store, upsert_user.
  destruct (List.find _ (users (store s))); cbn; eauto.
Qed.

Lemma gen_id_truthy (n : nat) : truthy_string (gen_id "m" n) = true.
Proof. reflexivity. Qed.

Lemma parseCommand_names (text : string) :
  match fst (parseCommand text) with
  | Some (String _ _) => true
  | _ => false
  end = names_command text.
Proof.
  unfold parseCommand, names_command, begins_with_slash, first_token.
  destruct (split_ws (trim text)) as [|cmd rest]; [reflexivity|]. cbn.
  destruct cmd as [|c [|c' r]]; cbn; [reflexivity | |];
    destruct (Ascii.eqb c "/"); reflexivity.
Qed.

(** C10 (as amended): for a text message the row is stored whether or not
    the text is a command; the classifier is called exactly when the insert
    made a new row and the first piece of the text is not a slash followed
    by a name.  A first piece that is a slash alone does not make the text a
    command. *)
Theorem serve_classifies (update : Telegram.Update) (msg : Telegram.Message) (text : string)
    (t : instant) (s : state) :
  Telegram.callback_query update = None ->
  match Telegram.message update with
  | Some m => Some m
  | None => Telegram.edited_message update
  end = Some msg ->
  Telegram.text msg = Some text ->
  createdAt_of e msg = Some t ->
  let s' := snd (serve cfg e (Some (TELEGRAM_WEBHOOK_SECRET cfg)) update s) in
  let fresh := negb (already_stored (Telegram.update_id update) (store s)) in
  let id := gen_id "m" (List.length (messages (store s))) in
  message_keys (store s') =
    message_keys (store s) ++ (if fresh then [(id, text, Telegram.update_id update)] else [])
  /\ classify_calls s' =
       classify_calls s ++
       (if fresh && negb (names_command text)
        then [internal "ai-classify" (JObj [("messageId", JStr id)])]
        else []).
Proof.
  intros Hcq Hmsg Htext Hcreated. cbv zeta.
  remember (serve cfg e (Some (TELEGRAM_WEBHOOK_SECRET cfg)) update s) as r eqn:Hr.
  unfold serve in Hr. rewrite String.eqb_refl, Hcq, Hmsg, Htext, Hcreated in Hr.
  cbn [negb] in Hr.
  destruct (upsertUser_run (Telegram.from msg) s) as (u & s0 & Hu & Hm0 & Hc0).
  unfold bind at 1 in Hr. rewrite Hu in Hr. unfold bind at 1 in Hr. cbn [ret] in Hr.
  assert (Hkeys0 : message_keys (store s0) = message_keys (store s))
    by (unfold message_keys; now rewrite Hm0).
  assert (Hcalls0 : classify_calls s0 = classify_calls s)
    by (unfold classify_calls; now rewrite Hc0).
  assert (Hstored : already_stored (Telegram.update_id update) (store s0)
                    = already_stored (Telegram.update_id update) (store s))
    by (unfold already_stored; now rewrite Hm0).
  pose proof (parseCommand_names text) as Hname.
  destruct (already_stored (Telegram.update_id update) (store s)) eqn:Hdup; cbn [negb andb].
  - (* a duplicate: nothing is stored, nothing is classified *)
    assert (Hins : insertMessage update (Telegram.chat_id msg) (u_id u) text (Some t) s0
                   = (Ok None, s0)).
    { unfold insertMessage, bind, lift, on_store, insert_message. cbn.
      rewrite Hstored. cbn. destruct s0; reflexivity. }
    unfold bind at 1 in Hr. rewrite Hins in Hr.
    destruct (parseCommand text) as [name args]. cbn [fst] in Hname.
    rewrite !List.app_nil_r.
    destruct name as [[|c n]|].
    + cbn in Hr. subst r. split; assumption.
    + pose proof (quiet_command (Telegram.chat_id msg) (String c n) args s0) as [Hq1 Hq2].
      unfold bind in Hr.
      destruct (command e (Telegram.chat_id msg) (String c n) args s0) as [[?|?] s1];
        subst r; cbn in *; split; congruence.
    + cbn in Hr. subst r. split; assumption.
  - (* a first delivery *)
    destruct (insertMessage_fresh update (Telegram.chat_id msg) (u_id u) text t s0)
      as (row & Hins & Hid & Htxt & Href & _); [now rewrite Hstored|].
    unfold bind at 1 in Hr. rewrite Hins in Hr.
    set (s1 := {| store := set_messages (fun rows => rows ++ [row]) (store s0);
                  calls := calls s0 |}) in *.
    assert (Hkeys1 : message_keys (store s1) =
                     message_keys (store s) ++
                     [(gen_id "m" (List.length (messages (store s))), text,
                       Telegram.update_id update)]).
    { unfold s1, message_keys. cbn. rewrite List.map_app, Hm0. cbn.
      now rewrite Hid, Hm0, Htxt, Href. }
    assert (Hcalls1 : classify_calls s1 = classify_calls s) by exact Hcalls0.
    assert (Hcall : forall b : Response,
               classify_calls
                 (snd ((let* _ :=
                          (let* _ := callInternal e "ai-classify"
                                       (JObj [("messageId",
                                               JStr (gen_id "m" (List.length (messages (store s0)))))])
                           in ret tt) in ret b)%handler s1)) =
               classify_calls s ++
               [internal "ai-classify"
                  (JObj [("messageId", JStr (gen_id "m" (List.length (messages (store s)))))])]
               /\ message_keys
                    (store (snd ((let* _ :=
                          (let* _ := callInternal e "ai-classify"
                                       (JObj [("messageId",
                                               JStr (gen_id "m" (List.length (messages (store s0)))))])
                           in ret tt) in ret b)%handler s1))) = message_keys (store s1)).
    { intros b. rewrite Hm0. unfold callInternal, bind, emit, modify. cbn.
      destruct (internal_reply e _ _); cbn; unfold classify_calls; cbn;
        rewrite List.filter_app; cbn; (split; [|reflexivity]);
        fold (classify_calls s0); now rewrite Hcalls0. }
    destruct (parseCommand text) as [name args]. cbn [fst] in Hname.
    destruct name as [[|c n]|]; rewrite <- Hname; cbn [negb].
    + rewrite gen_id_truthy in Hr. subst r.
      destruct (Hcall (ok BodyOk 200)) as [Hc Hk]. split; [now rewrite Hk | exact Hc].
    + pose proof (quiet_command (Telegram.chat_id msg) (String c n) args s1) as [Hq1 Hq2].
      rewrite List.app_nil_r. unfold bind in Hr.
      destruct (command e (Telegram.chat_id msg) (String c n) args s1) as [[?|?] s2];
        subst r; cbn in *; split; congruence.
    + rewrite gen_id_truthy in Hr. subst r.
      destruct (Hcall (ok BodyOk 200)) as [Hc Hk]. split; [now rewrite Hk | exact Hc].
Qed.
End Coordinator.

(** ** Enrichment: classification, embedding, follow-up row *)

Section Enrichment.
Import Upstream Classify Observe.
Context {rt : Runtime} (cfg : config) (e : env).

Lemma only_shaped_refl (dim : Z) (s : state) : only_shaped dim s s.
Proof. intros id v Hv. now left. Qed.

Lemma only_shaped_trans (dim : Z) (s1 s2 s3 : state) :
  only_shaped dim s1 s2 -> only_shaped dim s2 s3 -> only_shaped dim s1 s3.
Proof.
  intros H12 H23 id v Hv. destruct (H23 id v Hv) as [Hv2|Hs]; [|now right].
  now apply H12.
Qed.

Lemma valid_embedding_shaped (arr : list number) :
  valid_embedding cfg arr = true -> shaped (OPENAI_EMBED_DIMENSIONS cfg) arr.
Proof.
  unfold valid_embedding, shaped. intros H. apply andb_prop in H. destruct H as [Hlen Hfin].
  split; [now apply Z.eqb_eq|].
  apply List.Forall_forall. intros x Hx.
  rewrite List.forallb_forall in Hfin. now apply Hfin.
Qed.

(** A result of another length does not pass the guard, whatever it holds. *)
Lemma wrong_length_rejected (vec : json) :
  Z.of_nat (List.length (numbers_of vec)) <> OPENAI_EMBED_DIMENSIONS cfg ->
  valid_embedding cfg (numbers_of vec) = false.
Proof.
  intros Hlen. unfold valid_embedding. apply Z.eqb_neq in Hlen. now rewrite Hlen.
Qed.

Lemma shaped_emit (c : call) : keeps (only_shaped (OPENAI_EMBED_DIMENSIONS cfg)) (emit c).
Proof. apply keeps_modify. intros s id v Hv. now left. Qed.

Lemma shaped_update_store (f : db -> db) :
  (forall d, embeddings (f d) = embeddings d) ->
  keeps (only_shaped (OPENAI_EMBED_DIMENSIONS cfg)) (update_store f).
Proof.
  intros Hf. apply keeps_modify. intros s id v Hv. cbn in Hv. rewrite Hf in Hv. now left.
Qed.

Lemma shaped_upsert_embedding (id : string) (arr : list number) :
  valid_embedding cfg arr = true ->
  keeps (only_shaped (OPENAI_EMBED_DIMENSIONS cfg)) (update_store (upsert_embedding id arr)).
Proof.
  intros Hvalid. apply keeps_modify. intros s id' v Hv. cbn in Hv.
  destruct (decide (id = id')) as [->|Hne].
  - rewrite lookup_insert_eq in Hv. injection Hv as <-. right.
    now apply valid_embedding_shaped.
  - rewrite lookup_insert_ne in Hv by exact Hne. now left.
Qed.

Lemma embeddings_upsert_followup (id : option string) (due : option instant) (d : db) :
  embeddings (upsert_followup id due d) = embeddings d.
Proof. destruct id; reflexivity. Qed.

Ltac shaped_steps :=
  repeat first
    [ apply (keeps_ret _ (only_shaped_refl _)) | apply (keeps_throw _ (only_shaped_refl _))
    | apply (keeps_lift _ (only_shaped_refl _)) | apply (keeps_gets _ (only_shaped_refl _))
    | apply shaped_emit
    | apply shaped_update_store; intros ?;
      first [ reflexivity | apply embeddings_upsert_followup ]
    | apply (keeps_bind _ (only_shaped_trans _)); [|intros ?]
    | match goal with
      | |- keeps _ (if valid_embedding cfg ?arr then _ else _) =>
          destruct (valid_embedding cfg arr) eqn:?; [now apply shaped_upsert_embedding|]
      | |- keeps _ (match ?x with _ => _ end) => destruct x
      end ].

Lemma shaped_serve (header : option string) (body : option json) :
  keeps (only_shaped (OPENAI_EMBED_DIMENSIONS cfg)) (serve cfg e header body).
Proof.
  unfold serve, openaiJSON, openaiEmbed. shaped_steps.
Qed.





(** The classifier's answer [null] is not caught. *)
Lemma classification_of_null : exists err, classification_of JNull = Throw err.
Proof. eexists. reflexivity. Qed.

Lemma upsert_open_lookup (id : string) (d : db) :
  followups (upsert_followup (Some id) None d) !! id =
    Some {| status := open;
            due_at := match followups d !! id with Some f => due_at f | None => None end;
            resolved_at := match followups d !! id with
                           | Some f => resolved_at f
                           | None => None
                           end |}.
Proof. cbn. destruct (followups d !! id) as [f|]; now rewrite lookup_insert_eq. Qed.

(** The id that a request names: [String(body?.messageId)]. *)
Lemma serve_followups (header : option string) (body : option json) (s : state) :
  let r := serve cfg e header body s in
  match fst r with
  | Ok {| body_of := BodyDone upd _ |} =>
      followups (store (snd r)) =
        if followup upd || is_question upd
        then followups (upsert_followup (Some (requested_id body)) None (store s))
        else followups (store s)
  | _ => followups (store (snd r)) = followups (store s)
  end.
Proof.
  cbv zeta. unfold serve, requested_id, openaiJSON, openaiEmbed, bind, lift, gets, emit,
    update_store, modify, ret, throw, ok.
  repeat (cbn [fst snd store calls body_of status_of];
          match goal with
          | |- context [match ?x with _ => _ end] =>
              lazymatch x with
              | context [match _ with _ => _ end] => fail
              | _ => destruct x eqn:?
              end
          end);
    cbn [fst snd store calls body_of status_of]; try reflexivity; try congruence.
Qed.

(** C9 (as amended): a run of the classifier writes the follow-up row of
    the message only when the classification has [followup] or
    [is_question], and then by an upsert that sets the status to open: a
    row that did not exist is made open with no due date, a row that existed
    (open or done) becomes open and keeps the [due_at] and [resolved_at] it
    had.  Outside the classifier a snooze, which is an upsert too, makes the
    row of a message that has none. *)
Theorem followup_when_flagged (header : option string) (body : option json) (s : state) :
  let r := serve cfg e header body s in
  match fst r with
  | Ok {| body_of := BodyDone upd _ |} =>
      followups (store (snd r)) =
        if followup upd || is_question upd
        then followups (upsert_followup (Some (requested_id body)) None (store s))
        else followups (store s)
  | _ => followups (store (snd r)) = followups (store s)
  end
  /\ (forall (id : string) (d : db),
        followups (upsert_followup (Some id) None d) !! id =
          Some {| status := open;
                  due_at := match followups d !! id with
                            | Some f => due_at f
                            | None => None
                            end;
                  resolved_at := match followups d !! id with
                                 | Some f => resolved_at f
                                 | None => None
                                 end |})
  /\ (forall (id other : string) (d : db),
        id <> other ->
        followups (upsert_followup (Some id) None d) !! other = followups d !! other)
  /\ (forall (we : Webhook.env) (id : string) (hours : number) (chatId : option Z)
             (callbackQueryId : option string) (ws : Webhook.state) (due : instant),
        toISOString (new_Date (add (of_Z (Webhook.Date_now we)) (mul hours (of_Z 3600000))))
        = Ok due ->
        followups (Webhook.store ws) !! id = None ->
        followups
          (Webhook.store (snd (Webhook.handleSnooze we (Some id) hours chatId
                                 callbackQueryId ws))) !! id
        = Some {| status := open; due_at := Some due; resolved_at := None |}).
Proof.
  cbv zeta. split; [apply serve_followups|]. split; [apply upsert_open_lookup|]. split.
  - intros id other d Hne. cbn.
    destruct (followups d !! id); now rewrite lookup_insert_ne.
  - intros we id hours chatId callbackQueryId ws due Hdue Hnone.
    rewrite (proj2 (handleSnooze_store we (Some id) hours chatId callbackQueryId ws due Hdue)).
    rewrite upsert_followup_lookup. unfold resolved_at_of. now rewrite Hnone.
Qed.
End Enrichment.

(** ** Summary cache: the window of a request *)

Section Window.
Import Summarize Observe.
Context {rt : Runtime} (cfg : config) (e : env).

Lemma MonthFromTime_range (t : Z) : (0 <= MonthFromTime t <= 11)%Z.
Proof.
  unfold MonthFromTime. cbn.
  repeat match goal with
         | |- context [if ?b then _ else _] => destruct b
         end; lia.
Qed.

(** The day number that the fields of a date make is the day of that date. *)
Lemma MakeDay_fields (t k : Z) :
  MakeDay (YearFromTime t) (MonthFromTime t) (DateFromTime t - k) = (Day t - k)%Z.
Proof.
  pose proof (MonthFromTime_range t) as Hm.
  unfold MakeDay, DateFromTime, DayWithinYear.
  rewrite (Z.div_small (MonthFromTime t) 12), (Z.mod_small (MonthFromTime t) 12) by lia.
  rewrite Z.add_0_r. lia.
Qed.

(** [YearFromDay d] is the year that holds day [d]. *)
Lemma YearFromDay_spec (d : Z) :
  (DayFromYear (YearFromDay d) <= d < DayFromYear (YearFromDay d + 1))%Z.
Proof.
  unfold YearFromDay.
  destruct (d <? DayFromYear (1970 + d * 10000 / 3652425))%Z eqn:H1;
    [apply Z.ltb_lt in H1 | apply Z.ltb_ge in H1].
  - unfold DayFromYear in *. Z.to_euclidean_division_equations. lia.
  - destruct (DayFromYear (1970 + d * 10000 / 3652425 + 1) <=? d)%Z eqn:H2;
      [apply Z.leb_le in H2 | apply Z.leb_gt in H2];
      unfold DayFromYear in *; Z.to_euclidean_division_equations; lia.
Qed.

(** The calendar date of an instant is that of its day. *)
Lemma iso_date_Day (t1 t2 : Z) : Day t1 = Day t2 -> iso_date t1 = iso_date t2.
Proof.
  intros H. unfold iso_date, DateFromTime, MonthFromTime, DayWithinYear, YearFromTime.
  now rewrite H.
Qed.

Lemma Day_days_before (t k : Z) : Day (t - k * msPerDay) = (Day t - k)%Z.
Proof.
  unfold Day, msPerDay.
  replace (t - k * 86400000)%Z with (t + (- k) * 86400000)%Z by lia.
  rewrite Z.div_add by lia. lia.
Qed.

Lemma YearFromDay_lower (d : Z) : (0 <= d)%Z -> (1969 <= YearFromDay d)%Z.
Proof.
  intros Hd. unfold YearFromDay.
  assert (0 <= d * 10000 / 3652425)%Z by (apply Z.div_pos; lia).
  repeat match goal with
         | |- context [if ?b then _ else _] => destruct b
         end; lia.
Qed.

Lemma TimeClip_Z (z : Z) : (Z.abs z <= maxTime)%Z -> TimeClip (of_Z z) = Some z.
Proof.
  intros Hz. unfold TimeClip, of_Z. rewrite Qtrunc_Z.
  apply Z.leb_le in Hz. now rewrite Hz.
Qed.

Lemma Day_bounds (now : Z) :
  (0 <= now <= maxTime)%Z -> (0 <= Day now * msPerDay <= now)%Z.
Proof.
  intros Hnow. unfold Day, msPerDay.
  pose proof (Z.mul_div_le now 86400000 ltac:(lia)).
  assert (0 <= now / 86400000)%Z by (apply Z.div_pos; lia). lia.
Qed.

Lemma Day_of_midnight (d : Z) : Day (d * msPerDay) = d.
Proof. unfold Day, msPerDay. apply Z.div_mul. lia. Qed.

Lemma TimeWithinDay_of_midnight (d : Z) : TimeWithinDay (d * msPerDay) = 0%Z.
Proof. unfold TimeWithinDay, msPerDay. apply Z.mod_mul. lia. Qed.

Lemma today_midnight :
  (0 <= Date_now e <= maxTime)%Z -> today e = Some (Day (Date_now e) * msPerDay)%Z.
Proof.
  intros Hnow. unfold today, Date_UTC.
  pose proof (YearFromDay_lower (Day (Date_now e))) as Hy.
  pose proof (Day_bounds _ Hnow) as Hd.
  assert (Hyear : ((0 <=? YearFromTime (Date_now e)) && (YearFromTime (Date_now e) <=? 99))%Z
                  = false).
  { unfold YearFromTime. apply andb_false_iff. right. apply Z.leb_gt.
    assert (0 <= Day (Date_now e))%Z by (unfold msPerDay in Hd; lia). lia. }
  rewrite Hyear. pose proof (MakeDay_fields (Date_now e) 0) as Hmk.
  rewrite Z.sub_0_r in Hmk. rewrite Z.sub_0_r in Hmk. rewrite Hmk.
  unfold MakeDate. rewrite Z.add_0_r. apply TimeClip_Z. unfold maxTime in *. lia.
Qed.

(** The window of a request for [n] days: it ends on the UTC day of "now"
    and starts [n - 1] days before. *)
Lemma window_days (n : Z) :
  (1 <= n <= 30)%Z ->
  (0 <= Date_now e <= maxTime)%Z ->
  window e (of_Z n) =
    Ok (iso_date ((Day (Date_now e) - (n - 1)) * msPerDay)%Z,
        iso_date (Day (Date_now e) * msPerDay)%Z).
Proof.
  intros Hn Hnow. unfold window. rewrite (today_midnight Hnow). cbn [toISOString].
  set (t0 := (Day (Date_now e) * msPerDay)%Z).
  pose proof (Day_bounds _ Hnow) as Hd. fold t0 in Hd.
  assert (Hstart : setUTCDate (Some t0) (sub (getUTCDate (Some t0)) (sub (of_Z n) (of_Z 1)))
                   = Some ((Day (Date_now e) - (n - 1)) * msPerDay)%Z).
  { unfold setUTCDate, getUTCDate, sub, of_Z. cbn [neg add].
    assert (Hq : Qtrunc (inject_Z (DateFromTime t0) + - (inject_Z n + - inject_Z 1))
                 = (DateFromTime t0 - (n - 1))%Z).
    { rewrite <- (Qtrunc_Z (DateFromTime t0 - (n - 1))). apply Qtrunc_comp.
      unfold Qeq. cbn. lia. }
    rewrite Hq, MakeDay_fields. unfold t0 at 1 2.
    rewrite Day_of_midnight, TimeWithinDay_of_midnight.
    unfold MakeDate. rewrite Z.add_0_r. fold of_Z. apply TimeClip_Z.
    unfold t0, maxTime, msPerDay in *. lia. }
  rewrite Hstart. cbn [toISOString]. reflexivity.
Qed.

Lemma days_of_whole (n : Z) :
  (1 <= n <= 30)%Z -> days_of (JObj [("days", JNum (of_Z n))]) = Fin (inject_Z n).
Proof.
  intros Hn. unfold days_of. cbn. unfold Math_min, Math_max, of_Z, ltb.
  assert (H30 : Qle_bool (inject_Z 30) (inject_Z n) = (30 <=? n)%Z).
  { unfold Qle_bool. cbn. now rewrite !Z.mul_1_r. }
  rewrite H30. destruct (30 <=? n)%Z eqn:Hle; cbn [negb].
  - apply Z.leb_le in Hle. assert (n = 30%Z) by lia. subst n. reflexivity.
  - assert (H1 : Qle_bool (inject_Z n) (inject_Z 1) = (n <=? 1)%Z).
    { unfold Qle_bool. cbn. now rewrite !Z.mul_1_r. }
    rewrite H1. destruct (n <=? 1)%Z eqn:Hle1; cbn [negb]; [|reflexivity].
    apply Z.leb_le in Hle1. assert (n = 1%Z) by lia. subst n. reflexivity.
Qed.

Lemma cached_summary_once (a b : string) (row : summary_row)
    (before after : list summary_row) (d : db) :
  summaries d = before ++ row :: after ->
  start_date row = a ->
  end_date row = b ->
  (forall r, In r (before ++ after) -> start_date r <> a \/ end_date r <> b) ->
  cached_summary a b d = Some row.
Proof.
  intros Hd Ha Hb Hothers.
  assert (Hrow : same_range a b row = true).
  { unfold same_range. rewrite Ha, Hb, !String.eqb_refl. reflexivity. }
  assert (Hnone : forall l,
             (forall r, In r l -> start_date r <> a \/ end_date r <> b) ->
             List.filter (same_range a b) l = []).
  { induction l as [|x l IH]; intros Hl; [reflexivity|]. cbn.
    destruct (same_range a b x) eqn:Hx.
    - unfold same_range in Hx. apply andb_prop in Hx. destruct Hx as [H1 H2].
      apply String.eqb_eq in H1. apply String.eqb_eq in H2.
      destruct (Hl x (or_introl eq_refl)); contradiction.
    - apply IH. intros r Hr. apply Hl. now right. }
  unfold cached_summary. rewrite Hd, List.filter_app. cbn [List.filter].
  rewrite Hrow, (Hnone before), (Hnone after); [reflexivity | |];
    intros r Hr; apply Hothers; apply List.in_or_app; auto.
Qed.

(** C7: for a request of [n] days, 1 <= n <= 30, the window ends on the
    UTC calendar day of "now" and starts on the day [n - 1] days earlier
    (for 7 days at noon of 2024-03-10: 2024-03-04 to 2024-03-10), and when
    the summaries hold a row with that pair of dates, and no other row with
    it, that row is the answer: the store is left as it was and the
    summarizer is not called. *)
Theorem summary_window (n : Z) (s : state) (row : summary_row)
    (before after : list summary_row) :
  (1 <= n <= 30)%Z ->
  (0 <= Date_now e <= maxTime)%Z ->
  let start_day := iso_date (Date_now e - (n - 1) * msPerDay)%Z in
  let end_day := iso_date (Date_now e) in
  summaries (store s) = before ++ row :: after ->
  start_date row = start_day ->
  end_date row = end_day ->
  (forall r, In r (before ++ after) -> start_date r <> start_day \/ end_date r <> end_day) ->
  window e (of_Z n) = Ok (start_day, end_day)
  /\ serve cfg e (Some (INTERNAL_FUNCTION_SECRET cfg))
       (Some (JObj [("days", JNum (of_Z n))])) s
     = (Ok (ok (BodySummary row) 200), s)
  /\ calls (snd (serve cfg e (Some (INTERNAL_FUNCTION_SECRET cfg))
                   (Some (JObj [("days", JNum (of_Z n))])) s)) = calls s.
Proof.
  intros Hn Hnow start_day end_day Hrows Hstart Hend Hothers.
  pose proof (cached_summary_once start_day end_day row before after (store s)
                Hrows Hstart Hend Hothers) as Hcached.
  assert (Hwindow : window e (of_Z n) = Ok (start_day, end_day)).
  { rewrite (window_days n Hn Hnow). unfold start_day, end_day.
    rewrite (iso_date_Day ((Day (Date_now e) - (n - 1)) * msPerDay)
               (Date_now e - (n - 1) * msPerDay))
      by now rewrite Day_of_midnight, Day_days_before.
    rewrite (iso_date_Day (Day (Date_now e) * msPerDay) (Date_now e))
      by apply Day_of_midnight.
    reflexivity. }
  assert (Hserve : serve cfg e (Some (INTERNAL_FUNCTION_SECRET cfg))
                     (Some (JObj [("days", JNum (of_Z n))])) s
                   = (Ok (ok (BodySummary row) 200), s)).
  { unfold serve. rewrite String.eqb_refl. cbn [negb truthy].
    rewrite (days_of_whole n Hn). fold (of_Z n).
    rewrite Hwindow. unfold bind, lift, gets. cbn [fst snd].
    rewrite Hcached. reflexivity. }
  split; [exact Hwindow|]. split; [exact Hserve|]. now rewrite Hserve.
Qed.
End Window.

(** ** Embeddings: the dimension of every stored vector *)

Section EmbeddingInvariant.
Import Observe.
Context {rt : Runtime}.

Lemma untouched_refl {S : Type} (db_of : S -> db) (s : S) : untouched db_of s s.
Proof. reflexivity. Qed.

Lemma untouched_trans {S : Type} (db_of : S -> db) (s1 s2 s3 : S) :
  untouched db_of s1 s2 -> untouched db_of s2 s3 -> untouched db_of s1 s3.
Proof. unfold untouched. congruence. Qed.

Lemma embeddings_resolve_followup (id : option string) (t : instant) (d : db) :
  embeddings (resolve_followup id t d) = embeddings d.
Proof. destruct id; reflexivity. Qed.

Lemma embeddings_mark_replied (id : option string) (d : db) :
  embeddings (mark_replied id d) = embeddings d.
Proof. destruct id; reflexivity. Qed.

Lemma embeddings_upsert_user (key : option Z) (display : string) (d : db) :
  embeddings (snd (upsert_user key display d)) = embeddings d.
Proof. unfold upsert_user. destruct (List.find _ (users d)); reflexivity. Qed.

Lemma embeddings_insert_message (update_ref message_ref : option Z) (chat : Z)
    (from_user txt : string) (created : instant) (upd : Telegram.Update) (d : db) :
  embeddings (snd (insert_message update_ref message_ref chat from_user txt created upd d))
  = embeddings d.
Proof. unfold insert_message. destruct (already_stored update_ref d); reflexivity. Qed.

Lemma embeddings_insert_summary (r : summary_row) (d : db) :
  embeddings (snd (Summarize.insert_summary r d)) = embeddings d.
Proof. unfold Summarize.insert_summary. destruct (existsb _ (summaries d)); reflexivity. Qed.

Lemma webhook_on_store {A : Type} (op : db -> A * db) :
  (forall d, embeddings (snd (op d)) = embeddings d) ->
  keeps (untouched Webhook.store) (Webhook.on_store op).
Proof.
  intros Hop s. unfold Webhook.on_store, untouched. specialize (Hop (Webhook.store s)).
  destruct (op (Webhook.store s)). exact Hop.
Qed.

Lemma webhook_update_store (f : db -> db) :
  (forall d, embeddings (f d) = embeddings d) ->
  keeps (untouched Webhook.store) (Webhook.update_store f).
Proof. intros Hf. apply keeps_modify. intros s. apply Hf. Qed.

Lemma webhook_emit (c : Webhook.call) : keeps (untouched Webhook.store) (Webhook.emit c).
Proof. apply keeps_modify. intros s. reflexivity. Qed.

Lemma summarize_on_store {A : Type} (op : db -> A * db) :
  (forall d, embeddings (snd (op d)) = embeddings d) ->
  keeps (untouched Summarize.store) (Summarize.on_store op).
Proof.
  intros Hop s. unfold Summarize.on_store, untouched. specialize (Hop (Summarize.store s)).
  destruct (op (Summarize.store s)). exact Hop.
Qed.

Lemma summarize_emit (c : Summarize.call) :
  keeps (untouched Summarize.store) (Summarize.emit c).
Proof. apply keeps_modify. intros s. reflexivity. Qed.

Ltac untouched_steps :=
  repeat first
    [ apply (keeps_ret _ (untouched_refl _)) | apply (keeps_throw _ (untouched_refl _))
    | apply (keeps_lift _ (untouched_refl _)) | apply (keeps_gets _ (untouched_refl _))
    | apply webhook_emit | apply summarize_emit
    | apply webhook_update_store; intros ?;
      first [ apply embeddings_resolve_followup | apply embeddings_mark_replied
            | apply embeddings_upsert_followup ]
    | apply webhook_on_store; intros ?;
      first [ apply embeddings_upsert_user | apply embeddings_insert_message ]
    | apply summarize_on_store; intros ?; apply embeddings_insert_summary
    | apply (keeps_bind _ (untouched_trans _)); [|intros ?]
    | match goal with
      | |- keeps _ (match ?x with _ => _ end) => destruct x
      end ].

Lemma webhook_serve_untouched (cfg : Webhook.config) (e : Webhook.env)
    (header : option string) (update : Telegram.Update) :
  keeps (untouched Webhook.store) (Webhook.serve cfg e header update).
Proof.
  unfold Webhook.serve, Webhook.command, Webhook.upsertUser, Webhook.insertMessage,
    Webhook.handleReview, Webhook.handleSummary, Webhook.handleDtg, Webhook.handleDone,
    Webhook.handleSnooze, Webhook.callInternal, Webhook.sendText.
  untouched_steps.
Qed.

Lemma summarize_serve_untouched (cfg : Summarize.config) (e : Summarize.env)
    (header : option string) (body : option json) :
  keeps (untouched Summarize.store) (Summarize.serve cfg e header body).
Proof.
  unfold Summarize.serve, Summarize.summarize. untouched_steps.
Qed.

(** C4: a result whose length differs from the configured dimension does
    not pass the guard of the write, whatever it holds; a run of the
    classifier leaves in the table of embeddings only rows that were there
    before or whose vector has exactly the configured dimension; so in every
    database that runs of the three functions make of the empty one, every
    stored vector has exactly that dimension. *)
Theorem embedding_dimension (cfg : Classify.config) :
  let dim := Classify.OPENAI_EMBED_DIMENSIONS cfg in
  (forall vec : json,
     Z.of_nat (List.length (Classify.numbers_of vec)) <> dim ->
     Classify.valid_embedding cfg (Classify.numbers_of vec) = false)
  /\ (forall (e : Classify.env) (header : option string) (body : option json)
             (s : Classify.state),
        only_shaped dim s (snd (Classify.serve cfg e header body s)))
  /\ (forall d : db, reachable cfg d -> well_shaped dim d).
Proof.
  cbv zeta. split; [apply wrong_length_rejected|].
  split; [intros e header body s; apply shaped_serve|].
  intros d Hd. induction Hd as [|d d' Hd IH Hrun].
  - intros id v Hv. cbn in Hv. rewrite lookup_empty in Hv. discriminate.
  - destruct Hrun as [wcfg e header update s | e header body s | scfg e header body s].
    + pose proof (webhook_serve_untouched wcfg e header update s) as Hsame.
      intros id v Hv. apply (IH id). unfold untouched in Hsame. now rewrite <- Hsame.
    + intros id v Hv.
      destruct (shaped_serve cfg e header body s id v Hv) as [Hold|Hnew];
        [now apply (IH id) | exact Hnew].
    + pose proof (summarize_serve_untouched scfg e header body s) as Hsame.
      intros id v Hv. apply (IH id). unfold untouched in Hsame. now rewrite <- Hsame.
Qed.
End EmbeddingInvariant.

(** * Further properties of the three functions *)

(** ** Strings *)

Section Strings.
Import Observe.

Lemma rev_string_involutive (s : string) : rev_string (rev_string s) = s.
Proof.
  unfold rev_string.
  now rewrite list_ascii_of_string_of_list_ascii, List.rev_involutive,
    string_of_list_ascii_of_string.
Qed.

Lemma append_cons (c : ascii) (a b : string) : String c a +:+ b = String c (a +:+ b).
Proof. reflexivity. Qed.

Lemma append_nil_l (a : string) : EmptyString +:+ a = a.
Proof. reflexivity. Qed.

Lemma string_of_list_ascii_app (l1 l2 : list ascii) :
  string_of_list_ascii (l1 ++ l2) = string_of_list_ascii l1 +:+ string_of_list_ascii l2.
Proof.
  induction l1 as [|c l1 IH]; cbn; [reflexivity | now rewrite append_cons, IH].
Qed.

Lemma list_ascii_of_string_app (s1 s2 : string) :
  list_ascii_of_string (s1 +:+ s2) = list_ascii_of_string s1 ++ list_ascii_of_string s2.
Proof.
  induction s1 as [|c s1 IH]; [reflexivity | rewrite append_cons; cbn; now rewrite IH].
Qed.

Lemma rev_string_cons (c : ascii) (s : string) :
  rev_string (String c s) = rev_string s +:+ String c EmptyString.
Proof. unfold rev_string. cbn. now rewrite string_of_list_ascii_app. Qed.

Lemma rev_string_snoc (c : ascii) (s : string) :
  rev_string (s +:+ String c EmptyString) = String c (rev_string s).
Proof.
  unfold rev_string. rewrite list_ascii_of_string_app, List.rev_app_distr. reflexivity.
Qed.

Lemma append_assoc (a b c : string) : (a +:+ b) +:+ c = a +:+ (b +:+ c).
Proof.
  induction a as [|x a IH]; [reflexivity | rewrite !append_cons; cbn; now rewrite IH].
Qed.

Lemma append_nil_r (a : string) : a +:+ EmptyString = a.
Proof.
  induction a as [|x a IH]; [reflexivity | rewrite !append_cons; cbn; now rewrite IH].
Qed.

Lemma length_append (a b : string) :
  String.length (a +:+ b) = (String.length a + String.length b)%nat.
Proof.
  induction a as [|x a IH]; [reflexivity | rewrite !append_cons; cbn; now rewrite IH].
Qed.

Lemma lacks_rev_string (c : ascii) (s : string) : lacks c (rev_string s) = lacks c s.
Proof.
  unfold lacks, rev_string. rewrite list_ascii_of_string_of_list_ascii.
  induction (list_ascii_of_string s) as [|x l IH]; [reflexivity|].
  cbn. rewrite List.forallb_app, IH. cbn. rewrite andb_true_r. apply andb_comm.
Qed.

(** [split] and the separator. *)
Lemma split_char_from_app (sep : ascii) (a b cur : string) :
  split_char_from sep cur (a +:+ String sep b) =
    split_char_from sep cur a ++ split_char sep b.
Proof.
  revert cur. induction a as [|c a IH]; intros cur.
  - rewrite append_nil_l. cbn. now rewrite Ascii.eqb_refl.
  - rewrite append_cons. cbn. destruct (Ascii.eqb c sep); [cbn; f_equal|]; apply IH.
Qed.

Lemma split_char_app (sep : ascii) (a b : string) :
  split_char sep (a +:+ String sep b) = split_char sep a ++ split_char sep b.
Proof. apply split_char_from_app. Qed.

Lemma split_char_from_lacks (sep : ascii) (s cur : string) :
  lacks sep s = true -> split_char_from sep cur s = [rev_string cur +:+ s].
Proof.
  revert cur. induction s as [|c s IH]; intros cur Hs; cbn.
  - now rewrite append_nil_r.
  - unfold lacks in Hs. cbn in Hs. apply andb_prop in Hs. destruct Hs as [Hc Hs].
    apply negb_true_iff in Hc. rewrite Hc, (IH (String c cur) Hs), rev_string_cons.
    now rewrite append_assoc.
Qed.

Lemma split_char_lacks (sep : ascii) (s : string) :
  lacks sep s = true -> split_char sep s = [s].
Proof. intros Hs. apply (split_char_from_lacks sep s EmptyString Hs). Qed.

Lemma split_char_from_pieces (sep : ascii) (s cur : string) :
  lacks sep cur = true ->
  List.Forall (fun p => lacks sep p = true) (split_char_from sep cur s).
Proof.
  revert cur. induction s as [|c s IH]; intros cur Hcur; cbn.
  - constructor; [now rewrite lacks_rev_string | constructor].
  - destruct (Ascii.eqb c sep) eqn:Hc.
    + constructor; [now rewrite lacks_rev_string | now apply IH].
    + apply IH. unfold lacks. cbn. now rewrite Hc.
Qed.

Lemma split_char_pieces (sep : ascii) (s : string) :
  List.Forall (fun p => lacks sep p = true) (split_char sep s).
Proof. now apply split_char_from_pieces. Qed.

End Strings.

(** ** The chunks of a text *)

Section Chunks.
Import Webhook Observe.

Lemma fold_left_invariant {A B : Type} (P : A -> Prop) (f : A -> B -> A) (l : list B) (a : A) :
  P a -> (forall a b, P a -> In b l -> P (f a b)) -> P (List.fold_left f l a).
Proof.
  revert a. induction l as [|b l IH]; intros a Ha Hf; cbn; [exact Ha|].
  apply IH; [apply Hf; [exact Ha | now left] | intros a' b' Ha' Hb'; apply Hf; [exact Ha' | now right]].
Qed.

Lemma truthy_string_nonempty (s : string) : truthy_string s = true <-> s <> EmptyString.
Proof. destruct s; cbn; split; congruence. Qed.

Lemma truthy_string_length (s : string) : truthy_string s = false -> s = EmptyString.
Proof. destruct s; cbn; congruence. Qed.

(** X1: no chunk is empty; a text whose lines are all empty, the empty text among
    them, gives no chunk at all. *)
Theorem chunkByLength_nonempty (s : string) (max : nat) :
  List.Forall (fun c => c <> EmptyString) (chunkByLength s max)
  /\ ((forall line, In line (split_char LF s) -> line = EmptyString) ->
      chunkByLength s max = []).
Proof.
  unfold chunkByLength. split.
  - pose proof (fold_left_invariant
                  (fun st => List.Forall (fun c => c <> EmptyString) (fst st))
                  (chunk_line max) (split_char LF s) ([], EmptyString)) as Hinv.
    destruct (List.fold_left (chunk_line max) (split_char LF s) ([], EmptyString))
      as [out cur].
    cbn [fst] in Hinv.
    assert (Hout : List.Forall (fun c => c <> EmptyString) out).
    { apply Hinv; [constructor|]. intros [o c] line Ho _. unfold chunk_line. cbn [fst] in *.
      destruct (max <? _)%nat; [|exact Ho].
      destruct (truthy_string c) eqn:Hc; [|exact Ho].
      apply List.Forall_app. split; [exact Ho|].
      constructor; [now apply truthy_string_nonempty | constructor]. }
    destruct (truthy_string cur) eqn:Hcur; [|exact Hout].
    apply List.Forall_app. split; [exact Hout|].
    constructor; [now apply truthy_string_nonempty | constructor].
  - intros Hempty.
    pose proof (fold_left_invariant (fun st => st = ([], EmptyString))
                  (chunk_line max) (split_char LF s) ([], EmptyString)) as Hinv.
    rewrite Hinv; [reflexivity | reflexivity |].
    intros st line -> Hline. rewrite (Hempty line Hline). reflexivity.
Qed.

(** X2: a chunk is longer than [max] only when it is one line of the text that
    is longer than [max] by itself: such a line is never cut. *)
Theorem chunkByLength_bound (s : string) (max : nat) :
  List.Forall
    (fun c => (String.length c <= max)%nat
              \/ (In c (split_char LF s) /\ (max < String.length c)%nat))
    (chunkByLength s max).
Proof.
  set (fits := fun c => (String.length c <= max)%nat \/ In c (split_char LF s)).
  assert (Hfits : List.Forall fits (chunkByLength s max)).
  { unfold chunkByLength.
    pose proof (fold_left_invariant
                  (fun st => List.Forall fits (fst st) /\ fits (snd st))
                  (chunk_line max) (split_char LF s) ([], EmptyString)) as Hinv.
    destruct (List.fold_left (chunk_line max) (split_char LF s) ([], EmptyString))
      as [out cur].
    cbn [fst snd] in Hinv. destruct Hinv as [Hout Hcur].
    - split; [constructor | left; cbn; lia].
    - intros [o c] line [Ho Hc] Hline. unfold chunk_line. cbn [fst snd] in *.
      destruct (max <? _)%nat eqn:Hlen.
      + split; [|now right].
        destruct (truthy_string c); [|exact Ho].
        apply List.Forall_app. split; [exact Ho | now constructor].
      + split; [exact Ho|]. left. now apply Nat.ltb_ge in Hlen.
    - destruct (truthy_string cur); [|exact Hout].
      apply List.Forall_app. split; [exact Hout | now constructor]. }
  eapply List.Forall_impl; [|exact Hfits].
  intros c [Hc|Hc]; [now left|].
  destruct (le_lt_dec (String.length c) max); [now left | right; now split].
Qed.

Lemma filter_truthy_lines (line : string) :
  List.filter truthy_string (if truthy_string line then split_char LF line else [])
  = List.filter truthy_string (split_char LF line).
Proof.
  destruct (truthy_string line) eqn:Hl; [reflexivity|].
  apply truthy_string_length in Hl. subst. reflexivity.
Qed.

Lemma chunk_line_lines (max : nat) (st : list string * string) (line : string) :
  List.filter truthy_string (lines_of (chunk_line max st line))
  = List.filter truthy_string (lines_of st) ++ List.filter truthy_string (split_char LF line).
Proof.
  destruct st as [out cur]. unfold chunk_line, lines_of. cbn [fst snd].
  destruct (truthy_string cur) eqn:Hcur.
  - destruct (max <? _)%nat; cbn [fst snd].
    + rewrite List.flat_map_app. cbn [List.flat_map]. rewrite List.app_nil_r.
      now rewrite !List.filter_app, filter_truthy_lines.
    + assert (Hc : truthy_string (cur +:+ newline +:+ line) = true)
        by (destruct cur; [discriminate | reflexivity]).
      rewrite Hc. unfold newline. rewrite append_cons, append_nil_l, split_char_app.
      now rewrite !List.filter_app, List.app_assoc.
  - apply truthy_string_length in Hcur. subst cur.
    destruct (max <? _)%nat; cbn [fst snd]; rewrite List.app_nil_r;
      now rewrite !List.filter_app, filter_truthy_lines.
Qed.

Lemma fold_chunk_line_lines (max : nat) (lines : list string) (st : list string * string) :
  List.filter truthy_string (lines_of (List.fold_left (chunk_line max) lines st))
  = List.filter truthy_string (lines_of st)
    ++ List.filter truthy_string (List.flat_map (split_char LF) lines).
Proof.
  revert st. induction lines as [|line lines IH]; intros st; cbn [List.fold_left List.flat_map].
  - now rewrite List.app_nil_r.
  - rewrite IH, chunk_line_lines, List.filter_app. now rewrite List.app_assoc.
Qed.

Lemma flat_map_split_pieces (sep : ascii) (pieces : list string) :
  List.Forall (fun p => lacks sep p = true) pieces ->
  List.flat_map (split_char sep) pieces = pieces.
Proof.
  induction 1 as [|p pieces Hp _ IH]; [reflexivity|].
  cbn [List.flat_map]. now rewrite (split_char_lacks sep p Hp), IH.
Qed.

(** X3: cutting loses no text: the lines of the chunks are the lines of the
    text, in their order, but for empty lines. *)
Theorem chunkByLength_lines (s : string) (max : nat) :
  List.filter truthy_string (List.flat_map (split_char LF) (chunkByLength s max))
  = List.filter truthy_string (split_char LF s).
Proof.
  pose proof (fold_chunk_line_lines max (split_char LF s) ([], EmptyString)) as Hfold.
  rewrite (flat_map_split_pieces LF _ (split_char_pieces LF s)) in Hfold.
  change (lines_of ([], EmptyString)) with (@nil string) in Hfold.
  cbn [List.filter List.app] in Hfold.
  rewrite <- Hfold. unfold chunkByLength, lines_of.
  destruct (List.fold_left (chunk_line max) (split_char LF s) ([], EmptyString)) as [out cur].
  cbn [fst snd]. destruct (truthy_string cur).
  - rewrite List.flat_map_app. cbn [List.flat_map]. now rewrite List.app_nil_r.
  - now rewrite List.app_nil_r.
Qed.

End Chunks.

(** ** The webhook: what it answers and what it drops *)

Section WebhookEdges.
Import Webhook Observe.
Context {rt : Runtime} (cfg : config) (e : env).
Local Open Scope handler_scope.

Lemma then_ret {S A B : Type} (c : M S A) (b b' : B) (s s' : S) :
  (let* _ := c in ret b) s = (Ok b', s') -> b' = b.
Proof.
  unfold bind, ret. destruct (c s) as [[a|err] s1]; intros H; now inversion H.
Qed.

(** X4: a request with a wrong or missing secret gets 403 and changes nothing;
    with the right secret the answer, when the handler returns one, is 200;
    an update with neither a callback query nor a text changes nothing. *)
Theorem serve_status (header : option string) (update : Telegram.Update) (s : state) :
  (header <> Some (TELEGRAM_WEBHOOK_SECRET cfg) ->
   serve cfg e header update s = (Ok (ok (BodyError "forbidden") 403), s))
  /\ (header = Some (TELEGRAM_WEBHOOK_SECRET cfg) ->
      forall r s', serve cfg e header update s = (Ok r, s') -> r = ok BodyOk 200)
  /\ (header = Some (TELEGRAM_WEBHOOK_SECRET cfg) ->
      Telegram.callback_query update = None ->
      (forall msg, match Telegram.message update with
                   | Some m => Some m
                   | None => Telegram.edited_message update
                   end = Some msg -> Telegram.text msg = None) ->
      serve cfg e header update s = (Ok (ok BodyOk 200), s)).
Proof.
  split; [|split].
  - intros Hwrong. unfold serve.
    destruct header as [h|]; [|reflexivity].
    destruct (String.eqb_spec h (TELEGRAM_WEBHOOK_SECRET cfg)) as [->|_];
      [now elim Hwrong | reflexivity].
  - intros -> r s'. unfold serve. rewrite String.eqb_refl. cbn [negb].
    destruct (Telegram.callback_query update) as [cq|]; [apply then_ret|].
    destruct (match Telegram.message update with
              | Some m => Some m
              | None => Telegram.edited_message update
              end) as [msg|]; [|intros H; now inversion H].
    destruct (Telegram.text msg) as [text|]; [|intros H; now inversion H].
    unfold bind at 1.
    destruct (upsertUser (Telegram.from msg) s) as [[user|err] s1]; [|discriminate].
    unfold bind at 1.
    destruct (match user with
              | Some u => ret (u_id u)
              | None => throw (TypeError "Cannot read properties of null")
              end s1) as [[uid|err] s2]; [|discriminate].
    unfold bind at 1.
    destruct (insertMessage update (Telegram.chat_id msg) uid text (createdAt_of e msg) s2)
      as [[inserted|err] s3]; [|discriminate].
    destruct (parseCommand text) as [[[|c n]|] args]; apply then_ret.
  - intros -> Hcq Htext. unfold serve. rewrite String.eqb_refl, Hcq. cbn [negb].
    destruct (match Telegram.message update with
              | Some m => Some m
              | None => Telegram.edited_message update
              end) as [msg|]; [|reflexivity].
    now rewrite (Htext msg eq_refl).
Qed.

(** ** The day count of [/review] and [/summary] *)

Lemma Qle_bool_false (x y : Q) : Qle_bool x y = false -> (y < x)%Q.
Proof.
  intros H. apply Qnot_le_lt. intros Hle. apply Qle_bool_iff in Hle. congruence.
Qed.

Lemma Qle_bool_gt (x y : Q) : (y < x)%Q -> Qle_bool x y = false.
Proof.
  intros H. destruct (Qle_bool x y) eqn:Hle; [|reflexivity].
  apply Qle_bool_iff in Hle. now apply Qlt_not_le in H.
Qed.

(** [Math.max(1, Math.min(30, x))] for [x] that is not [NaN]. *)
Lemma clamp_cases (x : number) :
  x <> NaN ->
  Math_max (of_Z 1) (Math_min (of_Z 30) x) = of_Z 1
  \/ Math_max (of_Z 1) (Math_min (of_Z 30) x) = of_Z 30
  \/ exists q : Q, Math_max (of_Z 1) (Math_min (of_Z 30) x) = Fin q
                   /\ (inject_Z 1 < q)%Q /\ (q < inject_Z 30)%Q.
Proof.
  intros Hx. destruct x as [y| | |]; [| now elim Hx | right; now left | now left].
  unfold of_Z, Math_min, ltb.
  destruct (Qle_bool (inject_Z 30) y) eqn:H30; cbn [negb]; [right; now left|].
  apply Qle_bool_false in H30. unfold Math_max, ltb.
  destruct (Qle_bool y (inject_Z 1)) eqn:H1; cbn [negb]; [now left|].
  apply Qle_bool_false in H1. right. right. exists y. now repeat split.
Qed.

(** [n || dflt] is never [NaN]. *)
Lemma or_default_number (n : number) (dflt : Z) :
  (if truthy_number n then n else of_Z dflt) <> NaN.
Proof.
  destruct n as [q| | |]; cbn; try discriminate.
  destruct (negb (Qeq_bool q 0)); discriminate.
Qed.

(** X5: whatever the argument of the command is, and whatever it converts to,
    the day count is a number from 1 to 30. *)
Theorem clamp_days_range (args : string) (dflt : Z) :
  exists q : Q, clamp_days args dflt = Fin q /\ (1 <= q <= 30)%Q.
Proof.
  unfold clamp_days.
  destruct (clamp_cases _ (or_default_number (StringToNumber args) dflt))
    as [H|[H|(q & H & H1 & H30)]]; rewrite H.
  - exists (inject_Z 1). split; [reflexivity|]. split; discriminate.
  - exists (inject_Z 30). split; [reflexivity|]. split; discriminate.
  - exists q. split; [reflexivity|]. split; now apply Qlt_le_weak.
Qed.

Lemma Qtrunc_between (a b : Z) (x : Q) :
  (inject_Z a <= x)%Q -> (x <= inject_Z b)%Q -> (a <= Qtrunc x <= b)%Z.
Proof.
  intros Ha Hb. unfold Qtrunc. destruct (Qle_bool 0 x).
  - rewrite <- (Qfloor_Z a), <- (Qfloor_Z b). split; now apply Qfloor_resp_le.
  - rewrite <- (Qceiling_Z a), <- (Qceiling_Z b). split; now apply Qceiling_resp_le.
Qed.

(** X6: whatever follows [/review], the start of the window of the review,
    [Date.now() - days * 86400000], is a date that [toISOString] accepts: it
    lies between thirty days and one day before the clock. *)
Theorem review_window_start (args : string) (dflt : Z) :
  (0 <= Date_now e <= maxTime)%Z ->
  exists since : instant,
    toISOString (new_Date (sub (of_Z (Date_now e))
                              (mul (clamp_days args dflt) (of_Z 86400000)))) = Ok since
    /\ (Date_now e - 30 * msPerDay <= since <= Date_now e - msPerDay)%Z.
Proof.
  intros Hnow.
  assert (Hdays : exists q : Q, clamp_days args dflt = Fin q
                                /\ (inject_Z 1 <= q)%Q /\ (q <= inject_Z 30)%Q).
  { unfold clamp_days.
    destruct (clamp_cases _ (or_default_number (StringToNumber args) dflt))
      as [H|[H|(q & H & H1 & H30)]]; rewrite H.
    - exists (inject_Z 1). split; [reflexivity|]. split; discriminate.
    - exists (inject_Z 30). split; [reflexivity|]. split; discriminate.
    - exists q. split; [reflexivity|]. split; now apply Qlt_le_weak. }
  destruct Hdays as (q & -> & Hq1 & Hq30).
  set (x := (inject_Z (Date_now e) + - (q * inject_Z 86400000))%Q).
  assert (Hx : (Date_now e - 30 * msPerDay <= Qtrunc x <= Date_now e - msPerDay)%Z).
  { apply Qtrunc_between; unfold x, msPerDay.
    - unfold Z.sub. rewrite inject_Z_plus, inject_Z_opp, inject_Z_mult.
      apply Qplus_le_r, Qopp_le_compat, Qmult_le_compat_r; [exact Hq30 | discriminate].
    - unfold Z.sub. rewrite inject_Z_plus, inject_Z_opp.
      apply Qplus_le_r, Qopp_le_compat.
      rewrite <- (Qmult_1_l (inject_Z 86400000)) at 1.
      apply Qmult_le_compat_r; [exact Hq1 | discriminate]. }
  exists (Qtrunc x). split; [|exact Hx].
  cbn. fold x. unfold maxTime, msPerDay in *.
  destruct (Z.abs (Qtrunc x) <=? 8640000000000000)%Z eqn:Hclip; [reflexivity|].
  apply Z.leb_gt in Hclip. lia.
Qed.

(** ** The score *)

Lemma ageDays_nonneg (m : message_row) : (0 <= ageDays e m)%R.
Proof. unfold ageDays. apply Rmax_l. Qed.

Lemma recency_bonus (m : message_row) : (0 < exp (- ageDays e m) <= 1)%R.
Proof.
  split; [apply exp_pos|].
  destruct (ageDays_nonneg m) as [Hpos|Hzero].
  - left. rewrite <- exp_0. apply exp_increasing. lra.
  - rewrite <- Hzero, Ropp_0, exp_0. lra.
Qed.

(** X7: however old or new they are, of two messages with the same flags and
    urgency the one that was replied to scores no more than the other. *)
Theorem replied_scores_no_more (m1 m2 : message_row) :
  is_question m1 = is_question m2 ->
  followup m1 = followup m2 ->
  urgency_score m1 = urgency_score m2 ->
  replied m1 = Some true ->
  replied m2 <> Some true ->
  (score_of e m1 <= score_of e m2)%R.
Proof.
  intros Hq Hf Hu Hr1 Hr2. unfold score_of. rewrite Hq, Hf, Hu, Hr1.
  assert (Hn : not_flag (replied m2) = 1%R).
  { destruct (replied m2) as [[|]|]; [now elim Hr2 | reflexivity | reflexivity]. }
  rewrite Hn. cbn [not_flag].
  pose proof (recency_bonus m1). pose proof (recency_bonus m2). lra.
Qed.

End WebhookEdges.

Section WebhookFollowups.
Import Webhook Observe.
Context {rt : Runtime} (cfg : config) (e : env).
Local Open Scope handler_scope.

(** X8: of two messages with the same flags and urgency the newer one scores at
    least as much. *)
Theorem newer_scores_more (m1 m2 : message_row) :
  is_question m1 = is_question m2 ->
  followup m1 = followup m2 ->
  urgency_score m1 = urgency_score m2 ->
  replied m1 = replied m2 ->
  (created_at m1 <= created_at m2)%Z ->
  (score_of e m1 <= score_of e m2)%R.
Proof.
  intros Hq Hf Hu Hr Hc. unfold score_of. rewrite Hq, Hf, Hu, Hr.
  assert (Hage : (ageDays e m2 <= ageDays e m1)%R).
  { unfold ageDays. apply Rle_max_compat_l.
    apply Rmult_le_compat_r; [lra|]. apply IZR_le. lia. }
  assert (Hexp : (exp (- ageDays e m1) <= exp (- ageDays e m2))%R).
  { destruct Hage as [Hlt|Heq]; [left; apply exp_increasing; lra | rewrite Heq; lra]. }
  lra.
Qed.



Lemma alter_missing {A : Type} (f : A -> A) (i : string) (t : gmap string A) :
  t !! i = None -> alter f i t = t.
Proof.
  intros Hnone. apply map_eq. intros j. destruct (decide (i = j)) as [<-|Hne].
  - now rewrite lookup_alter_eq, Hnone.
  - now rewrite lookup_alter_ne.
Qed.

Lemma map_unless {A : Type} (p : A -> bool) (f : A -> A) (l : list A) :
  (forall x, In x l -> p x = false) -> List.map (fun x => if p x then f x else x) l = l.
Proof.
  intros Hp. rewrite <- (List.map_id l) at 2. apply List.map_ext_in.
  intros x Hx. now rewrite (Hp x Hx).
Qed.

Lemma handleDone_calls (id : option string) (chatId : option Z)
    (callbackQueryId : option string) (s : state) :
  calls (snd (handleDone e id chatId callbackQueryId s)) =
    calls s ++ [reply_call chatId callbackQueryId MarkedDone].
Proof.
  unfold handleDone, bind, update_store, modify, sendText, emit, reply_call. cbn.
  destruct callbackQueryId as [q|]; [destruct (truthy_string q)|]; reflexivity.
Qed.

(** X10: resolving an id that names no stored message and no follow-up changes
    nothing in the store and still answers that the item was marked done. *)
Theorem handleDone_unknown_id (id : string) (chatId : option Z)
    (callbackQueryId : option string) (s : state) :
  followups (store s) !! id = None ->
  (forall m, In m (messages (store s)) -> m_id m <> id) ->
  handleDone e (Some id) chatId callbackQueryId s =
    (Ok tt, {| store := store s;
               calls := calls s ++ [reply_call chatId callbackQueryId MarkedDone] |}).
Proof.
  intros Hrow Hmsg.
  assert (Hstore : mark_replied (Some id) (resolve_followup (Some id) (Date_now e) (store s))
                   = store s).
  { destruct (store s) as [us ms es fs ss]. cbn in *.
    unfold set_messages, set_followups. cbn.
    rewrite (alter_missing _ id fs Hrow), map_unless; [reflexivity|].
    intros m Hm. apply String.eqb_neq. now apply Hmsg. }
  pose proof (handleDone_store e (Some id) chatId callbackQueryId s) as [Hok Hs].
  pose proof (handleDone_calls (Some id) chatId callbackQueryId s) as Hcalls.
  destruct (handleDone e (Some id) chatId callbackQueryId s) as [res [st cl]].
  cbn [fst snd store calls] in *. now rewrite Hok, Hs, Hstore, Hcalls.
Qed.

(** X11: a delay that is not a finite number ([NaN] from a text that is not a
    number, an infinity) makes the snooze throw before it writes or answers
    anything. *)
Theorem handleSnooze_not_finite (id : option string) (hours : number) (chatId : option Z)
    (callbackQueryId : option string) (s : state) :
  isFinite hours = false ->
  handleSnooze e id hours chatId callbackQueryId s =
    (Throw (RangeError "Invalid time value"), s).
Proof.
  intros Hfin. destruct hours as [q| | |]; [discriminate | | |]; reflexivity.
Qed.

(** ** Users *)

Lemma find_replaced {A : Type} (p : A -> bool) (u u' : A) (l : list A) :
  List.find p l = Some u -> p u' = true ->
  List.find p (List.map (fun r => if p r then u' else r) l) = Some u'.
Proof.
  intros Hfind Hu'. induction l as [|x l IH]; [discriminate|].
  cbn in *. destruct (p x) eqn:Hx; [now rewrite Hu' | rewrite Hx; now apply IH].
Qed.

Lemma find_added {A : Type} (p : A -> bool) (u' : A) (l : list A) :
  List.find p l = None -> p u' = true -> List.find p (l ++ [u']) = Some u'.
Proof.
  intros Hfind Hu'. induction l as [|x l IH]; cbn in *; [now rewrite Hu'|].
  destruct (p x); [discriminate | now apply IH].
Qed.

Lemma upsertUser_upsert_user (u : Telegram.User) (s : state) :
  upsertUser (Some u) s =
    (Ok (data_of (fst (upsert_user (Telegram.user_id u) (display_of u) (store s)))),
     {| store := snd (upsert_user (Telegram.user_id u) (display_of u) (store s));
        calls := calls s |}).
Proof.
  unfold upsertUser, bind, on_store, display_of, upsert_user.
  destruct (List.find _ (users (store s))); reflexivity.
Qed.

Lemma upsert_user_found (k : Z) (display : string) (d : db) :
  exists row,
    data_of (fst (upsert_user (Some k) display d)) = Some row
    /\ telegram_user_id row = Some k
    /\ display_name row = display
    /\ List.find (same_user (Some k)) (users (snd (upsert_user (Some k) display d)))
       = Some row
    /\ (forall u, List.find (same_user (Some k)) (users d) = Some u ->
        u_id row = u_id u
        /\ List.length (users (snd (upsert_user (Some k) display d)))
           = List.length (users d)).
Proof.
  unfold upsert_user.
  destruct (List.find (same_user (Some k)) (users d)) as [u|] eqn:Hfind; cbn.
  - eexists. split; [reflexivity|]. split; [reflexivity|]. split; [reflexivity|]. split.
    + apply (find_replaced _ u); [exact Hfind | apply Z.eqb_refl].
    + intros u0 Hu0. inversion Hu0; subst. split; [reflexivity | apply List.length_map].
  - eexists. split; [reflexivity|]. split; [reflexivity|]. split; [reflexivity|]. split.
    + apply find_added; [exact Hfind | apply Z.eqb_refl].
    + discriminate.
Qed.

(** X12: a sender who is seen again keeps the row and the id of the first time,
    whatever name they now carry; the row takes the new name. *)
Theorem upsertUser_same_row (u1 u2 : Telegram.User) (k : Z) (s : state) :
  Telegram.user_id u1 = Some k ->
  Telegram.user_id u2 = Some k ->
  let r1 := upsertUser (Some u1) s in
  let r2 := upsertUser (Some u2) (snd r1) in
  exists row1 row2,
    fst r1 = Ok (Some row1)
    /\ fst r2 = Ok (Some row2)
    /\ u_id row2 = u_id row1
    /\ display_name row2 = display_of u2
    /\ List.length (users (store (snd r2))) = List.length (users (store (snd r1))).
Proof.
  intros Hk1 Hk2. cbv zeta.
  rewrite (upsertUser_upsert_user u1 s). cbn [fst snd].
  rewrite upsertUser_upsert_user. cbn [fst snd store].
  rewrite Hk1, Hk2.
  destruct (upsert_user_found k (display_of u1) (store s))
    as (row1 & Hdata1 & _ & _ & Hfind1 & _).
  destruct (upsert_user_found k (display_of u2)
              (snd (upsert_user (Some k) (display_of u1) (store s))))
    as (row2 & Hdata2 & _ & Hname2 & _ & Hsame).
  destruct (Hsame row1 Hfind1) as [Hid Hlen].
  exists row1, row2. rewrite Hdata1, Hdata2. repeat split; assumption.
Qed.

End WebhookFollowups.

Section WebhookParsing.
Import Webhook Observe.
Context {rt : Runtime} (cfg : config) (e : env).
Local Open Scope handler_scope.

(** X13: pressing a button under a review acts on the message the review put on
    top: the data of the button is read back into the action, the id and,
    for the snooze, the 24 hours. *)
Theorem review_buttons_round_trip (id : string) (cq : Telegram.CallbackQuery)
    (update : Telegram.Update) (s : state) :
  lacks ":" id = true ->
  StringToNumber "24" = of_Z 24 ->
  Telegram.callback_query update = Some cq ->
  let header := Some (TELEGRAM_WEBHOOK_SECRET cfg) in
  let chatId := Telegram.cq_chat_id cq in
  let q := Some (Telegram.cq_id cq) in
  (Telegram.data cq = Some (fst (callback_data (TopButtons id))) ->
   serve cfg e header update s =
     (let* _ := handleDone e (Some id) chatId q in ret (ok BodyOk 200)) s)
  /\ (Telegram.data cq = Some (snd (callback_data (TopButtons id))) ->
      serve cfg e header update s =
        (let* _ := handleSnooze e (Some id) (of_Z 24) chatId q in ret (ok BodyOk 200)) s).
Proof.
  intros Hid H24 Hcq. cbv zeta. unfold serve, callback_data.
  rewrite String.eqb_refl, Hcq. cbn [negb fst snd].
  split; intros ->.
  - change ("done:" +:+ id) with ("done" +:+ String ":" id).
    rewrite split_char_app, (split_char_lacks ":" id Hid). reflexivity.
  - change ("snooze:" +:+ id +:+ ":24") with ("snooze" +:+ String ":" (id +:+ String ":" "24")).
    rewrite !split_char_app, (split_char_lacks ":" id Hid). cbn.
    unfold number_or. cbn. now rewrite H24.
Qed.



Lemma TimeClip_seconds (a : Z) :
  (Z.abs (a * 1000) <= maxTime)%Z ->
  new_Date (mul (of_Z a) (of_Z 1000)) = Some (a * 1000)%Z.
Proof.
  intros Ha. unfold new_Date, mul, of_Z, TimeClip.
  rewrite (Qtrunc_comp _ (inject_Z (a * 1000))) by (now rewrite inject_Z_mult).
  rewrite Qtrunc_Z. apply Z.leb_le in Ha. now rewrite Ha.
Qed.

(** X15: a message is stamped with its Telegram date, which counts seconds; one
    that carries no date is stamped with the clock cut to the whole second:
    at most the clock and less than a second before it. *)
Theorem createdAt_of_seconds (msg : Telegram.Message) :
  (0 <= Date_now e <= maxTime)%Z ->
  match Telegram.date msg with
  | Some d => (Z.abs (d * 1000) <= maxTime)%Z -> createdAt_of e msg = Some (d * 1000)%Z
  | None =>
      exists t, createdAt_of e msg = Some t
                /\ (t <= Date_now e < t + 1000)%Z /\ (t mod 1000 = 0)%Z
  end.
Proof.
  intros Hnow. unfold createdAt_of. destruct (Telegram.date msg) as [d|].
  - apply TimeClip_seconds.
  - exists (Date_now e / 1000 * 1000)%Z. unfold maxTime in *.
    pose proof (Z.div_mod (Date_now e) 1000 ltac:(lia)) as Hdiv.
    pose proof (Z.mod_pos_bound (Date_now e) 1000 ltac:(lia)) as Hmod.
    split; [|split].
    + apply TimeClip_seconds. unfold maxTime. lia.
    + lia.
    + apply Z.mod_mul. lia.
Qed.

End WebhookParsing.

Section Words.
Import Webhook Observe.

Lemma trimStart_head (s : string) : trimStart s = EmptyString \/ head_not_ws (trimStart s).
Proof.
  induction s as [|c s IH]; [now left|]. cbn.
  destruct (is_ws c) eqn:Hc; [exact IH | now right].
Qed.

Lemma trimStart_snoc (c : ascii) (a : string) :
  is_ws c = false ->
  exists x, trimStart (a +:+ String c EmptyString) = x +:+ String c EmptyString.
Proof.
  intros Hc. induction a as [|d a IH].
  - exists EmptyString. rewrite !append_nil_l. cbn. now rewrite Hc.
  - rewrite append_cons. cbn. destruct (is_ws d); [exact IH|].
    exists (String d a). now rewrite append_cons.
Qed.

(** What is left of a text by [trim] is empty, or begins and ends with a
    character that is not white space. *)
Lemma trim_ends (s : string) :
  trim s = EmptyString \/ (head_not_ws (trim s) /\ head_not_ws (rev_string (trim s))).
Proof.
  unfold trim, trimEnd.
  destruct (trimStart_head s) as [Hs|Hs]; [left; now rewrite Hs|].
  destruct (trimStart s) as [|c t]; [now elim Hs|]. cbn in Hs. right.
  rewrite rev_string_involutive.
  rewrite rev_string_cons.
  destruct (trimStart_snoc c (rev_string t) Hs) as (x & Hx). rewrite Hx. split.
  - rewrite rev_string_snoc. exact Hs.
  - destruct x; [rewrite append_nil_l | rewrite append_cons].
    + exact Hs.
    + pose proof (trimStart_head (rev_string t +:+ String c EmptyString)) as [H|H];
        rewrite Hx, append_cons in H; [discriminate | exact H].
Qed.

Lemma last_not_ws_cons (c : ascii) (s : string) :
  head_not_ws (rev_string (String c s)) ->
  (s = EmptyString /\ is_ws c = false) \/ head_not_ws (rev_string s).
Proof.
  rewrite rev_string_cons. destruct s as [|d s]; [intros H; left; now split|].
  intros H. right. destruct (rev_string (String d s)) as [|x r] eqn:Hr.
  - apply (f_equal rev_string) in Hr. rewrite rev_string_involutive in Hr. discriminate.
  - rewrite append_cons in H. exact H.
Qed.

Lemma word_rev_string (p : string) : word p -> word (rev_string p).
Proof.
  intros [Hne Hfree]. split.
  - intros Hrev. apply (f_equal rev_string) in Hrev.
    rewrite rev_string_involutive in Hrev. now apply Hne.
  - unfold rev_string. rewrite list_ascii_of_string_of_list_ascii.
    apply List.Forall_forall. intros c Hc. apply List.in_rev in Hc.
    rewrite List.Forall_forall in Hfree. now apply Hfree.
Qed.

(** The pieces of a text that begins and ends with a character that is not
    white space are words. *)
Lemma split_ws_from_words (s cur : string) (in_sep : bool) :
  List.Forall (fun c => is_ws c = false) (list_ascii_of_string cur) ->
  (in_sep = false -> cur <> EmptyString \/ head_not_ws s) ->
  (s = EmptyString /\ cur <> EmptyString) \/ head_not_ws (rev_string s) ->
  List.Forall word (split_ws_from cur in_sep s).
Proof.
  revert cur in_sep. induction s as [|c s IH]; intros cur in_sep Hfree Hnext Hlast; cbn.
  - destruct Hlast as [[_ Hcur]|[]].
    constructor; [|constructor]. apply word_rev_string. now split.
  - assert (Hlast' : forall cur', cur' <> EmptyString ->
                                  (s = EmptyString /\ cur' <> EmptyString)
                                  \/ head_not_ws (rev_string s)).
    { intros cur' Hcur'. destruct Hlast as [[H _]|H]; [discriminate|].
      destruct (last_not_ws_cons c s H) as [[-> _]|H']; [left; now split | now right]. }
    destruct (is_ws c) eqn:Hc.
    + assert (Hrest : head_not_ws (rev_string s)).
      { destruct Hlast as [[H _]|H]; [discriminate|].
        destruct (last_not_ws_cons c s H) as [[_ Hc']|H']; [congruence | exact H']. }
      destruct in_sep.
      * apply IH; [exact Hfree | discriminate | now right].
      * destruct (Hnext eq_refl) as [Hcur|Hhead]; [|cbn in Hhead; congruence].
        constructor; [apply word_rev_string; now split|].
        apply IH; [constructor | discriminate | now right].
    + apply IH.
      * constructor; assumption.
      * intros _. left. discriminate.
      * apply Hlast'. discriminate.
Qed.

Lemma split_ws_trim_words (text : string) :
  trim text <> EmptyString -> List.Forall word (split_ws (trim text)).
Proof.
  intros Hne. destruct (trim_ends text) as [H|[Hhead Hlast]]; [now elim Hne|].
  apply split_ws_from_words; [constructor | intros _; now right | now right].
Qed.

(** Reading a word. *)
Lemma split_ws_from_word (p rest cur : string) (in_sep : bool) :
  word p ->
  split_ws_from cur in_sep (p +:+ rest) = split_ws_from (rev_string p +:+ cur) false rest.
Proof.
  intros [Hne Hfree]. revert cur in_sep.
  induction p as [|c p IH]; intros cur in_sep; [now elim Hne|].
  inversion Hfree as [|? ? Hc Hp]; subst.
  rewrite append_cons. cbn [split_ws_from]. rewrite Hc.
  destruct p as [|d p].
  - now rewrite append_nil_l.
  - rewrite (IH ltac:(discriminate) Hp (String c cur) false).
    now rewrite (rev_string_cons c (String d p)), append_assoc.
Qed.

(** The words joined by single spaces are read back as they were. *)
Lemma split_ws_from_join (p : string) (ps : list string) (in_sep : bool) :
  List.Forall word (p :: ps) ->
  split_ws_from EmptyString in_sep (join " " (p :: ps)) = p :: ps.
Proof.
  revert p in_sep. induction ps as [|q ps IH]; intros p in_sep Hwords;
    inversion Hwords as [|? ? Hp Hps]; subst.
  - unfold join. cbn [String.concat].
    rewrite <- (append_nil_r p) at 1. rewrite (split_ws_from_word p _ _ _ Hp).
    cbn. now rewrite append_nil_r, rev_string_involutive.
  - unfold join in *. cbn [String.concat].
    rewrite (split_ws_from_word p _ _ _ Hp). rewrite append_cons, append_nil_l.
    cbn [split_ws_from]. cbn [is_ws nat_of_ascii]. cbn.
    rewrite append_nil_r, rev_string_involutive. f_equal.
    apply (IH q true Hps).
Qed.

Lemma parseCommand_args (text : string) :
  snd (parseCommand text) = join " " (List.tl (split_ws (trim text))).
Proof. unfold parseCommand. now destruct (split_ws (trim text)). Qed.

End Words.

Section SnoozeCommand.
Import Webhook Observe.
Context {rt : Runtime} (e : env).

(** X16: however much white space stands between the words of a message, a
    [/snooze] followed by at least one more word snoozes the message named
    by the second word of the text for the hours of the third word, or for 24
    hours when there is no third word. *)
Theorem snooze_command_words (chatId : Z) (text : string) (s : state) :
  let words := split_ws (trim text) in
  (2 <= List.length words)%nat ->
  List.Forall word words
  /\ command e chatId "snooze" (snd (parseCommand text)) s
     = handleSnooze e (List.nth_error words 1) (number_or (List.nth_error words 2) 24)
         (Some chatId) None s.
Proof.
  cbv zeta. intros Hlen.
  assert (Hwords : List.Forall word (split_ws (trim text))).
  { apply split_ws_trim_words. intros Hempty. rewrite Hempty in Hlen. cbn in Hlen. lia. }
  split; [exact Hwords|].
  rewrite parseCommand_args.
  destruct (split_ws (trim text)) as [|w0 [|w1 ws]]; cbn in Hlen; try lia.
  cbn [List.tl]. unfold command. cbn [String.eqb Ascii.eqb Bool.eqb].
  unfold split_ws. rewrite split_ws_from_join by (now inversion Hwords).
  reflexivity.
Qed.

End SnoozeCommand.

Section DtgCommand.
Import Webhook Observe.
Context {rt : Runtime} (e : env).








End DtgCommand.

Section SummaryRequest.
Import Webhook Observe.
Context {rt : Runtime} (e : env).
Local Open Scope handler_scope.

Lemma days_of_clamped (x : number) :
  x <> NaN ->
  Summarize.days_of (JObj [("days", JNum (Math_max (of_Z 1) (Math_min (of_Z 30) x)))])
  = Math_max (of_Z 1) (Math_min (of_Z 30) x).
Proof.
  intros Hx.
  change (Summarize.days_of
            (JObj [("days", JNum (Math_max (of_Z 1) (Math_min (of_Z 30) x)))]))
    with (Math_max (of_Z 1)
            (Math_min (of_Z 30) (Math_max (of_Z 1) (Math_min (of_Z 30) x)))).
  destruct (clamp_cases x Hx) as [H|[H|(q & H & H1 & H30)]]; rewrite H; try reflexivity.
  unfold of_Z, Math_min, ltb. rewrite (Qle_bool_gt _ _ H30). cbn [negb].
  unfold Math_max, ltb. now rewrite (Qle_bool_gt _ _ H1).
Qed.

(** X17: the day count that [/summary] asks the summarizer for is the day count
    that the summarizer works with: its own clamp leaves it as it is. *)
Theorem summary_days_round_trip (chatId : option Z) (args : string) (dflt : Z) (s : state) :
  let n := clamp_days args dflt in
  exists payload rest,
    calls (snd (handleSummary e chatId n s))
    = calls s ++ internal "ai-summarize-range" payload :: rest
    /\ Summarize.days_of payload = n.
Proof.
  cbv zeta. exists (JObj [("days", JNum (clamp_days args dflt))]).
  unfold handleSummary, callInternal, bind, emit, modify, sendText. cbn [calls store].
  destruct (internal_reply e _ _) as [j|]; cbn [calls store throw ret snd].
  - unfold emit, modify. cbn [calls snd]. eexists.
    split; [now rewrite <- List.app_assoc|].
    apply days_of_clamped, or_default_number.
  - exists []. split; [reflexivity|]. apply days_of_clamped, or_default_number.
Qed.

End SummaryRequest.


(** ** The classifier *)

Section ClassifyEdges.
Import Upstream Classify Observe.
Context {rt : Runtime} (cfg : config) (e : env).
Local Open Scope handler_scope.

(** ** Requests that are turned down *)

Lemma tail_status {A : Type} (c : M state A) (k : A -> M state Response) (s s' : state)
    (r : Response) :
  (forall a s1 s2 r', k a s1 = (Ok r', s2) -> status_of r' = 200%Z) ->
  (let* a := c in k a) s = (Ok r, s') -> status_of r = 200%Z.
Proof.
  intros Hk. unfold bind. destruct (c s) as [[a|err] s1]; [apply Hk | discriminate].
Qed.

(** X18: a request that is answered with another status than 200 (403 for a wrong
    secret, 400 for no message id, 404 for an id that is not stored) cost no
    call to a model and wrote nothing. *)
Theorem serve_turned_down (header : option string) (body : option json) (s s' : state)
    (r : Response) :
  serve cfg e header body s = (Ok r, s') ->
  status_of r <> 200%Z ->
  s' = s /\ In (status_of r) [403; 400; 404]%Z.
Proof.
  unfold serve.
  destruct (negb _); [intros H; inversion H; subst; cbn; auto|].
  destruct (negb _); [intros H; inversion H; subst; cbn; auto|].
  unfold bind at 1, gets.
  destruct (load_message _ (store s)) as [m|]; [|intros H; inversion H; subst; cbn; auto].
  intros Hrun Hstatus. exfalso. apply Hstatus. revert Hrun.
  repeat (apply tail_status; intros ? ? ? ?).
  unfold ret. intros H. now inversion H.
Qed.

(** ** What a run leaves alone *)

Lemma classifies_only_refl (id : string) (d : db) : classifies_only id d d.
Proof.
  split; [reflexivity|]. split; [reflexivity|].
  induction (messages d); constructor; auto.
Qed.

Lemma classifies_only_trans (id : string) (d1 d2 d3 : db) :
  classifies_only id d1 d2 -> classifies_only id d2 d3 -> classifies_only id d1 d3.
Proof.
  intros (Hu1 & Hs1 & Hm1) (Hu2 & Hs2 & Hm2).
  split; [congruence|]. split; [congruence|].
  revert Hm2. generalize (messages d3). induction Hm1 as [|m m' l l' [Hi Hm] _ IH];
    intros l3 Hm2; inversion Hm2 as [|m2 m3 l2 l3' [Hi' Hm'] Hrest]; subst; constructor.
  - split; [congruence|]. intros Hne. specialize (Hm Hne). subst m'. now apply Hm'.
  - now apply IH.
Qed.

Lemma classifies_only_update (id : string) (c : classification) (d : db) :
  classifies_only id d (update_message id c d).
Proof.
  split; [reflexivity|]. split; [reflexivity|]. cbn.
  induction (messages d) as [|m l IH]; cbn; constructor; [|exact IH].
  destruct (String.eqb_spec (m_id m) id) as [Heq|Hne]; split; try reflexivity; tauto.
Qed.

Lemma frame_emit (id : string) (c : call) :
  keeps (fun s s' => classifies_only id (store s) (store s')) (emit c).
Proof. apply keeps_modify. intros s. apply classifies_only_refl. Qed.

Lemma frame_update_store (id : string) (f : db -> db) :
  (forall d, classifies_only id d (f d)) ->
  keeps (fun s s' => classifies_only id (store s) (store s')) (update_store f).
Proof. intros Hf. apply keeps_modify. intros s. apply Hf. Qed.

Lemma classifies_only_same (id : string) (d d' : db) :
  users d' = users d -> summaries d' = summaries d -> messages d' = messages d ->
  classifies_only id d d'.
Proof.
  intros Hu Hs Hm. split; [exact Hu|]. split; [exact Hs|]. rewrite Hm.
  apply (classifies_only_refl id d).
Qed.

Ltac frame_steps id :=
  repeat first
    [ apply (keeps_ret _ (fun s => classifies_only_refl id (store s)))
    | apply (keeps_throw _ (fun s => classifies_only_refl id (store s)))
    | apply (keeps_lift _ (fun s => classifies_only_refl id (store s)))
    | apply (keeps_gets _ (fun s => classifies_only_refl id (store s)))
    | apply frame_emit
    | apply frame_update_store; intros ?;
      first [ apply classifies_only_update
            | apply classifies_only_same; reflexivity ]
    | apply (keeps_bind _ (fun s1 s2 s3 => classifies_only_trans id _ _ _)); [|intros ?]
    | match goal with
      | |- keeps _ (match ?x with _ => _ end) => destruct x
      end ].

(** X19: a run of the classifier adds and removes no message, changes no row but
    that of the message it was asked about, and in that row only the columns
    of the classification: the text, the dates, the sender and [replied] are
    as ingestion wrote them.  Users and summaries are not touched. *)
Theorem serve_classifies_only (header : option string) (body : option json) (s : state) :
  classifies_only (requested_id body) (store s) (store (snd (serve cfg e header body s))).
Proof.
  revert s.
  change (keeps (fun s s' => classifies_only (requested_id body) (store s) (store s'))
            (serve cfg e header body)).
  unfold serve, requested_id, openaiJSON, openaiEmbed.
  frame_steps (match opt_get (Some (match body with Some b => b | None => JObj [] end))
                       "messageId" with
               | Some v => ToString v
               | None => EmptyString
               end).
Qed.

End ClassifyEdges.

Section ClassifyTwice.
Import Upstream Classify Observe.
Context {rt : Runtime} (cfg : config) (e : env).
Local Open Scope handler_scope.

Lemma openaiJSON_answer (txt : string) (s : state) :
  exists cs, openaiJSON e txt s = (answer_of e txt, {| store := store s; calls := cs |}).
Proof.
  unfold answer_of, openaiJSON, bind, emit, modify. cbn.
  destruct (chat_completions e txt) as [|[|] st [j|]]; cbn; eauto.
  destruct (JSON_parse_value (content_of j)); cbn; eauto.
Qed.

Lemma openaiEmbed_vector (txt : string) (s : state) :
  exists cs, openaiEmbed cfg e txt s = (vector_of cfg e txt, {| store := store s; calls := cs |}).
Proof.
  unfold vector_of, openaiEmbed, bind, emit, modify. cbn.
  destruct (embeddings_endpoint e txt) as [|[|] st [j|]]; cbn; eauto.
Qed.

(** The part of the handler that follows the loading of the message. *)
Lemma serve_written (header : option string) (body : option json) (s : state)
    (m : message_row) :
  header = Some (INTERNAL_FUNCTION_SECRET cfg) ->
  truthy (opt_get (Some (match body with Some b => b | None => JObj [] end)) "messageId")
  = true ->
  load_message (requested_id body) (store s) = Some m ->
  store (snd (serve cfg e header body s))
  = written cfg e (requested_id body) (text m) (store s).
Proof.
  intros -> Hid Hload. unfold serve, requested_id in *.
  rewrite String.eqb_refl, Hid. cbn [negb].
  unfold bind at 1, gets. rewrite Hload. unfold written.
  destruct (openaiJSON_answer (text m) s) as (cs1 & Hjson).
  unfold bind at 1. rewrite Hjson.
  destruct (answer_of e (text m)) as [cls|err]; [|reflexivity].
  unfold bind at 1, lift.
  destruct (classification_of cls) as [upd|err]; [|reflexivity].
  unfold bind at 1. unfold update_store at 1, modify at 1. cbn [store calls].
  unfold bind at 1.
  match goal with
  | |- context [openaiEmbed cfg e (text m) ?s1] =>
      destruct (openaiEmbed_vector (text m) s1) as (cs2 & Hvec)
  end.
  rewrite Hvec. cbn [store].
  destruct (vector_of cfg e (text m)) as [vec|err]; [|reflexivity].
  cbv zeta. unfold bind, emit, update_store, modify, ret.
  destruct (valid_embedding cfg (numbers_of vec));
    destruct (followup upd || is_question upd); reflexivity.
Qed.

Lemma serve_unanswered (header : option string) (body : option json) (s : state) :
  header <> Some (INTERNAL_FUNCTION_SECRET cfg)
  \/ truthy (opt_get (Some (match body with Some b => b | None => JObj [] end)) "messageId")
     = false
  \/ load_message (requested_id body) (store s) = None ->
  snd (serve cfg e header body s) = s.
Proof.
  intros H. unfold serve, requested_id in *.
  destruct (negb match header with
                 | Some h => String.eqb h (INTERNAL_FUNCTION_SECRET cfg)
                 | None => false
                 end) eqn:Hguard; [reflexivity|].
  destruct H as [H|H].
  { destruct header as [h|]; [|discriminate]. apply negb_false_iff in Hguard.
    apply String.eqb_eq in Hguard. now subst. }
  destruct (truthy _) eqn:Hid; [|reflexivity]. cbn [negb].
  destruct H as [H|H]; [discriminate|].
  unfold bind, gets. now rewrite H.
Qed.

Lemma set_classification_twice (c : classification) (m : message_row) :
  set_classification c (set_classification c m) = set_classification c m.
Proof. reflexivity. Qed.

Lemma update_message_messages (id : string) (c : classification) (l : list message_row) :
  List.map (fun m => if String.eqb (m_id m) id then set_classification c m else m)
    (List.map (fun m => if String.eqb (m_id m) id then set_classification c m else m) l)
  = List.map (fun m => if String.eqb (m_id m) id then set_classification c m else m) l.
Proof.
  rewrite List.map_map. apply List.map_ext. intros m.
  destruct (String.eqb (m_id m) id) eqn:Hm; cbn; now rewrite Hm.
Qed.

Lemma upsert_followup_twice (id : string) (fs : gmap string followup_row) :
  followups (upsert_followup (Some id) None
               (upsert_followup (Some id) None
                  {| users := []; messages := []; embeddings := ∅; followups := fs;
                     summaries := [] |}))
  = followups (upsert_followup (Some id) None
                 {| users := []; messages := []; embeddings := ∅; followups := fs;
                    summaries := [] |}).
Proof.
  cbn. destruct (fs !! id) as [f|]; rewrite lookup_insert_eq; cbn; apply insert_insert_eq.
Qed.

Lemma written_twice (id txt : string) (d : db) :
  written cfg e id txt (written cfg e id txt d) = written cfg e id txt d.
Proof.
  unfold written.
  destruct (answer_of e txt) as [cls|]; [|reflexivity].
  destruct (classification_of cls) as [upd|]; [|reflexivity].
  pose proof (upsert_followup_twice id (followups d)) as Hf. cbn in Hf.
  destruct d as [us ms es fs ss]. cbn in Hf.
  destruct (vector_of cfg e txt) as [vec|]; cbv zeta;
    [destruct (valid_embedding cfg (numbers_of vec));
     destruct (followup upd || is_question upd)|];
    unfold update_message, upsert_embedding, upsert_followup, set_messages, set_embeddings,
      set_followups; cbn;
    rewrite ?update_message_messages, ?insert_insert_eq, ?Hf; reflexivity.
Qed.

Lemma load_message_map (id : string) (f : message_row -> message_row) (d d' : db)
    (m : message_row) :
  (forall x, m_id (f x) = m_id x) ->
  messages d' = List.map f (messages d) ->
  load_message id d = Some m -> load_message id d' = Some (f m).
Proof.
  intros Hf Hd'. unfold load_message. rewrite Hd'.
  assert (Hfilter : forall l,
             List.filter (fun x => String.eqb (m_id x) id) (List.map f l)
             = List.map f (List.filter (fun x => String.eqb (m_id x) id) l)).
  { induction l as [|x l IH]; [reflexivity|]. cbn. rewrite Hf, IH.
    now destruct (String.eqb (m_id x) id). }
  rewrite Hfilter.
  destruct (List.filter _ (messages d)) as [|x [|y l]]; intros H; inversion H; reflexivity.
Qed.

Lemma load_message_written (id txt : string) (d : db) (m : message_row) :
  load_message id d = Some m ->
  exists m', load_message id (written cfg e id txt d) = Some m' /\ text m' = text m.
Proof.
  intros Hload.
  assert (Hsame : forall d', messages d' = messages d -> load_message id d' = Some m).
  { intros d' Hd'. unfold load_message in *. now rewrite Hd'. }
  assert (Hupd : forall upd d',
             messages d' = messages (update_message id upd d) ->
             exists m', load_message id d' = Some m' /\ text m' = text m).
  { intros upd d' Hd'.
    exists (if String.eqb (m_id m) id then set_classification upd m else m). split.
    - apply (load_message_map id
               (fun x => if String.eqb (m_id x) id then set_classification upd x else x) d);
        [intros x; now destruct (String.eqb (m_id x) id) | exact Hd' | exact Hload].
    - now destruct (String.eqb (m_id m) id). }
  unfold written.
  destruct (answer_of e txt) as [cls|]; [|eauto].
  destruct (classification_of cls) as [upd|]; [|eauto].
  destruct (vector_of cfg e txt) as [vec|]; cbv zeta;
    [destruct (valid_embedding cfg (numbers_of vec));
     destruct (followup upd || is_question upd)|];
    apply (Hupd upd); reflexivity.
Qed.

(** X20: asked twice about the same message, with the models answering the same,
    the classifier leaves the database as after the first time. *)
Theorem serve_twice (header : option string) (body : option json) (s : state) :
  store (snd (serve cfg e header body (snd (serve cfg e header body s))))
  = store (snd (serve cfg e header body s)).
Proof.
  destruct (decide (header = Some (INTERNAL_FUNCTION_SECRET cfg))) as [Hh|Hh];
    [|now rewrite !(serve_unanswered header body s) by (now left)].
  destruct (truthy (opt_get (Some (match body with Some b => b | None => JObj [] end))
                      "messageId")) eqn:Hid;
    [|now rewrite !(serve_unanswered header body s) by (right; now left)].
  destruct (load_message (requested_id body) (store s)) as [m|] eqn:Hload;
    [|now rewrite !(serve_unanswered header body s) by (right; now right)].
  rewrite (serve_written header body s m Hh Hid Hload).
  destruct (load_message_written (requested_id body) (text m) (store s) m Hload)
    as (m' & Hload' & Htext).
  rewrite <- (serve_written header body s m Hh Hid Hload) in Hload'.
  rewrite (serve_written header body _ m' Hh Hid Hload'), Htext.
  rewrite (serve_written header body s m Hh Hid Hload).
  apply written_twice.
Qed.

End ClassifyTwice.

Section Dimensions.
Import Classify.
Context {rt : Runtime} (cfg : config).

(** X21: the configured dimension is never negative.  When the variable
    holds (or, when it is not set, the text 3072 reads as) a finite number
    above zero, it is the integer part of that number; otherwise it is 3072. *)
Theorem embed_dimensions_default :
  let n := StringToNumber (match OPENAI_EMBED_DIMENSIONS_env cfg with
                           | Some v => v
                           | None => "3072"
                           end) in
  (0 <= OPENAI_EMBED_DIMENSIONS cfg)%Z
  /\ (forall q : Q,
        n = Fin q -> (0 < q)%Q ->
        OPENAI_EMBED_DIMENSIONS cfg = Qfloor q
        /\ (inject_Z (OPENAI_EMBED_DIMENSIONS cfg) <= q)%Q
        /\ (q < inject_Z (OPENAI_EMBED_DIMENSIONS cfg + 1))%Q)
  /\ (forall q : Q, n = Fin q -> (q <= 0)%Q -> OPENAI_EMBED_DIMENSIONS cfg = 3072%Z)
  /\ (isFinite n = false -> OPENAI_EMBED_DIMENSIONS cfg = 3072%Z).
Proof.
  cbv zeta. unfold OPENAI_EMBED_DIMENSIONS.
  destruct (StringToNumber _) as [q| | |] eqn:Hn.
  - unfold ltb, of_Z. destruct (Qle_bool q (inject_Z 0)) eqn:Hq; cbn [negb].
    + apply Qle_bool_iff in Hq. split; [lia|]. split; [|split].
      * intros q' Hq' Hpos. injection Hq' as <-. now apply Qlt_not_le in Hpos.
      * reflexivity.
      * discriminate.
    + apply Qle_bool_false in Hq. split; [|split; [|split]].
      * rewrite <- (Qfloor_Z 0). apply Qfloor_resp_le. now apply Qlt_le_weak.
      * intros q' Hq' _. injection Hq' as <-.
        split; [reflexivity|]. split; [apply Qfloor_le | apply Qlt_floor].
      * intros q' Hq' Hneg. injection Hq' as <-. now apply Qlt_not_le in Hq.
      * discriminate.
  - split; [lia|]. split; [discriminate|]. split; [discriminate | reflexivity].
  - split; [lia|]. split; [discriminate|]. split; [discriminate | reflexivity].
  - split; [lia|]. split; [discriminate|]. split; [discriminate | reflexivity].
Qed.

End Dimensions.

(** ** The summarizer *)

Section Truncation.
Import Summarize Observe.

Lemma spaced_append (a b : string) : spaced a -> spaced b -> spaced (a +:+ b).
Proof.
  unfold spaced. rewrite list_ascii_of_string_app. intros Ha Hb.
  apply List.Forall_app. now split.
Qed.

Lemma spaced_cons (c : ascii) (s : string) :
  (is_ws c = true -> c = " "%char) -> spaced s -> spaced (String c s).
Proof. intros Hc Hs. constructor; assumption. Qed.

Lemma spaced_rev_string (s : string) : spaced s -> spaced (rev_string s).
Proof.
  unfold spaced, rev_string. rewrite list_ascii_of_string_of_list_ascii.
  intros Hs. apply List.Forall_forall. intros c Hc. apply List.in_rev in Hc.
  rewrite List.Forall_forall in Hs. now apply Hs.
Qed.

Lemma spaced_trimStart (s : string) : spaced s -> spaced (trimStart s).
Proof.
  induction s as [|c s IH]; intros Hs; [exact Hs|]. cbn.
  destruct (is_ws c); [|exact Hs]. apply IH. now inversion Hs.
Qed.

Lemma spaced_trim (s : string) : spaced s -> spaced (trim s).
Proof.
  intros Hs. unfold trim, trimEnd.
  now apply spaced_rev_string, spaced_trimStart, spaced_rev_string, spaced_trimStart.
Qed.

Lemma spaced_slice0 (n : nat) (s : string) : spaced s -> spaced (slice0 n s).
Proof.
  revert n. induction s as [|c s IH]; intros [|n] Hs; cbn; try constructor.
  - inversion Hs; assumption.
  - apply IH. now inversion Hs.
Qed.

Lemma split_ws_from_pieces (s cur : string) (in_sep : bool) :
  spaced cur -> (forall c, In c (list_ascii_of_string cur) -> is_ws c = false) ->
  List.Forall spaced (split_ws_from cur in_sep s).
Proof.
  revert cur in_sep. induction s as [|c s IH]; intros cur in_sep Hcur Hfree; cbn.
  - constructor; [now apply spaced_rev_string | constructor].
  - destruct (is_ws c) eqn:Hc.
    + destruct in_sep; [now apply IH|].
      constructor; [now apply spaced_rev_string|].
      apply IH; [constructor | intros ? []].
    + apply IH.
      * apply spaced_cons; [congruence | exact Hcur].
      * intros x [<-|Hx]; [exact Hc | now apply Hfree].
Qed.

Lemma spaced_join (pieces : list string) :
  List.Forall spaced pieces -> spaced (join " " pieces).
Proof.
  unfold join. induction 1 as [|p pieces Hp Hrest IH]; [constructor|].
  cbn. destruct pieces as [|p' pieces]; [exact Hp|].
  apply spaced_append; [exact Hp|]. apply spaced_append; [|exact IH].
  constructor; [reflexivity | constructor].
Qed.

Lemma length_slice0 (n : nat) (s : string) : (String.length (slice0 n s) <= n)%nat.
Proof.
  revert n. induction s as [|c s IH]; intros [|n]; cbn; try lia.
  specialize (IH n). lia.
Qed.

(** X23: what [trunc] returns is one line: its only white space is the space
    character, so a line break or a tab of the message never reaches the
    prompt; and it is at most [max] characters long, the three of the mark of
    the cut apart. *)
Theorem trunc_one_line (s : string) (max : nat) :
  spaced (trunc s max) /\ (String.length (trunc s max) <= max + 3)%nat.
Proof.
  unfold trunc.
  set (t := trim (join " " (split_ws s))).
  assert (Ht : spaced t).
  { apply spaced_trim, spaced_join. unfold split_ws.
    apply split_ws_from_pieces; [constructor | intros ? []]. }
  destruct (max <? String.length t)%nat eqn:Hcut.
  - split.
    + apply spaced_append; [now apply spaced_slice0|].
      repeat constructor; discriminate.
    + rewrite length_append. pose proof (length_slice0 max t). cbn. lia.
  - apply Nat.ltb_ge in Hcut. split; [exact Ht | lia].
Qed.

End Truncation.


Section SummarizerAnswer.
Import Upstream Summarize.
Context {rt : Runtime}.

(** X24: the summarizer does not look at the status of the model's answer: two
    answers with the same body give the same summary, and a body without
    [choices], as the body of an error is, gives the text [_(empty)_]. *)
Theorem summarize_ignores_status (e1 e2 : env) (messages : list message_row) (days : number)
    (s : state) (ok1 ok2 : bool) (st1 st2 : Z) (j : json) :
  let lines := List.map (fun m => "- " +:+ trunc (text m) 300) messages in
  chat_completions e1 days lines = Responded ok1 st1 (Some j) ->
  chat_completions e2 days lines = Responded ok2 st2 (Some j) ->
  summarize e1 messages days s = summarize e2 messages days s
  /\ (opt_get (Some j) "choices" = None ->
      fst (summarize e1 messages days s) = Ok (JStr "_(empty)_")).
Proof.
  cbv zeta. intros H1 H2. unfold summarize, bind, emit, modify. cbn [store calls].
  rewrite H1, H2. split; [reflexivity|]. intros Hnone. cbn [ret fst].
  now rewrite Hnone.
Qed.

End SummarizerAnswer.

Section SummarizeEdges.
Import Upstream Summarize Observe.
Context {rt : Runtime} (cfg : config) (e : env).
Local Open Scope handler_scope.

Lemma window_NaN : window e NaN = Throw (RangeError "Invalid time value").
Proof. unfold window. destruct (today e) as [t|]; reflexivity. Qed.

(** X25: a request whose [days] does not convert to a number is not answered: the
    handler throws on the dates of the window, before it looks into the
    cache or calls the summarizer, and nothing is written. *)
Theorem serve_days_not_a_number (fields : list (string * json)) (s : state) :
  days_of (JObj fields) = NaN ->
  serve cfg e (Some (INTERNAL_FUNCTION_SECRET cfg)) (Some (JObj fields)) s
  = (Throw (RangeError "Invalid time value"), s).
Proof.
  intros Hdays. unfold serve. rewrite String.eqb_refl. cbn [negb truthy].
  rewrite Hdays, window_NaN. reflexivity.
Qed.

(** The window depends on the clock through its UTC day only. *)
Lemma window_day (e2 : env) (days : number) :
  Day (Date_now e2) = Day (Date_now e) -> window e2 days = window e days.
Proof.
  intros Hday.
  unfold window, today, DateFromTime, MonthFromTime, DayWithinYear, YearFromTime.
  now rewrite Hday.
Qed.

Lemma filter_none {A : Type} (p : A -> bool) (l : list A) :
  List.existsb p l = false -> List.filter p l = [].
Proof.
  induction l as [|x l IH]; [reflexivity|]. cbn.
  destruct (p x); [discriminate | exact IH].
Qed.

Lemma cached_after_insert (a b : string) (md : json) (d : db) :
  List.existsb (same_range a b) (summaries d) = false ->
  cached_summary a b
    (set_summaries
       (fun rows => rows ++ [{| start_date := a; end_date := b; summary_md := md |}]) d)
  = Some {| start_date := a; end_date := b; summary_md := md |}.
Proof.
  intros Hnew. unfold cached_summary. cbn.
  rewrite List.filter_app, (filter_none _ _ Hnew). cbn.
  unfold same_range. now rewrite !String.eqb_refl.
Qed.

(** A run that finds the row of its window in the cache. *)
Lemma serve_hit_later (later : env) (header : option string) (body : option json)
    (s : state) (a b : string) (row : summary_row) :
  header = Some (INTERNAL_FUNCTION_SECRET cfg) ->
  window later (days_of (match body with
                     | Some b => if truthy (Some b) then b else JObj []
                     | None => JObj []
                     end)) = Ok (a, b) ->
  cached_summary a b (store s) = Some row ->
  serve cfg later header body s = (Ok (ok (BodySummary row) 200), s).
Proof.
  intros -> Hwindow Hcache. unfold serve. rewrite String.eqb_refl, Hwindow. cbn [negb].
  unfold bind at 1, lift. unfold bind at 1, gets. now rewrite Hcache.
Qed.

(** What is known of a run that answers with a row. *)
Lemma serve_row (header : option string) (body : option json) (s s1 : state)
    (row : summary_row) :
  serve cfg e header body s = (Ok (ok (BodySummary row) 200), s1) ->
  header = Some (INTERNAL_FUNCTION_SECRET cfg)
  /\ exists a b,
       window e (days_of (match body with
                          | Some b => if truthy (Some b) then b else JObj []
                          | None => JObj []
                          end)) = Ok (a, b)
       /\ cached_summary a b (store s1) = Some row.
Proof.
  intros Hrun. unfold serve in Hrun.
  destruct (negb _) eqn:Hguard; [discriminate|].
  destruct (window e _) as [[a b]|err]; [|discriminate].
  split.
  { destruct header as [h|]; [|discriminate]. apply negb_false_iff in Hguard.
    apply String.eqb_eq in Hguard. now subst. }
  exists a, b. split; [reflexivity|].
  destruct (toISOString _) as [since|err];
    (unfold bind at 1, lift in Hrun; unfold bind at 1, gets in Hrun;
     destruct (cached_summary a b (store s)) as [row0|] eqn:Hcache;
     [inversion Hrun; now subst|]); [|discriminate].
  unfold bind at 1 in Hrun.
  unfold bind at 1, gets in Hrun.
  unfold bind at 1, summarize, bind at 1, emit, modify in Hrun.
  cbn [store calls] in Hrun.
  destruct (chat_completions e _ _) as [|okay st [j|]]; try discriminate.
  unfold ret at 1, bind at 1, on_store, insert_summary in Hrun.
  cbn [store calls start_date end_date] in Hrun.
  destruct (List.existsb (same_range a b) (summaries (store s))) eqn:Hnew;
    cbn [error_of data_of code unique_violation] in Hrun; [discriminate|].
  inversion Hrun; subst row s1. cbn [store].
  apply (cached_after_insert a b _ (store s) Hnew).
Qed.

(** X26: the row a run returns is the answer of every run for the same days that
    comes on the same UTC day, as long as the summaries are as the run left
    them: it comes out of the cache, the summarizer is not called (it may as
    well be down) and nothing is written. *)
Theorem summary_cached_after (header : option string) (body : option json)
    (s s1 : state) (row : summary_row) :
  serve cfg e header body s = (Ok (ok (BodySummary row) 200), s1) ->
  forall (later : env) (s2 : state),
    Day (Date_now later) = Day (Date_now e) ->
    store s2 = store s1 ->
    serve cfg later header body s2 = (Ok (ok (BodySummary row) 200), s2).
Proof.
  intros Hrun later s2 Hday Hstore.
  destruct (serve_row header body s s1 row Hrun) as (Hheader & a & b & Hwindow & Hcache).
  apply (serve_hit_later later header body s2 a b row Hheader).
  - now rewrite (window_day later _ Hday).
  - now rewrite Hstore.
Qed.

(** X27: a run of the summarizer writes nothing but, at most, one new row at the
    end of the summaries: no summary is replaced or removed, and messages,
    users, follow-ups and embeddings are not touched. *)
Theorem serve_adds_one_summary (header : option string) (body : option json) (s : state) :
  store (snd (serve cfg e header body s)) = store s
  \/ exists r, store (snd (serve cfg e header body s))
               = set_summaries (fun rows => rows ++ [r]) (store s)
               /\ cached_summary (start_date r) (end_date r) (store s) = None.
Proof.
  destruct (serve cfg e header body s) as [res s1] eqn:Hrun. cbn [snd].
  unfold serve in Hrun.
  destruct (negb _); [inversion Hrun; now left|].
  destruct (window e _) as [[a b]|err]; [|inversion Hrun; now left].
  destruct (toISOString _) as [since|err];
    (unfold bind at 1, lift in Hrun; unfold bind at 1, gets in Hrun;
     destruct (cached_summary a b (store s)) as [row0|] eqn:Hcache;
     [inversion Hrun; now left|]); [|inversion Hrun; now left].
  unfold bind at 1 in Hrun.
  unfold bind at 1, gets in Hrun.
  unfold bind at 1, summarize, bind at 1, emit, modify in Hrun.
  cbn [store calls] in Hrun.
  destruct (chat_completions e _ _) as [|okay st [j|]];
    try (inversion Hrun; now left).
  unfold ret at 1, bind at 1, on_store, insert_summary in Hrun.
  cbn [store calls start_date end_date] in Hrun.
  destruct (List.existsb (same_range a b) (summaries (store s))) eqn:Hnew;
    cbn [error_of data_of code unique_violation] in Hrun; inversion Hrun; [now left|].
  right. eexists. split; [reflexivity | exact Hcache].
Qed.

End SummarizeEdges.

Section Limits.
Import Observe.

Lemma sorted_cut {A : Type} (le : A -> A -> Prop) (n : nat) (l : list A) (x y : A) :
  StronglySorted le l ->
  In x (List.firstn n l) -> In y (List.skipn n l) -> le x y.
Proof.
  intros Hs. revert n. induction Hs as [|z l Hs IH Hz]; intros [|n]; cbn; try tauto.
  intros [->|Hx] Hy.
  - rewrite List.Forall_forall in Hz. apply Hz.
    rewrite <- (List.firstn_skipn n l). apply List.in_or_app. now right.
  - now apply (IH n).
Qed.

Lemma In_cut {A : Type} (n : nat) (l : list A) (y : A) :
  In y l -> In y (List.firstn n l) \/ In y (List.skipn n l).
Proof. intros Hy. rewrite <- (List.firstn_skipn n l) in Hy. now apply List.in_app_or. Qed.

Lemma length_cut {A : Type} (n : nat) (all window : list A) :
  Permutation all window ->
  List.length (List.firstn n all) = Nat.min n (List.length window).
Proof. intros Hperm. now rewrite List.length_firstn, (Permutation_length Hperm). Qed.


(** X29: the candidates of a review are the first [n] of the stored messages
    of the window put newest first: as many as the window holds when it holds
    at most [n], and [n] of them otherwise, those left out being no newer
    than any candidate. *)
Theorem recent_messages_newest (since : instant) (n : nat) (d : db) :
  let window := List.filter (fun m => (since <=? created_at m)%Z) (messages d) in
  let given := recent_messages since n d in
  (exists all,
      Permutation all window
      /\ StronglySorted (fun a b => (created_at b <= created_at a)%Z) all
      /\ given = List.firstn n all)
  /\ List.length given = Nat.min n (List.length window)
  /\ (forall m, In m given -> In m (messages d) /\ (since <= created_at m)%Z)
  /\ (forall m x, In m (messages d) -> (since <= created_at m)%Z -> ~ In m given ->
                  In x given -> (created_at m <= created_at x)%Z).
Proof.
  cbv zeta. unfold recent_messages.
  set (window := List.filter (fun m => (since <=? created_at m)%Z) (messages d)).
  set (sorted := stable_sort (fun a b => (created_at a <? created_at b)%Z) window).
  assert (Hperm : Permutation sorted window) by apply stable_sort_Permutation.
  assert (Hsorted : StronglySorted newer_first sorted).
  { apply (stable_sort_sorted _ (fun _ _ => True) newer_first); unfold newer_first.
    - intros a b c; lia.
    - intros a b H. apply Z.ltb_lt in H. lia.
    - intros a b _ H. apply Z.ltb_ge in H. lia.
    - apply StronglySorted_any. }
  assert (Hin : forall m, In m sorted <-> In m (messages d) /\ (since <= created_at m)%Z).
  { intros m. unfold sorted, window. rewrite stable_sort_In, List.filter_In.
    now rewrite Z.leb_le. }
  split; [exists sorted; now repeat split|].
  split; [now apply length_cut|]. split.
  - intros m Hm. apply Hin. now apply (In_firstn n).
  - intros m x Hm Hsince Hout Hx.
    destruct (In_cut n sorted m) as [Hgiven|Hcut]; [now apply Hin | now elim Hout |].
    apply (sorted_cut newer_first n sorted x m Hsorted Hx Hcut).
Qed.

End Limits.

(** ** The properties at concrete runs *)

Section Instances.
Import Examples Observe.

Lemma insertMessage_duplicate_witness :
  Webhook.insertMessage update42 5 "u0" "hello" (Some 1700000000000%Z) delivered_once
  = (Ok None, delivered_once).
Proof.
  eapply (insertMessage_duplicate update42 5 "u0" "hello" 1700000000000%Z
            delivered_once 42%Z).
  - reflexivity.
  - left. reflexivity.
  - reflexivity.
Defined.

(** C1 as the specification states it fails: the second delivery of update 42 does
    not return the id ["m0"] that the first one got. *)
Lemma insertMessage_duplicate_not_existing_id :
  fst (Webhook.insertMessage update42 5 "u0" "hello" (Some 1700000000000%Z) start)
  = Ok (Some "m0")
  /\ fst (Webhook.insertMessage update42 5 "u0" "hello" (Some 1700000000000%Z)
            delivered_once) = Ok None
  /\ fst (Webhook.insertMessage update42 5 "u0" "hello" (Some 1700000000000%Z)
            delivered_once) <> Ok (Some "m0").
Proof.
  split; [|split].
  - vm_compute. reflexivity.
  - vm_compute. reflexivity.
  - vm_compute. discriminate.
Qed.

Lemma review_score_witness :
  Webhook.score_of (at_time 1700000000000) question = 6%R.
Proof.
  apply (review_score (at_time 1700000000000) question).
  - reflexivity.
  - reflexivity.
  - reflexivity.
  - intros u Hu. injection Hu as <-. reflexivity.
  - reflexivity.
Defined.

Lemma review_order_witness :
  let e := at_time 1700000000000 in
  let out := Webhook.rank e (recent_messages 1699740800000%Z 300 (Webhook.store two_messages)) in
  let s1 := snd (Webhook.handleReview e (Some 5%Z) (of_Z 3) two_messages) in
  let s2 := snd (Webhook.handleReview e (Some 5%Z) (of_Z 3) s1) in
  Webhook.calls s1 = Webhook.calls two_messages ++ [review_call (Some 5%Z) (of_Z 3) out]
  /\ Webhook.calls s2 = Webhook.calls s1 ++ [review_call (Some 5%Z) (of_Z 3) out]
  /\ (List.length out <= 10)%nat
  /\ (exists all,
        Permutation all
          (List.map (fun m => {| Webhook.item := m; Webhook.score := Webhook.score_of e m |})
             (recent_messages 1699740800000%Z 300 (Webhook.store two_messages)))
        /\ out = List.firstn 10 all
        /\ forall (i j : nat) (a b : Webhook.scored),
             (i < j)%nat ->
             List.nth_error all i = Some a -> List.nth_error all j = Some b ->
             (Webhook.score b <= Webhook.score a)%R
             /\ (Webhook.score a = Webhook.score b ->
                 (created_at (Webhook.item b) <= created_at (Webhook.item a))%Z)).
Proof.
  exact (review_order (at_time 1700000000000) (Some 5%Z) (of_Z 3) two_messages
           1699740800000%Z eq_refl).
Defined.

Lemma embedding_dimension_witness :
  embeddings after_classify !! "m0" = Some [Fin (1 # 2); Fin (1 # 2)]
  /\ well_shaped 2 after_classify.
Proof.
  split; [vm_compute; reflexivity|].
  apply (embedding_dimension (rt := decimal_runtime) classify_config).
  apply (reachable_run classify_config after_webhook).
  - apply (reachable_run classify_config Store.empty after_webhook
             (reachable_empty classify_config)).
    exact (run_webhook classify_config webhook_config (at_time 1700000000000)
             (Some "telegram-secret") update42 start).
  - exact (run_classify classify_config (answers text_followup_true [half; half])
             (Some "internal-secret") classify_request
             {| Classify.store := after_webhook; Classify.calls := [] |}).
Defined.

Lemma resolve_twice_witness :
  let r1 := Webhook.handleDone (at_time 1000) (Some "m0") (Some 5%Z) None open_followup in
  let r2 := Webhook.handleDone (at_time 2000) (Some "m0") (Some 5%Z) None (snd r1) in
  fst r1 = Ok tt
  /\ followups (Webhook.store (snd r1)) !! "m0" =
       Some {| status := done; due_at := None; resolved_at := Some 1000%Z |}
  /\ fst r2 = Ok tt
  /\ followups (Webhook.store (snd r2)) !! "m0" =
       Some {| status := done; due_at := None; resolved_at := Some 2000%Z |}.
Proof.
  exact (resolve_twice (at_time 1000) (at_time 2000) "m0" (Some 5%Z) (Some 5%Z) None None
           open_followup {| status := open; due_at := None; resolved_at := None |}
           eq_refl).
Defined.

(** C5 as the specification states it fails: after a resolve at 1000 and another at
    2000 the row holds 2000, not the time of the first call. *)
Lemma resolve_twice_overwrites_resolved_at :
  let r1 := Webhook.handleDone (at_time 1000) (Some "m0") (Some 5%Z) None open_followup in
  let r2 := Webhook.handleDone (at_time 2000) (Some "m0") (Some 5%Z) None (snd r1) in
  (followups (Webhook.store (snd r1)) !! "m0") ≫= resolved_at = Some 1000%Z
  /\ (followups (Webhook.store (snd r2)) !! "m0") ≫= resolved_at = Some 2000%Z
  /\ (followups (Webhook.store (snd r2)) !! "m0") ≫= resolved_at <> Some 1000%Z.
Proof.
  cbv zeta. split; [|split].
  - vm_compute. reflexivity.
  - vm_compute. reflexivity.
  - vm_compute. discriminate.
Qed.

Lemma snooze_last_wins_witness :
  fst (Webhook.handleSnooze (at_time 1700000060000) (Some "m0") (Fin (1 # 1)) (Some 5%Z) None
         (snooze_all "m0" [snooze_24h] open_followup)) = Ok tt
  /\ followups (Webhook.store (snooze_all "m0" [snooze_24h; snooze_1h] open_followup)) !! "m0"
     = Some {| status := open; due_at := Some 1700003660000%Z; resolved_at := None |}.
Proof.
  apply (snooze_last_wins "m0" [snooze_24h] snooze_1h 3600000%Z open_followup).
  - reflexivity.
  - vm_compute. discriminate.
Defined.

Lemma summary_window_witness :
  Summarize.window noon_10_march_2024 (of_Z 7) = Ok ("2024-03-04", "2024-03-10")
  /\ Summarize.serve (rt := decimal_runtime) summarize_config noon_10_march_2024
       (Some "internal-secret") (Some (JObj [("days", JNum (of_Z 7))])) cached_weeks
     = (Ok (Summarize.ok (Summarize.BodySummary week_digest) 200), cached_weeks)
  /\ Summarize.calls
       (snd (Summarize.serve (rt := decimal_runtime) summarize_config noon_10_march_2024
               (Some "internal-secret") (Some (JObj [("days", JNum (of_Z 7))]))
               cached_weeks)) = Summarize.calls cached_weeks.
Proof.
  apply (summary_window (rt := decimal_runtime) summarize_config noon_10_march_2024 7%Z
           cached_weeks week_digest [earlier_digest] []).
  - lia.
  - vm_compute. split; discriminate.
  - reflexivity.
  - reflexivity.
  - reflexivity.
  - intros r [<-|[]]. left. vm_compute. discriminate.
Defined.



Lemma followup_when_flagged_witness :
  let r := Classify.serve (rt := decimal_runtime) classify_config
             (answers text_followup_true [half; half]) (Some "internal-secret")
             classify_request resolved in
  followups (Classify.store (snd r)) =
    followups (upsert_followup (Some "m0") None (Classify.store resolved))
  /\ followups (upsert_followup (Some "m0") None (Classify.store resolved)) !! "m1" =
       followups (Classify.store resolved) !! "m1".
Proof.
  pose proof (followup_when_flagged (rt := decimal_runtime) classify_config
                (answers text_followup_true [half; half]) (Some "internal-secret")
                classify_request resolved) as (Hrun & _ & Hother & _).
  split; [exact Hrun|]. apply Hother. discriminate.
Defined.

(** C9 as the specification states it fails: the follow-up of ["m0"] was
    done, with a due date; the classifier flags the message again and the
    row is open with the due date (and the time of resolution) it had, not
    with none.  And a row is made without any flag: a snooze of a message
    that nothing flagged makes its row. *)
Lemma reopened_row_keeps_due_at :
  let r := Classify.serve (rt := decimal_runtime) classify_config
             (answers text_followup_true [half; half]) (Some "internal-secret")
             classify_request resolved in
  let snoozed := Webhook.handleSnooze (at_time 1700000000000) (Some "m9") (Fin (24 # 1))
                   (Some 5%Z) None start in
  followups (Classify.store resolved) !! "m0" =
    Some {| status := done; due_at := Some 5000%Z; resolved_at := Some 9000%Z |}
  /\ followups (Classify.store (snd r)) !! "m0" =
       Some {| status := open; due_at := Some 5000%Z; resolved_at := Some 9000%Z |}
  /\ (followups (Classify.store (snd r)) !! "m0") ≫= due_at <> None
  /\ followups (Webhook.store start) !! "m9" = None
  /\ followups (Webhook.store (snd snoozed)) !! "m9" =
       Some {| status := open; due_at := Some 1700086400000%Z; resolved_at := None |}.
Proof.
  cbv zeta. split; [|split; [|split; [|split]]].
  - vm_compute. reflexivity.
  - vm_compute. reflexivity.
  - vm_compute. discriminate.
  - vm_compute. reflexivity.
  - vm_compute. reflexivity.
Qed.

Lemma serve_classifies_witness :
  let s' := snd (Webhook.serve (rt := decimal_runtime) webhook_config
                   (at_time 1700000000000) (Some "telegram-secret") update42 start) in
  message_keys (Webhook.store s') = [("m0", "hello", Some 42%Z)]
  /\ classify_calls s' = [Webhook.internal "ai-classify" (JObj [("messageId", JStr "m0")])].
Proof.
  exact (serve_classifies (rt := decimal_runtime) webhook_config (at_time 1700000000000)
           update42 (text_message "hello") "hello" 1700000000000%Z start
           eq_refl eq_refl eq_refl eq_refl).
Defined.

(** C10 as the specification states it fails: the first piece of the text ["/"]
    begins with a slash, the row is new, and the classifier is called. *)
Lemma lone_slash_is_classified :
  let s' := snd (Webhook.serve (rt := decimal_runtime) webhook_config
                   (at_time 1700000000000) (Some "telegram-secret") (text_update 44 "/")
                   start) in
  begins_with_slash "/" = true
  /\ message_keys (Webhook.store s') = [("m0", "/", Some 44%Z)]
  /\ classify_calls s' = [Webhook.internal "ai-classify" (JObj [("messageId", JStr "m0")])].
Proof.
  cbv zeta. split; [|split]; vm_compute; reflexivity.
Qed.
End Instances.

(** ** The further properties at concrete runs *)

Section MoreInstances.
Import Examples Observe.

Lemma review_window_start_witness :
  exists since : instant,
    toISOString (new_Date (sub (of_Z 1700000000000)
                              (mul (Webhook.clamp_days (rt := decimal_runtime) "90" 3)
                                   (of_Z 86400000)))) = Ok since
    /\ (1700000000000 - 30 * msPerDay <= since <= 1700000000000 - msPerDay)%Z.
Proof.
  apply (review_window_start (rt := decimal_runtime) (at_time 1700000000000) "90" 3).
  vm_compute. split; discriminate.
Defined.

Lemma replied_scores_no_more_witness :
  (Webhook.score_of (at_time 1700000000000) answered
   <= Webhook.score_of (at_time 1700000000000) question)%R.
Proof.
  apply (replied_scores_no_more (at_time 1700000000000) answered question);
    try reflexivity.
  discriminate.
Defined.

Lemma newer_scores_more_witness :
  (Webhook.score_of (at_time 1700000000000) note
   <= Webhook.score_of (at_time 1700000000000)
        (new_message "m2" (Some 44%Z) (Some 9%Z) 5%Z "u0" "eggs" 1700000000000%Z
           (text_update 44 "eggs")))%R.
Proof.
  apply (newer_scores_more (at_time 1700000000000) note); try reflexivity.
  vm_compute. discriminate.
Defined.


Lemma handleDone_unknown_id_witness :
  Webhook.handleDone (at_time 1700000100000) (Some "zz") (Some 5%Z) None two_messages =
    (Ok tt,
     {| Webhook.store := Webhook.store two_messages;
        Webhook.calls := [Webhook.sendMessage (Some 5%Z) Webhook.MarkedDone None] |}).
Proof.
  apply (handleDone_unknown_id (at_time 1700000100000) "zz" (Some 5%Z) None two_messages).
  - reflexivity.
  - intros m [<-|[<-|[]]]; discriminate.
Defined.

Lemma handleSnooze_not_finite_witness :
  Webhook.handleSnooze (at_time 1700000000000) (Some "m0") NaN (Some 5%Z) None open_followup
  = (Throw (RangeError "Invalid time value"), open_followup).
Proof.
  apply (handleSnooze_not_finite (at_time 1700000000000) (Some "m0") NaN (Some 5%Z) None
           open_followup).
  reflexivity.
Defined.

Lemma upsertUser_same_row_witness :
  let r1 := Webhook.upsertUser (Some alice) start in
  let r2 := Webhook.upsertUser (Some alice_renamed) (snd r1) in
  exists row1 row2,
    fst r1 = Ok (Some row1)
    /\ fst r2 = Ok (Some row2)
    /\ u_id row2 = u_id row1
    /\ display_name row2 = "al"
    /\ List.length (users (Webhook.store (snd r2)))
       = List.length (users (Webhook.store (snd r1))).
Proof.
  exact (upsertUser_same_row alice alice_renamed 9%Z start eq_refl eq_refl).
Defined.

Lemma review_buttons_round_trip_witness :
  Webhook.serve (rt := decimal_runtime) webhook_config (at_time 1700000100000)
    (Some "telegram-secret") (pressed "done:m0") open_followup
  = bind (Webhook.handleDone (at_time 1700000100000) (Some "m0") (Some 5%Z) (Some "q1"))
      (fun _ => ret (Webhook.ok Webhook.BodyOk 200)) open_followup
  /\ Webhook.serve (rt := decimal_runtime) webhook_config (at_time 1700000100000)
       (Some "telegram-secret") (pressed "snooze:m0:24") open_followup
     = bind (Webhook.handleSnooze (at_time 1700000100000) (Some "m0") (of_Z 24) (Some 5%Z)
               (Some "q1"))
         (fun _ => ret (Webhook.ok Webhook.BodyOk 200)) open_followup.
Proof.
  split.
  - apply (proj1 (review_buttons_round_trip (rt := decimal_runtime) webhook_config
                    (at_time 1700000100000) "m0" _ (pressed "done:m0") open_followup
                    eq_refl eq_refl eq_refl)).
    reflexivity.
  - apply (proj2 (review_buttons_round_trip (rt := decimal_runtime) webhook_config
                    (at_time 1700000100000) "m0" _ (pressed "snooze:m0:24") open_followup
                    eq_refl eq_refl eq_refl)).
    reflexivity.
Defined.

Lemma snooze_command_words_witness :
  List.Forall word ["/snooze"; "m0"; "1"]
  /\ Webhook.command (rt := decimal_runtime) (at_time 1700000060000) 5 "snooze"
       (snd (Webhook.parseCommand ("  /snooze   m0" +:+ Webhook.newline +:+ " 1 ")))
       open_followup
     = Webhook.handleSnooze (at_time 1700000060000) (Some "m0") (of_Z 1) (Some 5%Z) None
         open_followup.
Proof.
  apply (snooze_command_words (rt := decimal_runtime) (at_time 1700000060000) 5
           ("  /snooze   m0" +:+ Webhook.newline +:+ " 1 ") open_followup).
  vm_compute. lia.
Defined.


Lemma embed_dimensions_default_witness :
  Classify.OPENAI_EMBED_DIMENSIONS (rt := decimal_runtime) classify_config = 2%Z
  /\ Classify.OPENAI_EMBED_DIMENSIONS (rt := decimal_runtime)
       {| Classify.INTERNAL_FUNCTION_SECRET := "internal-secret";
          Classify.OPENAI_EMBED_DIMENSIONS_env := Some "many" |} = 3072%Z.
Proof.
  split.
  - apply (proj1 (proj2 (embed_dimensions_default (rt := decimal_runtime) classify_config))
             (2 # 1) eq_refl eq_refl).
  - apply (proj2 (proj2 (proj2 (embed_dimensions_default (rt := decimal_runtime)
                                  {| Classify.INTERNAL_FUNCTION_SECRET := "internal-secret";
                                     Classify.OPENAI_EMBED_DIMENSIONS_env := Some "many" |})))
             eq_refl).
Defined.

Lemma createdAt_of_seconds_witness :
  Webhook.createdAt_of (at_time 1700000000123) (text_message "hello")
  = Some 1700000000000%Z
  /\ exists t, Webhook.createdAt_of (at_time 1700000000123) undated = Some t
               /\ (t <= 1700000000123 < t + 1000)%Z /\ (t mod 1000 = 0)%Z.
Proof.
  split.
  - apply (createdAt_of_seconds (at_time 1700000000123) (text_message "hello")).
    + vm_compute. split; discriminate.
    + vm_compute. discriminate.
  - apply (createdAt_of_seconds (at_time 1700000000123) undated).
    vm_compute. split; discriminate.
Defined.

Lemma serve_turned_down_witness :
  resolved = resolved /\ In 404%Z [403; 400; 404]%Z.
Proof.
  apply (serve_turned_down (rt := decimal_runtime) classify_config classifier_down
           (Some "internal-secret") (Some (JObj [("messageId", JStr "zz")]))
           resolved resolved
           (Classify.ok (Classify.BodyError "not_found") 404)).
  - reflexivity.
  - discriminate.
Defined.

Lemma serve_days_not_a_number_witness :
  Summarize.serve (rt := decimal_runtime) summarize_config noon_10_march_2024
    (Some "internal-secret") (Some (JObj [("days", JStr "soon")])) cached_week
  = (Throw (RangeError "Invalid time value"), cached_week).
Proof.
  apply (serve_days_not_a_number (rt := decimal_runtime) summarize_config
           noon_10_march_2024 [("days", JStr "soon")] cached_week).
  reflexivity.
Defined.

Lemma summary_cached_after_witness :
  Summarize.serve (rt := decimal_runtime) summarize_config late_10_march_2024
    (Some "internal-secret") week_request after_digest
  = (Ok (Summarize.ok (Summarize.BodySummary digest) 200), after_digest).
Proof.
  apply (summary_cached_after (rt := decimal_runtime) summarize_config
           (model_answers true 200 (chat_answer "digest")) (Some "internal-secret")
           week_request no_summaries after_digest digest).
  - vm_compute. reflexivity.
  - reflexivity.
  - reflexivity.
Defined.

Lemma summarize_ignores_status_witness :
  Summarize.summarize (model_answers true 200 (JObj [])) [note] (of_Z 7) no_summaries
  = Summarize.summarize (model_answers false 401 (JObj [])) [note] (of_Z 7) no_summaries
  /\ fst (Summarize.summarize (model_answers true 200 (JObj [])) [note] (of_Z 7)
            no_summaries) = Ok (JStr "_(empty)_").
Proof.
  destruct (summarize_ignores_status (model_answers true 200 (JObj []))
              (model_answers false 401 (JObj [])) [note] (of_Z 7) no_summaries
              true false 200%Z 401%Z (JObj []) eq_refl eq_refl) as [Hsame Hempty].
  split; [exact Hsame | exact (Hempty eq_refl)].
Defined.

End MoreInstances.
